(** * AVIENTER 2D rocket flight simulator: the physics engine, embedded and verified

    A shallow embedding of [RocketConstants], [RocketPhysics.jsx] and
    [RocketLandingPrediction.jsx].  JavaScript numbers are IEEE-754 binary64
    values, modelled by Rocq's primitive [float]; the loop of
    [calculateFlightPath] is a step function on an explicit state record. *)

From Stdlib Require Import ZArith List String Ascii Bool Lia Floats.
Import ListNotations.

#[local] Set Warnings "-inexact-float,-register-all".
Local Open Scope float_scope.

(** ** JavaScript numbers *)

(** The global [isNaN] and [isFinite] on a number. *)
Definition isNaN (x : float) : bool := is_nan x.
Definition isFinite (x : float) : bool := is_finite x.

(** A mathematical integer as a number (rounded to nearest when it does not fit). *)
Definition of_Z (z : Z) : float := SF2Prim (binary_normalize prec emax z 0 false).

(** The integer below a finite number ([None] for NaN and the infinities). *)
Definition floorZ (x : float) : option Z :=
  match Prim2SF x with
  | S754_zero _ => Some 0%Z
  | S754_finite s m e =>
      let n := if s then Z.neg m else Z.pos m in
      Some (if (0 <=? e)%Z then (n * 2 ^ e)%Z else (n / 2 ^ (- e))%Z)
  | _ => None
  end.

(** ** The [Math] object *)

Module Math.

(** The functions ECMAScript leaves implementation-approximated.  The engine
    is verified for every implementation of them. *)
Class Impl : Type := {
  pow : float -> float -> float;
  sin : float -> float;
  cos : float -> float;
  atan : float -> float;
  atan2 : float -> float -> float
}.

Definition PI : float := 3.141592653589793.

Definition abs (x : float) : float := PrimFloat.abs x.
Definition sqrt (x : float) : float := PrimFloat.sqrt x.

(** [Math.min] and [Math.max]: NaN when an argument is NaN, and -0 below +0. *)
Definition min (a b : float) : float :=
  if is_nan a || is_nan b then nan
  else if a <? b then a
  else if b <? a then b
  else if get_sign a then a else b.

Definition max (a b : float) : float :=
  if is_nan a || is_nan b then nan
  else if a <? b then b
  else if b <? a then a
  else if get_sign a then b else a.

(** [Math.floor]: a number with an exponent >= 0 is an integer already. *)
Definition floor (x : float) : float :=
  match Prim2SF x with
  | S754_finite s m e =>
      if (0 <=? e)%Z then x
      else
        let n := ((if s then Z.neg m else Z.pos m) / 2 ^ (- e))%Z in
        if (n =? 0)%Z then (if s then neg_zero else zero) else of_Z n
  | _ => x
  end.

(** [Math.sign]: NaN, and the two zeros, are returned as they are. *)
Definition sign (x : float) : float :=
  if is_nan x then nan
  else if 0 <? x then 1
  else if x <? 0 then -1
  else x.

End Math.

(** ** JavaScript strings: sequences of UTF-16 code units *)

Definition jsstring := list N.

Fixpoint js (s : string) : jsstring :=
  match s with
  | EmptyString => []
  | String c r => N_of_ascii c :: js r
  end.

Fixpoint jsstring_eqb (a b : jsstring) : bool :=
  match a, b with
  | [], [] => true
  | x :: a', y :: b' => N.eqb x y && jsstring_eqb a' b'
  | _, _ => false
  end.

(** [s.split(sep)] for a one-unit separator. *)
Fixpoint split_on (sep : N) (s : jsstring) : list jsstring :=
  match s with
  | [] => [[]]
  | c :: r =>
      if N.eqb c sep then [] :: split_on sep r
      else match split_on sep r with
           | [] => [[c]]
           | w :: ws => (c :: w) :: ws
           end
  end.

(** [s.slice(k)] for k >= 0. *)
Definition slice_from (k : nat) (s : jsstring) : jsstring := skipn k s.

Definition is_js_whitespace (c : N) : bool :=
  existsb (N.eqb c) [9; 10; 11; 12; 13; 32; 160; 5760; 8232; 8233; 8239; 8287; 12288; 65279]%N
  || (8192 <=? c)%N && (c <=? 8202)%N.

Fixpoint skip_whitespace (s : jsstring) : jsstring :=
  match s with
  | c :: r => if is_js_whitespace c then skip_whitespace r else s
  | [] => []
  end.

(** The value of a code unit as a digit of the given radix. *)
Definition digit_value (radix : N) (c : N) : option N :=
  let d :=
    if (48 <=? c)%N && (c <=? 57)%N then Some (c - 48)%N
    else if (97 <=? c)%N && (c <=? 122)%N then Some (c - 87)%N
    else if (65 <=? c)%N && (c <=? 90)%N then Some (c - 55)%N
    else None in
  match d with
  | Some v => if (v <? radix)%N then Some v else None
  | None => None
  end.

(** The longest prefix of digits, read as an integer ([None] when empty). *)
Fixpoint read_digits (radix : N) (acc : option N) (s : jsstring) : option N :=
  match s with
  | c :: r =>
      match digit_value radix c with
      | Some v =>
          read_digits radix
            (Some (match acc with Some a => a * radix + v | None => v end)%N) r
      | None => acc
      end
  | [] => acc
  end.

(** [parseInt(s)] without a radix argument; [undefined] (a missing piece of a
    split, [None] here) is read as the string "undefined", which has no digit. *)
Definition parseInt (os : option jsstring) : float :=
  match os with
  | None => nan
  | Some s0 =>
      let s := skip_whitespace s0 in
      let '(neg, s) :=
        match s with
        | 45%N :: r => (true, r)
        | 43%N :: r => (false, r)
        | _ => (false, s)
        end in
      let '(radix, s) :=
        match s with
        | 48%N :: (120%N :: r) => (16%N, r)
        | 48%N :: (88%N :: r) => (16%N, r)
        | _ => (10%N, s)
        end in
      match read_digits radix None s with
      | None => nan
      | Some n => if neg then - of_Z (Z.of_N n) else of_Z (Z.of_N n)
      end
  end.

(** IEEE remainder with the sign of the dividend: the [%] operator on numbers.
    The result is exact, so it is computed on integers at the smaller exponent. *)
Definition js_rem (a b : float) : float :=
  match Prim2SF a, Prim2SF b with
  | S754_nan, _ | _, S754_nan => nan
  | S754_infinity _, _ => nan
  | _, S754_zero _ => nan
  | _, S754_infinity _ => a
  | S754_zero _, _ => a
  | S754_finite sa ma ea, S754_finite _ mb eb =>
      let e := Z.min ea eb in
      let r := Z.rem (Z.pos ma * 2 ^ (ea - e)) (Z.pos mb * 2 ^ (eb - e)) in
      if (r =? 0)%Z then (if sa then neg_zero else zero)
      else
        let q := SF2Prim (binary_normalize prec emax r e false) in
        if sa then - q else q
  end.

(** ** JavaScript values *)

(** The values the engine's functions can be handed: primitives and plain
    objects (a list of own properties, first binding wins). *)
Inductive value :=
| VUndefined
| VNull
| VBoolean (b : bool)
| VNumber (x : float)
| VString (s : jsstring)
| VObject (props : list (string * value)).

(** The conversions between strings and numbers that the host provides
    ([Number(s)], [String(x)], [parseFloat]); they are not modelled further. *)
Class Conversions : Type := {
  StringToNumber : jsstring -> float;
  NumberToString : float -> jsstring;
  parseFloat : jsstring -> float
}.

Fixpoint lookup_prop (k : string) (props : list (string * value)) : value :=
  match props with
  | [] => VUndefined
  | (k', v) :: r => if String.eqb k k' then v else lookup_prop k r
  end.

(** [o.k] for an object; reading a property of a primitive gives [undefined]
    (of [undefined] or [null] it throws, which callers check with [is_nullish]). *)
Definition get (o : value) (k : string) : value :=
  match o with
  | VObject props => lookup_prop k props
  | _ => VUndefined
  end.

Definition is_nullish (v : value) : bool :=
  match v with VUndefined | VNull => true | _ => false end.

(** [!v]. *)
Definition falsy (v : value) : bool :=
  match v with
  | VUndefined | VNull => true
  | VBoolean b => negb b
  | VNumber x => (x =? 0) || is_nan x
  | VString s => match s with [] => true | _ => false end
  | VObject _ => false
  end.

Definition typeof_is_object (v : value) : bool :=
  match v with VNull | VObject _ => true | _ => false end.

Definition typeof_is_number (v : value) : bool :=
  match v with VNumber _ => true | _ => false end.

(** Whether a value is a primitive.  Arithmetic converts a primitive to a
    number without calling a method of it; an object is converted through
    its [valueOf] and [toString], which for an object that has properties of
    these names of its own are not the methods [ToNumber] and [ToString]
    assume above. *)
Definition is_primitive (v : value) : bool :=
  match v with VObject _ => false | _ => true end.

(** [v === 'literal'] and [v === number]. *)
Definition strict_eq_string (v : value) (s : string) : bool :=
  match v with VString t => jsstring_eqb t (js s) | _ => false end.

Definition strict_eq_number (v : value) (n : float) : bool :=
  match v with VNumber x => x =? n | _ => false end.

Section Coercions.

Context {C : Conversions}.

(** [ToNumber] and [ToString].  An object is converted through the methods
    it inherits from [Object.prototype], which give "[object Object]" and hence
    NaN; an object with a [toString] or [valueOf] of its own is converted
    through these instead, which the two functions do not follow: where a
    value handed in from outside is converted, the statements below assume
    [is_primitive] of it. *)
Definition ToNumber (v : value) : float :=
  match v with
  | VUndefined => nan
  | VNull => 0
  | VBoolean b => if b then 1 else 0
  | VNumber x => x
  | VString s => StringToNumber s
  | VObject _ => nan
  end.

Definition ToString (v : value) : jsstring :=
  match v with
  | VUndefined => js "undefined"
  | VNull => js "null"
  | VBoolean b => if b then js "true" else js "false"
  | VNumber x => NumberToString x
  | VString s => s
  | VObject _ => js "[object Object]"
  end.

(** The [+] operator: concatenation as soon as one side is a string or an object. *)
Definition js_plus (a b : value) : value :=
  match a, b with
  | (VString _ | VObject _), _ | _, (VString _ | VObject _) =>
      VString (ToString a ++ ToString b)
  | _, _ => VNumber (ToNumber a + ToNumber b)
  end.

Fixpoint jsstring_ltb (a b : jsstring) : bool :=
  match a, b with
  | _, [] => false
  | [], _ :: _ => true
  | x :: a', y :: b' => (x <? y)%N || (N.eqb x y && jsstring_ltb a' b')
  end.

(** [a >= b]: code-unit order on two strings (an object compares as the string
    it converts to), numeric order otherwise; false when a side is NaN. *)
Definition js_ge (a b : value) : bool :=
  match a, b with
  | (VString _ | VObject _), (VString _ | VObject _) =>
      negb (jsstring_ltb (ToString a) (ToString b))
  | _, _ => ToNumber b <=? ToNumber a
  end.

Definition js_lt (a b : value) : bool :=
  match a, b with
  | (VString _ | VObject _), (VString _ | VObject _) =>
      jsstring_ltb (ToString a) (ToString b)
  | _, _ => ToNumber a <? ToNumber b
  end.

End Coercions.

(** What a call produces: a value, an uncaught exception, or no answer within
    the given number of loop iterations. *)
Inductive outcome (A : Type) :=
| Returned (a : A)
| Thrown
| OutOfFuel.
Arguments Returned {A} a.
Arguments Thrown {A}.
Arguments OutOfFuel {A}.

Definition bind {A B : Type} (o : outcome A) (k : A -> outcome B) : outcome B :=
  match o with
  | Returned a => k a
  | Thrown => Thrown
  | OutOfFuel => OutOfFuel
  end.

Notation "x <- c ;; k" := (bind c (fun x => k))
  (at level 61, c at next level, right associativity).

(** ** RocketConstants *)

Definition MOTOR_THRUST_DATA (motor : jsstring) : option (list float) :=
  if jsstring_eqb motor (js "1/2A6-2") then
    Some [0.000;0.445;0.891;1.336;1.782;2.227;2.673;3.118;3.564;4.009;4.455;
          3.345;2.236;2.012;1.789;1.565;1.341;1.118;1.118;1.118;1.118;1.118;
          1.118;1.118;1.118;1.118;1.118;1.118;1.118;1.118;0.894;0.671;0.447;
          0.224]
  else if jsstring_eqb motor (js "A8-3") then
    Some [0.000;0.891;1.782;2.673;3.564;4.455;5.345;6.236;7.127;8.018;8.909;
          9.800;6.900;4.000;3.600;3.200;2.800;2.400;2.400;2.400;2.400;2.400;
          2.400;2.400;2.400;2.400;2.400;2.400;2.400;2.400;2.400;2.400;2.400;
          1.600;0.800]
  else if jsstring_eqb motor (js "B6-4") then
    Some [0.000;1.782;3.564;5.345;7.127;8.909;10.691;12.473;14.255;16.036;
          17.818;19.600;13.800;8.000;7.200;6.400;5.600;4.800;4.800;4.800;
          4.800;4.800;4.800;4.800;4.800;4.800;4.800;4.800;4.800;4.800;4.800;
          3.200;1.600]
  else None.

(** Fin materials: Young's modulus E, shear modulus G, density MD. *)
Module Material.
Record t := { E : float; G : float; MD : float }.
End Material.
Definition FinMaterial := Material.t.

Definition FIN_MATERIALS (key : jsstring) : option FinMaterial :=
  if jsstring_eqb key (js "light_balsa") then
    Some {| Material.E := 2450000000; Material.G := 85750000; Material.MD := 60 |}
  else if jsstring_eqb key (js "balsa") then
    Some {| Material.E := 3000000000; Material.G := 120000000; Material.MD := 125 |}
  else if jsstring_eqb key (js "light_veneer") then
    Some {| Material.E := 8000000000; Material.G := 450000000; Material.MD := 500 |}
  else None.

(** The selections of the design form; each is named by the string that keys
    the tables above and that the engine parses. *)
Inductive NoseShape := cone | parabola | ogive.

Definition NoseShape_name (s : NoseShape) : jsstring :=
  match s with cone => js "cone" | parabola => js "parabola" | ogive => js "ogive" end.

Definition NOSE_SHAPES_cd (s : NoseShape) : float :=
  match s with cone => 0.83 | parabola => 0.7 | ogive => 0.61 end.

Inductive FinMaterialKey := light_balsa | balsa | light_veneer.

Definition FinMaterialKey_name (k : FinMaterialKey) : jsstring :=
  match k with
  | light_balsa => js "light_balsa"
  | balsa => js "balsa"
  | light_veneer => js "light_veneer"
  end.

Inductive Motor := Motor_half_A6_2 | Motor_A8_3 | Motor_B6_4.

Definition Motor_name (m : Motor) : jsstring :=
  match m with
  | Motor_half_A6_2 => js "1/2A6-2"
  | Motor_A8_3 => js "A8-3"
  | Motor_B6_4 => js "B6-4"
  end.

Inductive Parachute := Phi180 | Phi250 | Phi300 | Phi600 | Phi900.

(** The designation starts with the code unit of the Greek letter phi (U+03C6). *)
Definition Parachute_name (p : Parachute) : jsstring :=
  966%N :: match p with
           | Phi180 => js "180"
           | Phi250 => js "250"
           | Phi300 => js "300"
           | Phi600 => js "600"
           | Phi900 => js "900"
           end.

Inductive WindProfile := uniform | openSea | farmland | suburban | urban.

Definition WIND_PROFILES_alpha (p : WindProfile) : float :=
  match p with
  | uniform => 0
  | openSea => 0.12
  | farmland => 0.2
  | suburban => 0.3
  | urban => 0.4
  end.

Definition launchRailLength : float := 0.65.
Definition ANGLE_RESPONSE_DT : float := 0.2.
Definition ANGLE_STEPS_PER_UPDATE : float := 10.

Definition mmToM (mm : float) : float := mm / 1000.
Definition gToKg (g : float) : float := g / 1000.

(** ** The data model *)

(** The parameter object of a design whose selections are valid; [finCp] is
    absent until [calculateFlightPath] has stored it on the object. *)
Record RocketParams := {
  noseShape : NoseShape;
  noseHeight : float;
  bodyHeight : float;
  bodyWidth : float;
  finHeight : float;
  finBaseWidth : float;
  finTipWidth : float;
  finThickness : float;
  finSweepLength : float;
  finMaterial : FinMaterialKey;
  finCount : float;
  weight : float;
  centerOfGravity : float;
  selectedMotor : Motor;
  selectedParachute : Parachute;
  finCp : option float
}.

(** The same object as a JavaScript value. *)
Definition prop (k : string) (v : value) : string * value := (k, v).

Definition to_value (rp : RocketParams) : value :=
  VObject
    (app
       [ prop "noseShape" (VString (NoseShape_name (noseShape rp)));
         prop "noseHeight" (VNumber (noseHeight rp));
         prop "bodyHeight" (VNumber (bodyHeight rp));
         prop "bodyWidth" (VNumber (bodyWidth rp));
         prop "finHeight" (VNumber (finHeight rp));
         prop "finBaseWidth" (VNumber (finBaseWidth rp));
         prop "finTipWidth" (VNumber (finTipWidth rp));
         prop "finThickness" (VNumber (finThickness rp));
         prop "finSweepLength" (VNumber (finSweepLength rp));
         prop "finMaterial" (VString (FinMaterialKey_name (finMaterial rp)));
         prop "finCount" (VNumber (finCount rp));
         prop "weight" (VNumber (weight rp));
         prop "centerOfGravity" (VNumber (centerOfGravity rp));
         prop "selectedMotor" (VString (Motor_name (selectedMotor rp)));
         prop "selectedParachute" (VString (Parachute_name (selectedParachute rp))) ]
       match finCp rp with
       | Some v => [prop "finCp" (VNumber v)]
       | None => []
       end).

Definition set_finCp (rp : RocketParams) (v : float) : RocketParams :=
  {| noseShape := noseShape rp; noseHeight := noseHeight rp;
     bodyHeight := bodyHeight rp; bodyWidth := bodyWidth rp;
     finHeight := finHeight rp; finBaseWidth := finBaseWidth rp;
     finTipWidth := finTipWidth rp; finThickness := finThickness rp;
     finSweepLength := finSweepLength rp; finMaterial := finMaterial rp;
     finCount := finCount rp; weight := weight rp;
     centerOfGravity := centerOfGravity rp; selectedMotor := selectedMotor rp;
     selectedParachute := selectedParachute rp; finCp := Some v |}.

Module Areas.
(** [noseArea] is absent from the object returned on invalid parameters. *)
Record t := {
  frontalArea : float;
  sideArea : float;
  noseArea : option float;
  finArea : float;
  totalFinArea : float;
  angledArea : float
}.
Definition zero : t :=
  {| frontalArea := 0; sideArea := 0; noseArea := None; finArea := 0;
     totalFinArea := 0; angledArea := 0 |}.
End Areas.

Module Volumes.
Record t := { bodyVolume : float; noseVolume : float; totalVolume : float }.
End Volumes.

Module Pressure.
Record t := {
  noseCp : float;
  bodyCp : float;
  finCp : float;
  centerOfPressure : float;
  foreBodyCp : float
}.
End Pressure.

Module Margins.
Record t := { standardStaticMargin : float; stabilityStaticMargin : float }.
End Margins.

(** A named point of the flight. *)
Module KeyPoint.
Record t := { time : float; height : float; speed : float }.
Definition zero : t := {| time := 0; height := 0; speed := 0 |}.
End KeyPoint.

Module KeyPoints.
Record t := {
  thrustEnd : KeyPoint.t;
  prec_MaxHeight : KeyPoint.t;
  maxHeight : KeyPoint.t;
  parachuteEjection : KeyPoint.t;
  parachuteActive : KeyPoint.t
}.
Definition initial : t :=
  {| thrustEnd := KeyPoint.zero; prec_MaxHeight := KeyPoint.zero;
     maxHeight := KeyPoint.zero; parachuteEjection := KeyPoint.zero;
     parachuteActive := KeyPoint.zero |}.
Definition set_thrustEnd (k : t) (p : KeyPoint.t) : t :=
  {| thrustEnd := p; prec_MaxHeight := prec_MaxHeight k; maxHeight := maxHeight k;
     parachuteEjection := parachuteEjection k; parachuteActive := parachuteActive k |}.
Definition set_prec_MaxHeight (k : t) (p : KeyPoint.t) : t :=
  {| thrustEnd := thrustEnd k; prec_MaxHeight := p; maxHeight := maxHeight k;
     parachuteEjection := parachuteEjection k; parachuteActive := parachuteActive k |}.
Definition set_maxHeight (k : t) (p : KeyPoint.t) : t :=
  {| thrustEnd := thrustEnd k; prec_MaxHeight := prec_MaxHeight k; maxHeight := p;
     parachuteEjection := parachuteEjection k; parachuteActive := parachuteActive k |}.
Definition set_parachuteEjection (k : t) (p : KeyPoint.t) : t :=
  {| thrustEnd := thrustEnd k; prec_MaxHeight := prec_MaxHeight k; maxHeight := maxHeight k;
     parachuteEjection := p; parachuteActive := parachuteActive k |}.
Definition set_parachuteActive (k : t) (p : KeyPoint.t) : t :=
  {| thrustEnd := thrustEnd k; prec_MaxHeight := prec_MaxHeight k; maxHeight := maxHeight k;
     parachuteEjection := parachuteEjection k; parachuteActive := p |}.
End KeyPoints.

(** One row of the recorded trajectory (the object pushed on [data]). *)
Module Sample.
Record t := {
  time : float;
  physicsX : float;
  physicsY : float;
  height : float;
  vx : float;
  vy : float;
  ax : float;
  ay : float;
  speedMagnitude : float;
  accelerationMagnitude : float;
  angularVelocity : float;
  angularAcceleration : float;
  isParachuteEjected : bool;
  isParachuteActive : bool;
  parachuteDeploymentProgress : float;
  omega : float;
  omegaDegrees : float;
  torque : float;
  angleChangePerDt2 : float;
  horizontalDistance : float;
  finDeflection : float;
  angleDeviationDegrees : float;
  effectiveWindSpeed : float;
  isThrustActive : bool;
  absoluteAngleDegrees : float;
  isAbsoluteAngleOK : bool;
  angleChangeLimit : float;
  absoluteAngleLimit : float
}.
End Sample.

(** An entry of the [angleChanges] history. *)
Record AngleChange := {
  ac_time : float;
  ac_deltaOmega : float;
  ac_thrustActive : bool;
  ac_parachuteActive : bool
}.

(** The variables of [calculateFlightPath] that its loop updates. *)
Module St.
Record t := {
  time : float;
  x : float;
  y : float;
  vx : float;
  vy : float;
  prev_vx : float;
  prev_vy : float;
  omega : float;
  angularVelocity : float;
  angularAcceleration : float;
  data : list Sample.t;
  isParachuteEjected : bool;
  isParachuteActive : bool;
  parachuteDeploymentProgress : float;
  finDeflection : float;
  maxAngleChangePerDt2 : float;
  isAngleStableOK : bool;
  isAbsoluteAngleOK : bool;
  thrustEndFlag : bool;
  angleChanges : list AngleChange;
  angleChangeBuffer : list float;
  maxAbsoluteAngle : float;
  stepCounter : float;
  totalTorque : float;
  avgThrustForTorque : float;
  thrustSamplesCount : float;
  angleChangePerDt2 : float;
  prec_MaxHeight : float;
  maxHeight : float;
  maxSpeed : float;
  maxDistance : float;
  maxFinDeflection : float;
  keyPoints : KeyPoints.t;
  isTorqueStableOK : bool;
  prevOmega : float
}.
End St.

(** The [config] argument: absent, or an object whose toggles may be absent. *)
Record Config := {
  enhancedAttitudeControl : option bool;
  windAngleLimitation : option bool
}.

(** The arguments and the values computed once, before the loop. *)
Module Env.
Record t := {
  rocketParams : RocketParams;
  angle : float;
  windSpeed : float;
  windProfile : WindProfile;
  useEnhancedAttitudeControl : bool;
  useWindAngleLimitation : bool;
  mass_kg : float;
  thrustData : list float;
  bodyDiameter : float;
  bodyLength : float;
  finwidth_m : float;
  finThickness_m : float;
  finMaterial : FinMaterial;
  momentOfInertia : float;
  noseCd : float;
  thrustEndTime : float;
  parachuteEjectionTime : float;
  parachuteActiveTime : float;
  parachuteDiameter : float;
  projectedAreas : Areas.t;
  centerOfPressure : Pressure.t;
  aerodynamicCenter : float
}.
End Env.

Module AngleStability.
Record t := {
  maxAngleChangePerDt2 : float;
  isAngleStableOK : bool;
  isAbsoluteAngleOK : bool;
  isTorqueStableOK : bool;
  isStabilityOverallOK : bool;
  maxAbsoluteAngle : float
}.
End AngleStability.

(** What [calculateFlightPath] returns (without [calculations], the rounded
    figures for display). *)
Module FlightResult.
Record t := {
  data : list Sample.t;
  prec_MaxHeight : float;
  maxHeight : float;
  maxSpeed : float;
  maxDistance : float;
  maxFinDeflection : float;
  keyPoints : KeyPoints.t;
  angleStability : AngleStability.t;
  projectedAreas : Areas.t;
  volumes : Volumes.t;
  pressureCenter : Pressure.t;
  aerodynamicCenter : float;
  stabilityCenterOfPressure : float;
  staticMargins : Margins.t
}.

(** The property names of the object literal that [calculateFlightPath]
    returns, in the order of the source; [calculations] holds rounded copies
    of other properties for display and is not part of the record above. *)
Definition properties : list string :=
  ["data"; "prec_MaxHeight"; "maxHeight"; "maxSpeed"; "maxDistance";
   "maxFinDeflection"; "keyPoints"; "angleStability"; "projectedAreas"; "volumes";
   "pressureCenter"; "aerodynamicCenter"; "stabilityCenterOfPressure";
   "staticMargins"; "calculations"]%string.

(** [flight.error?.hasError] as read by a caller: the truthiness of a property
    that the object may not have. *)
Definition error_hasError : bool :=
  existsb (String.eqb "error") properties.
End FlightResult.

(** RocketPhysics: the module's constants. *)
Definition PHYSICAL_ATTITUDE_CONTROL : bool := true.
Definition ENHANCED_ATTITUDE_CONTROL : bool := false.
Definition WIND_ANGLE_LIMITATION : bool := false.

Definition dt : float := 0.02.
Definition dt2 : float := ANGLE_RESPONSE_DT.
Definition MAX_TIME : float := 20.
Definition g : float := 9.81.
Definition TORQUE_THRESHOLD : float := 10.0.
Definition MAX_ANGLE_CHANGE_PER_DT2 : float := 45.0.
Definition MAX_ABSOLUTE_ANGLE : float := 112.5.
Definition parachuteDeployTime : float := 1.0.

(** The clock of the loop after [n] iterations: [time += dt], [n] times from 0. *)
Definition clockAfter (n : nat) : float := Nat.iter n (fun time => time + dt) 0.

(** [a[i]] read in a numeric context: an element for an integer index inside
    the array, NaN ([undefined]) otherwise. *)
Definition array_get (a : list float) (i : float) : float :=
  if Math.floor i =? i then
    match floorZ i with
    | Some z => if (0 <=? z)%Z then nth (Z.to_nat z) a nan else nan
    | None => nan
    end
  else nan.

Definition array_length {A : Type} (a : list A) : float := of_Z (Z.of_nat (List.length a)).

(** [a.reduce((sum, change) => sum + change, 0)]. *)
Definition sum_from_zero (a : list float) : float := fold_left add a 0.

(** The parachute flags and the velocity after the phase transitions of a step. *)
Record Phase := {
  ph_isParachuteEjected : bool;
  ph_isParachuteActive : bool;
  ph_parachuteDeploymentProgress : float;
  ph_vx : float;
  ph_vy : float;
  ph_keyPoints : KeyPoints.t
}.

(** The constants of one iteration, computed at its start. *)
Record Locals := {
  distanceFromStart : float;
  onLaunchRail : bool;
  velocity : float;
  effectiveWindSpeed : float;
  isCurrentlyZeroWind : bool;
  adjustedOmega : float;
  normalizedAbsoluteAngle : float
}.

Record Moments := { ML : float; MD : float; MW : float; MF : float }.

(** The torque of a free-flight step, or the [break] of the abnormal-torque guard. *)
Inductive TorqueResult :=
| TorqueAbort
| TorqueValue (torque : float).

Record ForceOut := {
  fo_ax : float;
  fo_ay : float;
  fo_torque : float;
  fo_avgThrustForTorque : float;
  fo_thrustSamplesCount : float;
  fo_thrustEndFlag : bool;
  fo_keyPoints : KeyPoints.t
}.

(** The forces of a step; on [break], what the phase had assigned before it. *)
Inductive ForceResult :=
| ForceAbort (avgThrustForTorque thrustSamplesCount : float)
             (thrustEndFlag : bool) (keyPoints : KeyPoints.t)
| ForceOk (o : ForceOut).

Record AngleUpd := {
  au_angularAcceleration : float;
  au_angularVelocity : float;
  au_angleChangePerDt2 : float;
  au_maxAngleChangePerDt2 : float;
  au_isAngleStableOK : bool;
  au_stepCounter : float;
  au_totalTorque : float;
  au_avgThrustForTorque : float;
  au_thrustSamplesCount : float
}.

Record AttUpd := {
  at_omega : float;
  at_prevOmega : float;
  at_angleChanges : list AngleChange;
  at_angleChangeBuffer : list float;
  at_maxAngleChangePerDt2 : float;
  at_isAngleStableOK : bool
}.

(** How an iteration of the loop ends: at [break], or at the end of its body. *)
Inductive StepResult :=
| Break (s : St.t)
| Next (s : St.t).

(** ** RocketLandingPrediction: the data *)

(** What [predictLanding] reads of a trajectory row; each property may be absent. *)
Module Point.
Record t := {
  height : option float;
  physicsX : option float;
  vx : option float;
  vy : option float;
  isParachuteActive : option bool;
  isParachuteEjected : option bool
}.
Definition of_sample (p : Sample.t) : t :=
  {| height := Some (Sample.height p);
     physicsX := Some (Sample.physicsX p);
     vx := Some (Sample.vx p);
     vy := Some (Sample.vy p);
     isParachuteActive := Some (Sample.isParachuteActive p);
     isParachuteEjected := Some (Sample.isParachuteEjected p) |}.
End Point.

(** The [flightData] argument: an array of rows (a row may be [null] or
    [undefined]), an object that carries such an array as [data], a number, or
    anything else that is not an array. *)
Inductive FlightData :=
| FD_array (rows : list (option Point.t))
| FD_object_with_data (rows : list (option Point.t))
| FD_number (x : float)
| FD_not_an_array.

(** What [predictLanding] reads of the parameter object: three numbers, and
    [selectedParachute], on which it calls [replace] whatever the value is. *)
Record LandingParams := {
  lp_weight : float;
  lp_bodyWidth : float;
  lp_bodyHeight : float;
  lp_selectedParachute : value
}.

Definition LandingParams_of (rp : RocketParams) : LandingParams :=
  {| lp_weight := weight rp;
     lp_bodyWidth := bodyWidth rp;
     lp_bodyHeight := bodyHeight rp;
     lp_selectedParachute := VString (Parachute_name (selectedParachute rp)) |}.

Module Landing.
Record t := {
  landingX : float;
  landingDistance : float;
  timeToLanding : float;
  isPrediction : bool
}.
End Landing.

(** The variables of the loop of [predictLanding]. *)
Module Descent.
Record t := {
  currentHeight : float;
  currentX : float;
  currentVx : float;
  currentVy : float;
  remainingTime : float
}.
End Descent.

(** [s.replace(c, '')] for a one-unit pattern: the first occurrence is dropped. *)
Fixpoint remove_first (c : N) (s : jsstring) : jsstring :=
  match s with
  | [] => []
  | d :: r => if N.eqb d c then r else d :: remove_first c r
  end.

(** [a ?? b] on an optional number or flag. *)
Definition or_else {A : Type} (o : option A) (default : A) : A :=
  match o with Some a => a | None => default end.

(** [x || y] on numbers: [y] when [x] is zero or NaN. *)
Definition num_or (x y : float) : float :=
  if (x =? 0) || is_nan x then y else x.

(** What [calculateFlightPathWithLanding] returns: the flight with the landing
    prediction added, or from its [catch] branch the flight computed again, or
    the bare object when that throws too. *)
Module Launch.
Record predicted := {
  time : float;
  distance : float;
  x : float;
  totalFlightTime : float
}.
Inductive t :=
| WithLanding (flight : FlightResult.t) (landing : Landing.t)
              (landingTotalFlightTime : float) (predictedLanding : predicted)
| FlightOnly (flight : FlightResult.t)
| Empty.
End Launch.

(** A property that may be [undefined], read in a numeric context. *)
Definition num (o : option float) : float :=
  match o with Some x => x | None => nan end.

Section Engine.

Context {M : Math.Impl} {C : Conversions}.

(** ** RocketPhysics: the aerodynamic properties of a design *)

(** The fields whose type [calculateProjectedArea] checks. *)
Definition numericGeometryFields : list string :=
  ["noseHeight"; "bodyHeight"; "bodyWidth"; "finHeight"; "finBaseWidth";
   "finTipWidth"; "finThickness"; "finSweepLength"]%string.

Definition calculateProjectedArea (rocketParams : value) : Areas.t :=
  if falsy rocketParams || negb (typeof_is_object rocketParams) then Areas.zero
  else
    let noseShape := get rocketParams "noseShape" in
    let noseHeight := get rocketParams "noseHeight" in
    let bodyHeight := get rocketParams "bodyHeight" in
    let bodyWidth := get rocketParams "bodyWidth" in
    let finHeight := get rocketParams "finHeight" in
    let finBaseWidth := get rocketParams "finBaseWidth" in
    let finTipWidth := get rocketParams "finTipWidth" in
    let finSweepLength := get rocketParams "finSweepLength" in
    let finThickness := get rocketParams "finThickness" in
    let finCount :=
      match get rocketParams "finCount" with VUndefined => VNumber 3 | v => v end in
    if negb (typeof_is_number noseHeight) ||
       negb (typeof_is_number bodyHeight) ||
       negb (typeof_is_number bodyWidth) ||
       negb (typeof_is_number finHeight) ||
       negb (typeof_is_number finBaseWidth) ||
       negb (typeof_is_number finTipWidth) ||
       negb (typeof_is_number finThickness) ||
       negb (typeof_is_number finSweepLength)
    then Areas.zero
    else
      let noseHeight := ToNumber noseHeight in
      let bodyHeight := ToNumber bodyHeight in
      let bodyWidth := ToNumber bodyWidth in
      let finHeight := ToNumber finHeight in
      let finBaseWidth := ToNumber finBaseWidth in
      let finTipWidth := ToNumber finTipWidth in
      let finThickness := ToNumber finThickness in
      let finSweepLength := ToNumber finSweepLength in
      let noseHeight_m := mmToM noseHeight in
      let bodyHeight_m := mmToM bodyHeight in
      let bodyWidth_m := mmToM bodyWidth in
      let bodyRadius_m := bodyWidth_m / 2 in
      let finHeight_m := mmToM finHeight in
      let finBaseWidth_m := mmToM finBaseWidth in
      let finTipWidth_m := mmToM finTipWidth in
      let frontalArea :=
        Math.PI * Math.pow bodyRadius_m 2 + (finHeight * finThickness) * 4 * 0.0000001 in
      let bodyArea := bodyWidth_m * bodyHeight_m in
      let noseArea :=
        if strict_eq_string noseShape "cone" then 0.5 * bodyWidth_m * noseHeight_m
        else if strict_eq_string noseShape "parabola" then (2 / 3) * bodyWidth_m * noseHeight_m
        else (2 / 3) * bodyWidth_m * noseHeight_m in
      let finArea :=
        if strict_eq_number finCount 3 then
          let adjustedFinHeight := finHeight_m * 1.73 / 2 in
          let overlapFinBaseWidth :=
            if finBaseWidth <=? finSweepLength + finTipWidth then
              (((finTipWidth_m - finBaseWidth_m) * finBaseWidth_m * 0.078 / finHeight_m)
               + finBaseWidth_m) - finTipWidth_m * bodyWidth_m * 0.078 / finHeight_m
            else
              ((finTipWidth_m - finBaseWidth_m) * finBaseWidth_m * 0.078 / finHeight_m)
              + finBaseWidth_m in
          (adjustedFinHeight * (finBaseWidth_m + finTipWidth_m) / 2)
          - ((overlapFinBaseWidth + finBaseWidth_m)
             * ((bodyWidth_m / 2) - bodyWidth_m * 1.73 / 4) / 2)
        else finHeight_m * (finBaseWidth_m + finTipWidth_m) / 2 in
      let totalFinArea := finArea * 2 in
      let sideArea := bodyArea + noseArea + totalFinArea in
      let angledArea := Math.sqrt (Math.pow frontalArea 2 + Math.pow sideArea 2) in
      {| Areas.frontalArea := frontalArea;
         Areas.sideArea := sideArea;
         Areas.noseArea := Some noseArea;
         Areas.finArea := finArea;
         Areas.totalFinArea := totalFinArea;
         Areas.angledArea := angledArea |}.

(** Destructuring [undefined] or [null] throws; a missing field reads as NaN. *)
Definition calculateVolume (rocketParams : value) : outcome Volumes.t :=
  if is_nullish rocketParams then Thrown
  else
    let noseShape := get rocketParams "noseShape" in
    let noseHeight_m := mmToM (ToNumber (get rocketParams "noseHeight")) in
    let bodyHeight_m := mmToM (ToNumber (get rocketParams "bodyHeight")) in
    let bodyRadius_m := mmToM (ToNumber (get rocketParams "bodyWidth")) / 2 in
    let bodyVolume := Math.PI * Math.pow bodyRadius_m 2 * bodyHeight_m in
    let noseVolume :=
      if strict_eq_string noseShape "cone" then
        (1 / 3) * Math.PI * Math.pow bodyRadius_m 2 * noseHeight_m
      else if strict_eq_string noseShape "parabola" then
        (1 / 2) * Math.PI * Math.pow bodyRadius_m 2 * noseHeight_m
      else (2 / 3) * Math.PI * Math.pow bodyRadius_m 2 * noseHeight_m in
    let totalVolume := bodyVolume + noseVolume in
    Returned {| Volumes.bodyVolume := bodyVolume;
                Volumes.noseVolume := noseVolume;
                Volumes.totalVolume := totalVolume |}.

Definition is_cone (s : NoseShape) : bool := match s with cone => true | _ => false end.
Definition is_parabola (s : NoseShape) : bool := match s with parabola => true | _ => false end.

Definition calculateCenterOfPressure (rocketParams : RocketParams) : Pressure.t :=
  let noseShape := noseShape rocketParams in
  let noseHeight := noseHeight rocketParams in
  let bodyHeight := bodyHeight rocketParams in
  let finHeight := finHeight rocketParams in
  let finBaseWidth := finBaseWidth rocketParams in
  let finTipWidth := finTipWidth rocketParams in
  let finSweepLength := finSweepLength rocketParams in
  let finCount := finCount rocketParams in
  let areas := calculateProjectedArea (to_value rocketParams) in
  let noseCp :=
    if is_cone noseShape then noseHeight * 0.666
    else if is_parabola noseShape then noseHeight * 0.614
    else noseHeight * 0.575 in
  let bodyCp := noseHeight + bodyHeight / 2 in
  let finArea_section1 :=
    if finCount =? 3 then (finBaseWidth * finHeight * 1.732 * 0.5) / 2
    else (finBaseWidth * finHeight) / 2 in
  let finArea_section2 :=
    if finCount =? 3 then (finTipWidth * finHeight * 1.732 * 0.5) / 2
    else (finTipWidth * finHeight) / 2 in
  let finCP_y_section1 := (finBaseWidth + finSweepLength) / 3 in
  let finCP_y_section2 := (finBaseWidth + finSweepLength + (finSweepLength + finTipWidth)) / 3 in
  let finSection_single :=
    if finCount =? 3 then (finBaseWidth + finTipWidth) * (finHeight * (1.732 / 2)) / 2
    else (finBaseWidth + finTipWidth) * finHeight / 2 in
  let finCP_single :=
    ((finCP_y_section1 * finArea_section1) + (finCP_y_section2 * finArea_section2))
    / finSection_single in
  let finCp := noseHeight + bodyHeight - finBaseWidth + finCP_single in
  let noseArea := num (Areas.noseArea areas) * 1000000 in
  let bodyArea := Areas.sideArea areas * 1000000 - noseArea - Areas.totalFinArea areas * 1000000 in
  let totalFinArea := Areas.totalFinArea areas * 1000000 in
  let totalArea := noseArea + bodyArea + totalFinArea in
  let centerOfPressure :=
    (noseCp * noseArea + bodyCp * bodyArea + finCp * totalFinArea) / totalArea in
  let foreBodyArea := noseArea + bodyArea in
  let foreBodyCp := (noseCp * noseArea + bodyCp * bodyArea) / foreBodyArea in
  {| Pressure.noseCp := noseCp;
     Pressure.bodyCp := bodyCp;
     Pressure.finCp := finCp;
     Pressure.centerOfPressure := centerOfPressure;
     Pressure.foreBodyCp := foreBodyCp |}.

Definition calculateAerodynamicCenter (rocketParams : RocketParams) : outcome float :=
  let noseHeight := noseHeight rocketParams in
  let bodyHeight := bodyHeight rocketParams in
  let bodyWidth := bodyWidth rocketParams in
  let finHeight := finHeight rocketParams in
  let finBaseWidth := finBaseWidth rocketParams in
  let finTipWidth := finTipWidth rocketParams in
  let finSweepLength := finSweepLength rocketParams in
  let finCount := finCount rocketParams in
  let areas := calculateProjectedArea (to_value rocketParams) in
  let lengthOfCo :=
    if finCount =? 3 then
      ((finBaseWidth - finTipWidth) / (finHeight * 1.732 / 2))
      * (((bodyWidth / 2) + finHeight) * (1.732 / 2)) + finTipWidth
    else
      ((finBaseWidth - finTipWidth) / finHeight) * ((bodyWidth / 2) + finHeight)
      + finTipWidth in
  let ramda := finTipWidth / lengthOfCo in
  volumeData <- calculateVolume (to_value rocketParams) ;;
  let c_bar := (2 * lengthOfCo / 3) * (1 + ramda + Math.pow ramda 2) / (1 + ramda) in
  let y_bar :=
    if finCount =? 3 then
      (((bodyWidth / 2) + finHeight) * (1.732 / 2)) * (1 + (2 * ramda)) / (3 * (1 + ramda))
    else (finHeight + (bodyWidth / 2)) * (1 + (2 * ramda)) / (3 * (1 + ramda)) in
  let wingArea :=
    if finCount =? 3 then
      (finTipWidth + lengthOfCo) * (((bodyWidth / 2) + finHeight) * (1.732 / 2))
    else (finTipWidth + lengthOfCo) * ((bodyWidth / 2) + finHeight) in
  let Vstar_fus := Volumes.totalVolume volumeData * 1000000000 / (c_bar * wingArea) in
  let aspectRatio :=
    if finCount =? 3 then
      ((2 * ((bodyWidth / 2) + finHeight) * (1.732 / 2)))
      * (2 * (((bodyWidth / 2) + finHeight) * (1.732 / 2))) / wingArea
    else ((2 * (finHeight + bodyWidth)) * (2 * (finHeight + bodyWidth))) / wingArea in
  let cl_alpha :=
    if finCount =? 3 then
      ((3.14 * aspectRatio) * 0.5)
      * Math.pow (1 - Math.pow ((bodyWidth / 2) / (((finHeight + (bodyWidth / 2)) * 1.732 / 4))) 2) 2
    else
      ((3.14 * aspectRatio) * 0.5)
      * Math.pow (1 - Math.pow ((bodyWidth / 2) / (((finHeight + (bodyWidth / 2)) / 2))) 2) 2 in
  let hn := 0.25 + (1 / cl_alpha) * (-1) * (2 * Vstar_fus) in
  let hnwc_bar := hn * c_bar in
  let x1 :=
    if finCount =? 3 then
      (bodyWidth / 2) * (1.732 / 2) * finSweepLength / (finHeight * 1.732 / 2)
    else (bodyWidth / 2) * finSweepLength / finHeight in
  let x2 :=
    if finCount =? 3 then
      y_bar * (x1 + finSweepLength + finTipWidth - lengthOfCo)
      / (((bodyWidth / 2) + finHeight) * 1.732 / 2)
    else
      y_bar * (x1 + finSweepLength + finTipWidth - lengthOfCo)
      / (((bodyWidth / 2) + finHeight)) in
  let small_xac := c_bar - x2 - hnwc_bar in
  Returned (noseHeight + bodyHeight - small_xac).

Definition calculateStabilityCenterOfPressure (rocketParams : RocketParams) : float :=
  let noseShape := noseShape rocketParams in
  let noseHeight := noseHeight rocketParams in
  let bodyHeight := bodyHeight rocketParams in
  let bodyWidth := bodyWidth rocketParams in
  let finHeight := finHeight rocketParams in
  let finBaseWidth := finBaseWidth rocketParams in
  let finTipWidth := finTipWidth rocketParams in
  let finSweepLength := finSweepLength rocketParams in
  let finCount := finCount rocketParams in
  let mc :=
    Math.pow
      ((Math.pow (finSweepLength + (finTipWidth / 2) - (finBaseWidth / 2)) 2)
       + (Math.pow finHeight 2)) 0.5 in
  let noseStabilityCp :=
    if is_cone noseShape then noseHeight * 0.666
    else if is_parabola noseShape then noseHeight * 0.614
    else noseHeight * 0.575 in
  let fin_cn_1 := 1 + (finHeight / (finHeight + (bodyWidth / 2))) in
  let fin_cn_2 :=
    if finCount =? 3 then 12 * Math.pow (finHeight / bodyWidth) 2
    else 16 * Math.pow (finHeight / bodyWidth) 2 in
  let fin_cn_3 :=
    1 + Math.pow (1 + (Math.pow ((2 * mc) / (finTipWidth + finBaseWidth)) 2)) 0.5 in
  let fin_cn := fin_cn_1 * fin_cn_2 / fin_cn_3 in
  let cnTotal := 2 + fin_cn in
  let finStabilityCp :=
    (noseHeight + bodyHeight - finBaseWidth)
    + ((finSweepLength / 3) * ((finBaseWidth + 2 * finTipWidth) / (finBaseWidth + finTipWidth)))
    + ((finBaseWidth + finTipWidth)
       - ((finBaseWidth * finTipWidth) / (finBaseWidth + finTipWidth))) / 6 in
  (2 * noseStabilityCp + fin_cn * finStabilityCp) / cnTotal.

Definition calculateStaticMargin (rocketParams : RocketParams) : Margins.t :=
  let centerOfGravity := centerOfGravity rocketParams in
  let bodyWidth := bodyWidth rocketParams in
  let cpData := calculateCenterOfPressure rocketParams in
  let stabilityCp := calculateStabilityCenterOfPressure rocketParams in
  {| Margins.standardStaticMargin :=
       (Pressure.centerOfPressure cpData - centerOfGravity) / bodyWidth;
     Margins.stabilityStaticMargin := (stabilityCp - centerOfGravity) / bodyWidth |}.

(** The names under which the table, an object literal, finds a member of
    [Object.prototype] instead of an entry. *)
Definition Object_prototype_members : list string :=
  ["constructor"; "hasOwnProperty"; "isPrototypeOf"; "propertyIsEnumerable";
   "toLocaleString"; "toString"; "valueOf"; "__proto__";
   "__defineGetter__"; "__defineSetter__"; "__lookupGetter__";
   "__lookupSetter__"]%string.

(** [FIN_MATERIALS[key]]: only a string can name an entry of the table.  Under
    a name of [Object_prototype_members] the lookup finds an inherited member,
    whose [E], [G] and [MD] are [undefined] and read as NaN in arithmetic;
    under any other key it finds nothing. *)
Definition FIN_MATERIALS_at (key : value) : option FinMaterial :=
  match key with
  | VString s =>
      match FIN_MATERIALS s with
      | Some material => Some material
      | None =>
          if existsb (fun name => jsstring_eqb s (js name)) Object_prototype_members
          then Some {| Material.E := nan; Material.G := nan; Material.MD := nan |}
          else None
      end
  | _ => None
  end.

(** The critical speeds before they are limited. *)
Definition divSpeed (rocketParams : value) (material : FinMaterial) : float :=
  let finHeight_m := mmToM (ToNumber (get rocketParams "finHeight")) in
  let finBaseWidth_m := mmToM (ToNumber (get rocketParams "finBaseWidth")) in
  let finTipWidth_m := mmToM (ToNumber (get rocketParams "finTipWidth")) in
  let finSweepLength_m := mmToM (ToNumber (get rocketParams "finSweepLength")) in
  let finThickness_m := mmToM (ToNumber (get rocketParams "finThickness")) in
  let G := Material.G material in
  let rho := 1.225 in
  let meanChord := (finBaseWidth_m + finTipWidth_m) / 2 in
  let sweepbackAngle :=
    Math.atan ((finSweepLength_m + 0.5 * finTipWidth_m - 0.5 * finBaseWidth_m) * 3.14 / meanChord) in
  let J := 0.3333 * finTipWidth_m * Math.pow finThickness_m 3 in
  let liftCoefficient_fin := (9 / 3.14) * Math.cos sweepbackAngle in
  (3.14 / (2 * finHeight_m))
  * Math.pow (2 * G * J / (rho * Math.pow meanChord 2 * 0.25 * liftCoefficient_fin)) 0.5.

Definition calculateFinDivergenceSpeed (rocketParams : value) : outcome float :=
  if is_nullish rocketParams then Thrown
  else
    match FIN_MATERIALS_at (get rocketParams "finMaterial") with
    | None => Thrown
    | Some material => Returned (Math.max 20 (Math.min 300 (divSpeed rocketParams material)))
    end.

Definition flutterSpeed (rocketParams : value) (material : FinMaterial) : float :=
  let finHeight_m := mmToM (ToNumber (get rocketParams "finHeight")) in
  let finBaseWidth_m := mmToM (ToNumber (get rocketParams "finBaseWidth")) in
  let finTipWidth_m := mmToM (ToNumber (get rocketParams "finTipWidth")) in
  let finThickness_m := mmToM (ToNumber (get rocketParams "finThickness")) in
  let G := Material.G material in
  let torsionConstant := 0.333 * finThickness_m * Math.pow finTipWidth_m 3 in
  let torsionalStiffness := G * torsionConstant in
  let epsilon := 0.25 in
  let airDensity := 1.225 in
  let finSection_single := (finTipWidth_m + finBaseWidth_m) * finHeight_m * 0.5 in
  let half_finTipWidth := finTipWidth_m / 2 in
  let liftSlope := 3.44 in
  Math.pow
    ((2 * torsionalStiffness)
     / (epsilon * airDensity * finSection_single * half_finTipWidth * liftSlope)) 0.5.

Definition calculateFinFlutterSpeed (rocketParams : value) : outcome float :=
  if is_nullish rocketParams then Thrown
  else
    match FIN_MATERIALS_at (get rocketParams "finMaterial") with
    | None => Thrown
    | Some material => Returned (Math.max 30 (Math.min 400 (flutterSpeed rocketParams material)))
    end.

(** The fin dimensions handed to [calculateFinDeflection]. *)
Record FinParams := {
  fp_finHeight : float;
  fp_finBaseWidth : float;
  fp_finTipWidth : float;
  fp_finThickness : float;
  fp_finSweepLength : float
}.

Definition calculateFinDeflection
    (velocity : float) (material : FinMaterial) (finParams : FinParams)
    (angleChangePerDt2 : float) : float :=
  let finHeight := fp_finHeight finParams in
  let finBaseWidth := fp_finBaseWidth finParams in
  let finTipWidth := fp_finTipWidth finParams in
  let finThickness := fp_finThickness finParams in
  let finSweepLength := fp_finSweepLength finParams in
  let E := Material.E material in
  if Math.abs velocity <? 0.001 then 0
  else
    let safeFinThickness :=
      if (finThickness =? 0) || is_nan finThickness then 2.0 else finThickness in
    let safeVelocity := Math.min velocity 300 in
    let finArea := ((finBaseWidth + finTipWidth) * 0.001) * (finHeight * 0.001) / 2 in
    let taperRatio :=
      if 0 <? finHeight then
        Math.max (-0.9)
          (Math.min 0.9 (((finBaseWidth * 0.001) - (finTipWidth * 0.001)) / (finHeight * 0.001)))
      else 0 in
    let sweepAngle :=
      Math.atan
        ((finSweepLength * 0.001 + 0.5 * finTipWidth * 0.001 - 0.5 * finBaseWidth * 0.001)
         * Math.PI / (finHeight * 0.001)) in
    let meanChord := (finBaseWidth + finTipWidth) * 0.001 / 2 in
    let I0 := (meanChord * Math.pow (safeFinThickness * 0.001) 3) / 12 in
    let I := if I0 <? 1e-12 then 1e-12 else I0 in
    let dragCoefficient := 1.28 in
    let airDensity := 1.225 in
    let windForce := 0.5 * airDensity * safeVelocity * safeVelocity * dragCoefficient * finArea in
    let unitLengthWindForce := windForce / Math.max 0.001 (finHeight * 0.001) in
    let deflectionFactor := 1 / (1 - taperRatio) in
    let second_moment_of_area :=
      ((finBaseWidth + finTipWidth) * 0.001) * Math.pow (finThickness * 0.001) 3 / (2 * 12) in
    let rawDeflection :=
      (unitLengthWindForce * Math.pow (finHeight * 0.001) 4 * Math.cos sweepAngle
       / (8 * E * second_moment_of_area)) * deflectionFactor in
    let deflectionMm := rawDeflection * 1000 in
    if isNaN deflectionMm then 15
    else if 15 <? Math.abs deflectionMm then 15
    else if Math.abs deflectionMm <? 0.01 then deflectionMm
    else Math.max 0.01 (Math.abs deflectionMm).

(** ** RocketPhysics: wind speed at a height *)

Definition windSpeedMultiplier (height alpha : float) : float :=
  let referenceHeight := 1.5 in
  let heightRatio := height / referenceHeight in
  Math.pow heightRatio alpha.

Definition calculateWindSpeedAtHeight
    (baseWindSpeed height : float) (profile : WindProfile) : float :=
  if height <=? 0 then baseWindSpeed
  else
    let alpha := WIND_PROFILES_alpha profile in
    if alpha =? 0 then baseWindSpeed
    else
      let maxMultiplier := 3.0 in
      let actualMultiplier := Math.min (windSpeedMultiplier height alpha) maxMultiplier in
      baseWindSpeed * actualMultiplier.

(** ** RocketPhysics: the moments *)

Definition calculateLiftMoment
    (velocity omega flightAngle sideArea aerodynamicCenter centerOfGravity : float) : float :=
  let centerOfGravity_m := mmToM centerOfGravity in
  let aerodynamicCenter_m := mmToM aerodynamicCenter in
  let velocitySquared := Math.min (velocity * velocity) 10000 in
  let angleOfAttack := omega - flightAngle in
  let liftCoefficient := 0.6 * angleOfAttack in
  let momentMagnitude :=
    Math.abs (liftCoefficient * 0.5 * 1.225 * velocitySquared * sideArea
              * (aerodynamicCenter_m - centerOfGravity_m)) in
  let finalMoment :=
    if ((centerOfGravity <=? aerodynamicCenter) && (angleOfAttack <? 0))
       || ((aerodynamicCenter <? centerOfGravity) && (0 <=? angleOfAttack))
    then momentMagnitude
    else - momentMagnitude in
  if negb (isFinite finalMoment) || isNaN finalMoment then 0 else finalMoment.

Definition calculateDragMoment
    (velocity omega flightAngle bodyDiameter aerodynamicCenter centerOfGravity : float) : float :=
  let centerOfGravity_m := mmToM centerOfGravity in
  let aerodynamicCenter_m := mmToM aerodynamicCenter in
  let velocitySquared := Math.min (velocity * velocity) 10000 in
  let angleOfAttack := omega - flightAngle in
  let dragCoefficient := 0.01 * Math.pow angleOfAttack 2 - 0.02 * angleOfAttack + 0.63 in
  let momentMagnitude :=
    Math.abs (dragCoefficient * 0.5 * 1.225 * velocitySquared
              * (bodyDiameter * 0.001 / 2) * (bodyDiameter * 0.001 / 2) * 3.14
              * (aerodynamicCenter_m - centerOfGravity_m)) in
  let finalMoment :=
    if ((centerOfGravity <=? aerodynamicCenter) && (angleOfAttack <? 0))
       || ((aerodynamicCenter <? centerOfGravity) && (0 <=? angleOfAttack))
    then momentMagnitude
    else - momentMagnitude in
  if negb (isFinite finalMoment) || isNaN finalMoment then 0 else finalMoment.

(** The four arguments the function checks against [null] are values. *)
Definition calculateWindMoment
    (noseHeight bodyDiameter bodyHeight : float) (windSpeed omega : value)
    (totalFinArea : float) (centerOfPressure centerOfGravity : value) : float :=
  let windSpeed :=
    if is_nullish windSpeed || isNaN (ToNumber windSpeed) then VNumber 0 else windSpeed in
  let omega := if is_nullish omega || isNaN (ToNumber omega) then VNumber 0 else omega in
  if is_nullish centerOfPressure || is_nullish centerOfGravity then 0
  else
    let centerOfGravity_m := mmToM (ToNumber centerOfGravity) in
    let centerOfPressure_m := mmToM (ToNumber centerOfPressure) in
    let bodyHeight_m := mmToM bodyHeight in
    let noseHeight_m := mmToM noseHeight in
    let safeWindSpeed := Math.max (-25) (Math.min 25 (ToNumber windSpeed)) in
    let Dwf := 1.28 * 0.05 * Math.pow safeWindSpeed 2 * totalFinArea in
    let Dwb :=
      0.23 * 0.5 * 1.225 * Math.pow safeWindSpeed 2 * bodyDiameter
      * (bodyHeight_m + noseHeight_m) in
    let cosAngle := Math.cos (ToNumber omega) in
    let momentMagnitude :=
      Math.abs ((Dwf + Dwb) * cosAngle * (centerOfPressure_m - centerOfGravity_m)) in
    let finalMoment :=
      if (js_ge centerOfPressure centerOfGravity && (ToNumber windSpeed <? 0))
         || (js_lt centerOfPressure centerOfGravity && (0 <=? ToNumber windSpeed))
      then - momentMagnitude
      else momentMagnitude in
    if negb (isFinite finalMoment) || isNaN finalMoment then 0 else finalMoment.

(** The arguments of a call, by position; a parameter past the end of the
    call's argument list is [undefined]. *)
Definition arg (args : list value) (i : nat) : value := nth i args VUndefined.

(** [calculateFinMoment(finHeight, finBaseWidth, finSweepLength, finTipWidth,
    finCount, velocity, omega, flightAngle, finMaterial, finCp, noseHeight,
    bodyHeight, bodyWidth, centerOfGravity)]. *)
Definition calculateFinMoment (args : list value) : float :=
  let finHeight := arg args 0 in
  let finBaseWidth := arg args 1 in
  let finSweepLength := arg args 2 in
  let finTipWidth := arg args 3 in
  let finCount := arg args 4 in
  let velocity := arg args 5 in
  let omega := arg args 6 in
  let flightAngle := arg args 7 in
  let finCp := arg args 9 in
  let noseHeight := arg args 10 in
  let bodyHeight := arg args 11 in
  let bodyWidth := arg args 12 in
  let centerOfGravity := arg args 13 in
  let omega := if is_nullish omega || isNaN (ToNumber omega) then VNumber 0 else omega in
  let flightAngle :=
    if is_nullish flightAngle || isNaN (ToNumber flightAngle) then VNumber 0 else flightAngle in
  if is_nullish centerOfGravity then 0
  else
    let centerOfGravity_m := mmToM (ToNumber centerOfGravity) in
    let finCp_m := mmToM (ToNumber finCp) in
    let rho := 1.225 in
    let finHeight_m := mmToM (ToNumber finHeight) in
    let finSweepLength_m := mmToM (ToNumber finSweepLength) in
    let finTipWidth_m := mmToM (ToNumber finTipWidth) in
    let finArea :=
      (ToNumber (js_plus finBaseWidth finTipWidth) * 0.001) * (ToNumber finHeight * 0.001) / 2 in
    let angleOfAttack := ToNumber omega - ToNumber flightAngle in
    let finLeanArea :=
      if strict_eq_number finCount 3 then
        Math.abs (finHeight_m * (1.732 / 2) * (finSweepLength_m + finTipWidth_m)
                  * Math.sin angleOfAttack * finArea
                  / ((finSweepLength_m + finTipWidth_m) * finHeight_m))
      else
        Math.abs (finHeight_m * (finSweepLength_m + finTipWidth_m)
                  * Math.sin angleOfAttack * finArea
                  / ((finSweepLength_m + finTipWidth_m) * finHeight_m)) in
    let totalLeanFinArea := finLeanArea * 2 in
    let cd := 0.3 / (5 * 3.14 / 180) * angleOfAttack in
    let dragOfFinLean :=
      cd * 0.5 * rho * ToNumber velocity * ToNumber velocity * totalLeanFinArea in
    let momentArm := mmToM (Math.abs (finCp_m - centerOfGravity_m)) in
    let noseHeight_m := mmToM (ToNumber noseHeight) in
    let bodyHeight_m := mmToM (ToNumber bodyHeight) in
    let bodyWidth_m := mmToM (ToNumber bodyWidth) in
    let noseBodyArea := bodyWidth_m * (noseHeight_m + bodyHeight_m) in
    let momentArm_b :=
      mmToM (Math.abs (((noseHeight_m + bodyHeight_m) / 2) - centerOfGravity_m)) in
    let dragOfNoseBodyLean :=
      cd * 0.5 * rho * ToNumber velocity * ToNumber velocity * noseBodyArea in
    let momentMagnitude :=
      Math.abs (((dragOfFinLean * momentArm) + (dragOfNoseBodyLean * momentArm_b))
                * Math.sign angleOfAttack) in
    if ((ToNumber centerOfGravity <=? finCp_m) && (angleOfAttack <? 0))
       || ((finCp_m <? ToNumber centerOfGravity) && (0 <=? angleOfAttack))
    then - momentMagnitude
    else momentMagnitude.

(** ** RocketPhysics: one iteration of the loop of [calculateFlightPath] *)

(** The update of the parachute state that opens the loop body. *)
Definition updateParachute (e : Env.t) (s : St.t) : Phase :=
  let time := St.time s in
  let y := St.y s in
  let eject :=
    negb (St.isParachuteEjected s) && (Env.parachuteEjectionTime e <=? time) in
  let isParachuteEjected := if eject then true else St.isParachuteEjected s in
  let keyPoints :=
    if eject then
      KeyPoints.set_parachuteEjection (St.keyPoints s)
        {| KeyPoint.time := time; KeyPoint.height := y; KeyPoint.speed := St.vy s |}
    else St.keyPoints s in
  let parachuteDeploymentProgress :=
    if isParachuteEjected && negb (St.isParachuteActive s) then
      Math.min 1 ((time - Env.parachuteEjectionTime e) / parachuteDeployTime)
    else St.parachuteDeploymentProgress s in
  if negb (St.isParachuteActive s) && (Env.parachuteActiveTime e <=? time) then
    let vx := St.vx s * 0.1 in
    let vy := St.vy s * 0.1 in
    {| ph_isParachuteEjected := isParachuteEjected;
       ph_isParachuteActive := true;
       ph_parachuteDeploymentProgress := 1.0;
       ph_vx := vx;
       ph_vy := vy;
       ph_keyPoints :=
         KeyPoints.set_parachuteActive keyPoints
           {| KeyPoint.time := time; KeyPoint.height := y; KeyPoint.speed := vy |} |}
  else
    {| ph_isParachuteEjected := isParachuteEjected;
       ph_isParachuteActive := St.isParachuteActive s;
       ph_parachuteDeploymentProgress := parachuteDeploymentProgress;
       ph_vx := St.vx s;
       ph_vy := St.vy s;
       ph_keyPoints := keyPoints |}.

(** The four moments of a free-flight step.  [calculateDragMoment] is handed
    the side area where its body diameter goes, and [calculateFinMoment]
    eight arguments, as the two call sites write them. *)
Definition moments (e : Env.t)
    (velocity adjustedOmega flightAngle effectiveWindSpeed : float)
    (isCurrentlyZeroWind : bool) : Moments :=
  let rocketParams := Env.rocketParams e in
  let projectedAreas := Env.projectedAreas e in
  if isCurrentlyZeroWind then {| ML := 0; MD := 0; MW := 0; MF := 0 |}
  else
    {| ML := calculateLiftMoment velocity adjustedOmega flightAngle
               (Areas.sideArea projectedAreas) (Env.aerodynamicCenter e)
               (centerOfGravity rocketParams);
       MD := calculateDragMoment velocity adjustedOmega flightAngle
               (Areas.sideArea projectedAreas) (Env.aerodynamicCenter e)
               (centerOfGravity rocketParams);
       MW := calculateWindMoment (noseHeight rocketParams) (Env.bodyDiameter e)
               (bodyHeight rocketParams) (VNumber effectiveWindSpeed)
               (VNumber adjustedOmega) (Areas.totalFinArea projectedAreas)
               (VNumber (Pressure.centerOfPressure (Env.centerOfPressure e)))
               (VNumber (centerOfGravity rocketParams));
       MF := calculateFinMoment
               [ VNumber (finHeight rocketParams);
                 VNumber (finBaseWidth rocketParams);
                 VNumber (finCount rocketParams);
                 VNumber velocity;
                 VNumber flightAngle;
                 to_value rocketParams;
                 get (to_value rocketParams) "finCp";
                 VNumber (centerOfGravity rocketParams) ] |}.

Definition rawTorque (m : Moments) : float := ML m + MD m + MW m + MF m.

Definition invalidMoment (m : Moments) : bool :=
  negb (isFinite (ML m)) || isNaN (ML m) || negb (isFinite (MD m)) || isNaN (MD m) ||
  negb (isFinite (MW m)) || isNaN (MW m) || negb (isFinite (MF m)) || isNaN (MF m).

(** The torque block shared by the powered and the coasting free flight. *)
Definition freeFlightTorque (m : Moments) : TorqueResult :=
  if invalidMoment m then TorqueValue 0
  else if TORQUE_THRESHOLD <? Math.abs (rawTorque m) then TorqueAbort
  else TorqueValue (Math.max (-1.0) (Math.min 1.0 (rawTorque m))).

Definition accelerations (mass_kg Fx Fy : float) : float * float :=
  let MIN_MASS := 1e-6 in
  if Math.abs mass_kg <? MIN_MASS then (0, - g) else (Fx / mass_kg, Fy / mass_kg).

Definition crosswindDrag (Cdw effectiveWindSpeed S : float) : float :=
  let rho := 1.225 in
  0.5 * Cdw * rho * Math.abs effectiveWindSpeed * effectiveWindSpeed * S.

Definition forces (e : Env.t) (s : St.t) (ph : Phase) (l : Locals) : ForceResult :=
  let velocity := velocity l in
  let effectiveWindSpeed := effectiveWindSpeed l in
  let adjustedOmega := adjustedOmega l in
  let onLaunchRail := onLaunchRail l in
  let isCurrentlyZeroWind := isCurrentlyZeroWind l in
  let time := St.time s in
  let y := St.y s in
  let prev_vx := St.vx s in
  let prev_vy := St.vy s in
  let vy := ph_vy ph in
  let angle := Env.angle e in
  let mass_kg := Env.mass_kg e in
  let bodyDiameter := Env.bodyDiameter e in
  let bodyLength := Env.bodyLength e in
  let keep (ax ay torque : float) :=
    ForceOk {| fo_ax := ax; fo_ay := ay; fo_torque := torque;
               fo_avgThrustForTorque := St.avgThrustForTorque s;
               fo_thrustSamplesCount := St.thrustSamplesCount s;
               fo_thrustEndFlag := St.thrustEndFlag s;
               fo_keyPoints := ph_keyPoints ph |} in
  if ph_isParachuteActive ph then
    let Cd := 0.775 in
    let rho := 1.225 in
    let Area := Math.PI * Math.pow (Env.parachuteDiameter e / 2) 2 in
    let Dp := 0.5 * Cd * rho * velocity * velocity * Area in
    let Fx := if 0.001 <? velocity then - Dp * (prev_vx / velocity) else 0 in
    let Fy := if 0.001 <? velocity then - Dp * (prev_vy / velocity) else 0 in
    let S := Env.parachuteDiameter e * Env.parachuteDiameter e * 0.785 in
    let Dw := crosswindDrag 0.25 effectiveWindSpeed S in
    let Fx := Fx - Dw in
    let Fy := Fy - mass_kg * g in
    let '(ax, ay) := accelerations mass_kg Fx Fy in
    let initialOmega := angle * Math.PI / 180 in
    let torque :=
      if 0.01 <? Math.abs (adjustedOmega - initialOmega)
      then (initialOmega - adjustedOmega) * 0.001 else 0 in
    keep ax ay torque
  else if ph_isParachuteEjected ph && negb (ph_isParachuteActive ph) then
    let Fy := - mass_kg * g in
    let dragCoefficient := 0.1 in
    let Fx := if 0.001 <? velocity then - dragCoefficient * prev_vx else 0 in
    let Fy := if 0.001 <? velocity then Fy - dragCoefficient * prev_vy else Fy in
    let S := bodyDiameter * bodyLength * 0.5 in
    let Dw := crosswindDrag 0.25 effectiveWindSpeed S in
    let Fx := Fx - Dw * 0.5 in
    let '(ax, ay) := accelerations mass_kg Fx Fy in
    let initialOmega := angle * Math.PI / 180 in
    let torque := (initialOmega - adjustedOmega) * 0.0005 in
    keep ax ay torque
  else
    let noseCd := Env.noseCd e in
    let bodydia_noseleng_ratio := (noseHeight (Env.rocketParams e)) * 0.001 / bodyDiameter in
    let alfa := (0.9 - noseCd) / 9 in
    let Cd :=
      alfa * Math.pow bodydia_noseleng_ratio 2 - 6 * alfa * bodydia_noseleng_ratio
      + (noseCd + (9 * alfa)) in
    let rho := 1.225 in
    let Area :=
      Math.PI * Math.pow (bodyDiameter / 2) 2 + Env.finwidth_m e * Env.finThickness_m e * 4 in
    let Dt := 0.5 * Cd * rho * velocity * velocity * Area in
    let S := bodyDiameter * bodyLength in
    let Dw := crosswindDrag 0.25 effectiveWindSpeed S in
    if time <? Env.thrustEndTime e then
      let thrustData := Env.thrustData e in
      let thrustIndex := Math.min (Math.floor (time / dt)) (array_length thrustData - 1) in
      let thrust := array_get thrustData thrustIndex in
      let avgThrustForTorque := St.avgThrustForTorque s + thrust in
      let thrustSamplesCount := St.thrustSamplesCount s + 1 in
      let finish (Fx Fy torque : float) :=
        let '(ax, ay) := accelerations mass_kg Fx Fy in
        ForceOk {| fo_ax := ax; fo_ay := ay; fo_torque := torque;
                   fo_avgThrustForTorque := avgThrustForTorque;
                   fo_thrustSamplesCount := thrustSamplesCount;
                   fo_thrustEndFlag := St.thrustEndFlag s;
                   fo_keyPoints := ph_keyPoints ph |} in
      if onLaunchRail then
        if angle =? 0 then finish (- Dw) (thrust - mass_kg * g) 0
        else
          finish (thrust * Math.sin adjustedOmega - Dw)
                 (thrust * Math.cos adjustedOmega - mass_kg * g) 0
      else
        let flightAngle := Math.atan2 prev_vx prev_vy in
        let Fx :=
          if 0.001 <? velocity then
            thrust * Math.sin adjustedOmega - Dt * Math.sin flightAngle - Dw
          else thrust * Math.sin adjustedOmega - Dw in
        let Fy :=
          if 0.001 <? velocity then
            thrust * Math.cos adjustedOmega - mass_kg * g - Dt * Math.cos flightAngle
          else thrust * Math.cos adjustedOmega - mass_kg * g in
        if 1.0 <? velocity then
          match freeFlightTorque
                  (moments e velocity adjustedOmega flightAngle effectiveWindSpeed
                     isCurrentlyZeroWind) with
          | TorqueAbort =>
              ForceAbort avgThrustForTorque thrustSamplesCount (St.thrustEndFlag s)
                (ph_keyPoints ph)
          | TorqueValue torque => finish Fx Fy torque
          end
        else finish Fx Fy 0
    else
      let keyPoints :=
        if negb (St.thrustEndFlag s) then
          KeyPoints.set_thrustEnd (ph_keyPoints ph)
            {| KeyPoint.time := time; KeyPoint.height := y; KeyPoint.speed := vy |}
        else ph_keyPoints ph in
      let finish (Fx Fy torque : float) :=
        let '(ax, ay) := accelerations mass_kg Fx Fy in
        ForceOk {| fo_ax := ax; fo_ay := ay; fo_torque := torque;
                   fo_avgThrustForTorque := St.avgThrustForTorque s;
                   fo_thrustSamplesCount := St.thrustSamplesCount s;
                   fo_thrustEndFlag := true;
                   fo_keyPoints := keyPoints |} in
      let flightAngle := Math.atan2 prev_vx prev_vy in
      let Fx := if 0.001 <? velocity then - Dt * Math.sin flightAngle + Dw else Dw in
      let Fy :=
        if 0.001 <? velocity then - mass_kg * g - Dt * Math.cos flightAngle
        else - mass_kg * g in
      if 0.5 <? velocity then
        match freeFlightTorque
                (moments e velocity adjustedOmega flightAngle effectiveWindSpeed
                   isCurrentlyZeroWind) with
        | TorqueAbort =>
            ForceAbort (St.avgThrustForTorque s) (St.thrustSamplesCount s) true keyPoints
        | TorqueValue torque =>
            finish Fx Fy
              (if (Math.abs angle =? 4) || (Math.abs angle =? 18) then torque * 1.2
               else torque)
        end
      else finish Fx Fy 0.

(** The accumulation of the torque and, every [ANGLE_STEPS_PER_UPDATE] steps,
    the update of the angular velocity. *)
Definition angleUpdate (e : Env.t) (s : St.t) (isParachuteEjected : bool)
    (torque avgThrustForTorque thrustSamplesCount : float) : AngleUpd :=
  let totalTorque := St.totalTorque s + torque in
  let stepCounter := St.stepCounter s + 1 in
  if ANGLE_STEPS_PER_UPDATE <=? stepCounter then
    let avgTorque := totalTorque / stepCounter in
    let safeAvgTorque := if isFinite avgTorque && negb (isNaN avgTorque) then avgTorque else 0 in
    let effectiveTorque := safeAvgTorque in
    let MIN_MOMENT_OF_INERTIA := 1e-6 in
    let angularAcceleration :=
      if Math.abs (Env.momentOfInertia e) <? MIN_MOMENT_OF_INERTIA then 0
      else effectiveTorque / Env.momentOfInertia e in
    let angularVelocity := St.angularVelocity s + angularAcceleration * dt2 in
    let angularVelocity := Math.max (-3) (Math.min 3 angularVelocity) in
    let angleChangePerDt2 := angularVelocity * dt2 in
    let angleChangePerDt2Degrees := angleChangePerDt2 * 180 / Math.PI in
    let maxAngleChangePerDt2 :=
      if negb isParachuteEjected
         && (Math.abs (St.maxAngleChangePerDt2 s) <? Math.abs angleChangePerDt2Degrees)
      then angleChangePerDt2Degrees else St.maxAngleChangePerDt2 s in
    let isAngleStableOK :=
      if negb isParachuteEjected
         && (MAX_ANGLE_CHANGE_PER_DT2 <? Math.abs angleChangePerDt2Degrees)
      then false else St.isAngleStableOK s in
    {| au_angularAcceleration := angularAcceleration;
       au_angularVelocity := angularVelocity;
       au_angleChangePerDt2 := angleChangePerDt2;
       au_maxAngleChangePerDt2 := maxAngleChangePerDt2;
       au_isAngleStableOK := isAngleStableOK;
       au_stepCounter := 0;
       au_totalTorque := 0;
       au_avgThrustForTorque := 0;
       au_thrustSamplesCount := 0 |}
  else
    {| au_angularAcceleration := St.angularAcceleration s;
       au_angularVelocity := St.angularVelocity s;
       au_angleChangePerDt2 := St.angleChangePerDt2 s;
       au_maxAngleChangePerDt2 := St.maxAngleChangePerDt2 s;
       au_isAngleStableOK := St.isAngleStableOK s;
       au_stepCounter := stepCounter;
       au_totalTorque := totalTorque;
       au_avgThrustForTorque := avgThrustForTorque;
       au_thrustSamplesCount := thrustSamplesCount |}.

(** The attitude update of the branch [if (PHYSICAL_ATTITUDE_CONTROL)]. *)
Definition physicalAttitude (e : Env.t) (s : St.t) (au : AngleUpd)
    (isCurrentlyZeroWind onLaunchRail isParachuteEjected isParachuteActive : bool)
    : AttUpd :=
  let time := St.time s in
  let omega := St.omega s in
  let physicsBasedAngleChange := au_angleChangePerDt2 au / ANGLE_STEPS_PER_UPDATE in
  if PHYSICAL_ATTITUDE_CONTROL then
    let omega :=
      if isCurrentlyZeroWind && negb onLaunchRail then
        let initialOmegaRad := Env.angle e * Math.PI / 180 in
        let returnRate := 0.005 in
        if Math.abs (omega - initialOmegaRad) <? 0.0001 then initialOmegaRad
        else omega * (1 - returnRate) + initialOmegaRad * returnRate
      else omega + physicsBasedAngleChange in
    let prevOmegaDegrees := js_rem (St.prevOmega s * 180 / Math.PI) 360 in
    let currentOmegaDegrees := js_rem (omega * 180 / Math.PI) 360 in
    let deltaOmega := currentOmegaDegrees - prevOmegaDegrees in
    let deltaOmega := if 180 <? deltaOmega then deltaOmega - 360 else deltaOmega in
    let deltaOmega := if deltaOmega <? -180 then deltaOmega + 360 else deltaOmega in
    let angleChanges :=
      St.angleChanges s
      ++ [ {| ac_time := time; ac_deltaOmega := deltaOmega;
              ac_thrustActive := time <=? Env.thrustEndTime e;
              ac_parachuteActive := isParachuteActive |} ] in
    let angleChangeBuffer := St.angleChangeBuffer s ++ [deltaOmega] in
    let framesPerDt2 := ANGLE_RESPONSE_DT / dt in
    let angleChangeBuffer :=
      if framesPerDt2 <? array_length angleChangeBuffer then tl angleChangeBuffer
      else angleChangeBuffer in
    let totalAngleChange := sum_from_zero angleChangeBuffer in
    let checked := negb isParachuteEjected && negb onLaunchRail in
    let maxAngleChangePerDt2 :=
      if checked && (Math.abs (au_maxAngleChangePerDt2 au) <? Math.abs totalAngleChange)
      then totalAngleChange else au_maxAngleChangePerDt2 au in
    let isAngleStableOK :=
      if checked && (MAX_ANGLE_CHANGE_PER_DT2 <? Math.abs totalAngleChange)
      then false else au_isAngleStableOK au in
    {| at_omega := omega;
       at_prevOmega := omega;
       at_angleChanges := angleChanges;
       at_angleChangeBuffer := angleChangeBuffer;
       at_maxAngleChangePerDt2 := maxAngleChangePerDt2;
       at_isAngleStableOK := isAngleStableOK |}
  else
    {| at_omega := omega;
       at_prevOmega := St.prevOmega s;
       at_angleChanges := St.angleChanges s;
       at_angleChangeBuffer := St.angleChangeBuffer s;
       at_maxAngleChangePerDt2 := au_maxAngleChangePerDt2 au;
       at_isAngleStableOK := au_isAngleStableOK au |}.

(** The weathercocking controller of the [enhancedAttitudeControl] toggle. *)
Definition enhancedAttitude (e : Env.t) (omega vx vy velocity effectiveWindSpeed : float)
    (isCurrentlyZeroWind onLaunchRail isParachuteEjected thrustEndFlag : bool) : float :=
  if Env.useEnhancedAttitudeControl e && negb isCurrentlyZeroWind then
    if negb onLaunchRail && negb isParachuteEjected then
      let flightAngle := Math.atan2 vx vy in
      let maxChange := 0.2 in
      let limited (newOmega : float) :=
        if maxChange <? Math.abs (newOmega - omega)
        then omega + Math.sign (newOmega - omega) * maxChange
        else newOmega in
      if thrustEndFlag then
        let targetOmega := flightAngle in
        let adjustRate := Math.min 0.05 (0.002 * velocity) in
        limited (omega * (1.0 - adjustRate) + targetOmega * adjustRate)
      else
        let windAngle := if 0 <? effectiveWindSpeed then 0 else Math.PI in
        let perpendicularToWind1 := windAngle + Math.PI / 2 in
        let perpendicularToWind2 := windAngle - Math.PI / 2 in
        let targetOmega :=
          if Math.abs effectiveWindSpeed <? 0.5 then flightAngle
          else
            let isMovingUpwind :=
              ((effectiveWindSpeed <? 0) && (0 <? vx))
              || ((0 <? effectiveWindSpeed) && (vx <? 0)) in
            if isMovingUpwind && Env.useWindAngleLimitation e then
              if effectiveWindSpeed <? 0 then Math.max flightAngle perpendicularToWind2
              else Math.min flightAngle perpendicularToWind1
            else flightAngle in
        let adjustRate := Math.min 0.05 (0.002 * velocity) in
        let windFactor := Math.min 0.8 (Math.abs effectiveWindSpeed / 6.0) in
        let finalAdjustRate := adjustRate * (1.0 + windFactor) in
        limited (omega * (1.0 - finalAdjustRate) + targetOmega * finalAdjustRate)
    else omega
  else omega.

Definition finParamsOf (rocketParams : RocketParams) : FinParams :=
  {| fp_finHeight := finHeight rocketParams;
     fp_finBaseWidth := finBaseWidth rocketParams;
     fp_finTipWidth := finTipWidth rocketParams;
     fp_finThickness := finThickness rocketParams;
     fp_finSweepLength := finSweepLength rocketParams |}.

(** The values an iteration derives from the state before it computes forces. *)
Definition locals (e : Env.t) (s : St.t) : Locals :=
  let x := St.x s in
  let y := St.y s in
  let angle := Env.angle e in
  let prev_vx := St.vx s in
  let prev_vy := St.vy s in
  let distanceFromStart := Math.sqrt (x * x + y * y) in
  let onLaunchRail := distanceFromStart <? launchRailLength in
  let velocity := Math.sqrt (prev_vx * prev_vx + prev_vy * prev_vy) in
  let effectiveWindSpeed :=
    calculateWindSpeedAtHeight (Env.windSpeed e) y (Env.windProfile e) in
  let isCurrentlyZeroWind := Math.abs effectiveWindSpeed <? 0.1 in
  let angleAdjustment :=
    if (Math.abs angle =? 4) || (Math.abs angle =? 18) then 0.01 else 0 in
  let adjustedOmega := St.omega s + angleAdjustment * (if angle <? 0 then -1 else 1) in
  let absoluteOmegaDegrees := js_rem (adjustedOmega * 180 / Math.PI) 360 in
  let normalizedAbsoluteAngle :=
    if 180 <? absoluteOmegaDegrees then absoluteOmegaDegrees - 360
    else absoluteOmegaDegrees in
  {| distanceFromStart := distanceFromStart;
     onLaunchRail := onLaunchRail;
     velocity := velocity;
     effectiveWindSpeed := effectiveWindSpeed;
     isCurrentlyZeroWind := isCurrentlyZeroWind;
     adjustedOmega := adjustedOmega;
     normalizedAbsoluteAngle := normalizedAbsoluteAngle |}.

(** The body of the [while] loop. *)
Definition step (e : Env.t) (s : St.t) : StepResult :=
  let time := St.time s in
  let x := St.x s in
  let y := St.y s in
  let angle := Env.angle e in
  let prev_vx := St.vx s in
  let prev_vy := St.vy s in
  let ph := updateParachute e s in
  let isParachuteEjected := ph_isParachuteEjected ph in
  let isParachuteActive := ph_isParachuteActive ph in
  let l := locals e s in
  let distanceFromStart := distanceFromStart l in
  let onLaunchRail := onLaunchRail l in
  let velocity := velocity l in
  let effectiveWindSpeed := effectiveWindSpeed l in
  let isCurrentlyZeroWind := isCurrentlyZeroWind l in
  let adjustedOmega := adjustedOmega l in
  let normalizedAbsoluteAngle := normalizedAbsoluteAngle l in
  let offRailBeforeEjection := negb onLaunchRail && negb isParachuteEjected in
  let maxAbsoluteAngle :=
    if offRailBeforeEjection
       && (Math.abs (St.maxAbsoluteAngle s) <? Math.abs normalizedAbsoluteAngle)
    then normalizedAbsoluteAngle else St.maxAbsoluteAngle s in
  let isAbsoluteAngleOK :=
    if offRailBeforeEjection && (MAX_ABSOLUTE_ANGLE <? Math.abs normalizedAbsoluteAngle)
    then false else St.isAbsoluteAngleOK s in
  let finDeflection :=
    if 5.0 <? velocity then
      calculateFinDeflection velocity (Env.finMaterial e)
        (finParamsOf (Env.rocketParams e)) (St.angleChangePerDt2 s)
    else 0 in
  let maxFinDeflection :=
    if (5.0 <? velocity) && (St.maxFinDeflection s <? finDeflection) then finDeflection
    else St.maxFinDeflection s in
  match forces e s ph l with
  | ForceAbort avgThrustForTorque thrustSamplesCount thrustEndFlag keyPoints =>
      Break
        {| St.time := time; St.x := x; St.y := y;
           St.vx := ph_vx ph; St.vy := ph_vy ph;
           St.prev_vx := prev_vx; St.prev_vy := prev_vy;
           St.omega := St.omega s;
           St.angularVelocity := St.angularVelocity s;
           St.angularAcceleration := St.angularAcceleration s;
           St.data := St.data s;
           St.isParachuteEjected := isParachuteEjected;
           St.isParachuteActive := isParachuteActive;
           St.parachuteDeploymentProgress := ph_parachuteDeploymentProgress ph;
           St.finDeflection := finDeflection;
           St.maxAngleChangePerDt2 := St.maxAngleChangePerDt2 s;
           St.isAngleStableOK := St.isAngleStableOK s;
           St.isAbsoluteAngleOK := isAbsoluteAngleOK;
           St.thrustEndFlag := thrustEndFlag;
           St.angleChanges := St.angleChanges s;
           St.angleChangeBuffer := St.angleChangeBuffer s;
           St.maxAbsoluteAngle := maxAbsoluteAngle;
           St.stepCounter := St.stepCounter s;
           St.totalTorque := St.totalTorque s;
           St.avgThrustForTorque := avgThrustForTorque;
           St.thrustSamplesCount := thrustSamplesCount;
           St.angleChangePerDt2 := St.angleChangePerDt2 s;
           St.prec_MaxHeight := St.prec_MaxHeight s;
           St.maxHeight := St.maxHeight s;
           St.maxSpeed := St.maxSpeed s;
           St.maxDistance := St.maxDistance s;
           St.maxFinDeflection := maxFinDeflection;
           St.keyPoints := keyPoints;
           St.isTorqueStableOK := false;
           St.prevOmega := St.prevOmega s |}
  | ForceOk fo =>
      let ax := fo_ax fo in
      let ay := fo_ay fo in
      let torque := fo_torque fo in
      let thrustEndFlag := fo_thrustEndFlag fo in
      let au :=
        angleUpdate e s isParachuteEjected torque (fo_avgThrustForTorque fo)
          (fo_thrustSamplesCount fo) in
      let att :=
        physicalAttitude e s au isCurrentlyZeroWind onLaunchRail isParachuteEjected
          isParachuteActive in
      let omega :=
        enhancedAttitude e (at_omega att) (ph_vx ph) (ph_vy ph) velocity effectiveWindSpeed
          isCurrentlyZeroWind onLaunchRail isParachuteEjected thrustEndFlag in
      let vx := ph_vx ph + ax * dt in
      let vy := ph_vy ph + ay * dt in
      let MAX_SPEED := 100 in
      let currentSpeed := Math.sqrt (vx * vx + vy * vy) in
      let factor := MAX_SPEED / currentSpeed in
      let vx' := if MAX_SPEED <? currentSpeed then vx * factor else vx in
      let vy' := if MAX_SPEED <? currentSpeed then vy * factor else vy in
      let vx := vx' in
      let vy := vy' in
      let MAX_ANGULAR_VELOCITY := 5 in
      let angularVelocity :=
        Math.max (- MAX_ANGULAR_VELOCITY)
          (Math.min MAX_ANGULAR_VELOCITY (au_angularVelocity au)) in
      let railDistance := Math.min (distanceFromStart + velocity * dt) launchRailLength in
      let x' :=
        if onLaunchRail then
          if angle =? 0 then 0 else railDistance * Math.sin omega
        else x + vx * dt in
      let y' :=
        if onLaunchRail then
          if angle =? 0 then y + vy * dt else railDistance * Math.cos omega
        else y + vy * dt in
      let x := x' in
      let y := y' in
      let risesAbovePrec := St.prec_MaxHeight s <? y in
      let prec_MaxHeight := if risesAbovePrec then y else St.prec_MaxHeight s in
      let keyPoints :=
        if risesAbovePrec then
          KeyPoints.set_prec_MaxHeight (fo_keyPoints fo)
            {| KeyPoint.time := time; KeyPoint.height := prec_MaxHeight; KeyPoint.speed := vy |}
        else fo_keyPoints fo in
      let risesAboveMax := St.maxHeight s <? y in
      let maxHeight := if risesAboveMax then y else St.maxHeight s in
      let keyPoints :=
        if risesAboveMax then
          KeyPoints.set_maxHeight keyPoints
            {| KeyPoint.time := time; KeyPoint.height := maxHeight; KeyPoint.speed := vy |}
        else keyPoints in
      let maxSpeed := if St.maxSpeed s <? currentSpeed then currentSpeed else St.maxSpeed s in
      let maxDistance :=
        if St.maxDistance s <? Math.abs x then Math.abs x else St.maxDistance s in
      let totalAngleChange :=
        if 0 <? array_length (at_angleChangeBuffer att)
        then sum_from_zero (at_angleChangeBuffer att) else 0 in
      let sample :=
        {| Sample.time := time;
           Sample.physicsX := x;
           Sample.physicsY := y;
           Sample.height := y;
           Sample.vx := vx;
           Sample.vy := vy;
           Sample.ax := ax;
           Sample.ay := ay;
           Sample.speedMagnitude := Math.sqrt (vx * vx + vy * vy);
           Sample.accelerationMagnitude := Math.sqrt (ax * ax + ay * ay);
           Sample.angularVelocity := angularVelocity;
           Sample.angularAcceleration := au_angularAcceleration au;
           Sample.isParachuteEjected := isParachuteEjected;
           Sample.isParachuteActive := isParachuteActive;
           Sample.parachuteDeploymentProgress := ph_parachuteDeploymentProgress ph;
           Sample.omega := omega;
           Sample.omegaDegrees := omega * 180 / Math.PI;
           Sample.torque := torque;
           Sample.angleChangePerDt2 := totalAngleChange;
           Sample.horizontalDistance := Math.abs x;
           Sample.finDeflection := finDeflection;
           Sample.angleDeviationDegrees := (omega * 180 / Math.PI) - angle;
           Sample.effectiveWindSpeed := effectiveWindSpeed;
           Sample.isThrustActive := time <=? Env.thrustEndTime e;
           Sample.absoluteAngleDegrees := normalizedAbsoluteAngle;
           Sample.isAbsoluteAngleOK := isAbsoluteAngleOK;
           Sample.angleChangeLimit := MAX_ANGLE_CHANGE_PER_DT2;
           Sample.absoluteAngleLimit := MAX_ABSOLUTE_ANGLE |} in
      Next
        {| St.time := time + dt; St.x := x; St.y := y;
           St.vx := vx; St.vy := vy;
           St.prev_vx := prev_vx; St.prev_vy := prev_vy;
           St.omega := omega;
           St.angularVelocity := angularVelocity;
           St.angularAcceleration := au_angularAcceleration au;
           St.data := St.data s ++ [sample];
           St.isParachuteEjected := isParachuteEjected;
           St.isParachuteActive := isParachuteActive;
           St.parachuteDeploymentProgress := ph_parachuteDeploymentProgress ph;
           St.finDeflection := finDeflection;
           St.maxAngleChangePerDt2 := at_maxAngleChangePerDt2 att;
           St.isAngleStableOK := at_isAngleStableOK att;
           St.isAbsoluteAngleOK := isAbsoluteAngleOK;
           St.thrustEndFlag := thrustEndFlag;
           St.angleChanges := at_angleChanges att;
           St.angleChangeBuffer := at_angleChangeBuffer att;
           St.maxAbsoluteAngle := maxAbsoluteAngle;
           St.stepCounter := au_stepCounter au;
           St.totalTorque := au_totalTorque au;
           St.avgThrustForTorque := au_avgThrustForTorque au;
           St.thrustSamplesCount := au_thrustSamplesCount au;
           St.angleChangePerDt2 := au_angleChangePerDt2 au;
           St.prec_MaxHeight := prec_MaxHeight;
           St.maxHeight := maxHeight;
           St.maxSpeed := maxSpeed;
           St.maxDistance := maxDistance;
           St.maxFinDeflection := maxFinDeflection;
           St.keyPoints := keyPoints;
           St.isTorqueStableOK := St.isTorqueStableOK s;
           St.prevOmega := at_prevOmega att |}
  end.

(** The loop condition [(y >= 0 || time < 0.1) && time < MAX_TIME]. *)
Definition loopCondition (s : St.t) : bool :=
  ((0 <=? St.y s) || (St.time s <? 0.1)) && (St.time s <? MAX_TIME).

(** The [while] loop: the state it ends in, when it ends within [fuel] iterations. *)
Fixpoint simulate (fuel : nat) (e : Env.t) (s : St.t) : option St.t :=
  match fuel with
  | O => None
  | S fuel' =>
      if loopCondition s then
        match step e s with
        | Break s' => Some s'
        | Next s' => simulate fuel' e s'
        end
      else Some s
  end.

(** The state after [n] full iterations, when the loop gets that far. *)
Fixpoint iterations (n : nat) (e : Env.t) (s : St.t) : option St.t :=
  match n with
  | O => Some s
  | S n' =>
      if loopCondition s then
        match step e s with
        | Break _ => None
        | Next s' => iterations n' e s'
        end
      else None
  end.

(** Whether an iteration is a free-flight one whose torque block runs: no
    parachute phase, and either powered flight off the rail above 1 m/s or
    coasting above 0.5 m/s. *)
Definition reachesTorqueBlock (e : Env.t) (s : St.t) : bool :=
  let ph := updateParachute e s in
  let l := locals e s in
  negb (ph_isParachuteActive ph) && negb (ph_isParachuteEjected ph)
  && (if St.time s <? Env.thrustEndTime e
      then negb (onLaunchRail l) && (1.0 <? velocity l)
      else 0.5 <? velocity l).

(** The four moments that block computes: its ML, MD, MW and MF. *)
Definition stepMoments (e : Env.t) (s : St.t) : Moments :=
  let l := locals e s in
  moments e (velocity l) (adjustedOmega l) (Math.atan2 (St.vx s) (St.vy s))
    (effectiveWindSpeed l) (isCurrentlyZeroWind l).

(** ** RocketPhysics: [calculateFlightPath] *)

Definition initialState (angle : float) : St.t :=
  {| St.time := 0; St.x := 0; St.y := 0; St.vx := 0; St.vy := 0;
     St.prev_vx := 0; St.prev_vy := 0;
     St.omega := angle * Math.PI / 180;
     St.angularVelocity := 0;
     St.angularAcceleration := 0;
     St.data := [];
     St.isParachuteEjected := false;
     St.isParachuteActive := false;
     St.parachuteDeploymentProgress := 0;
     St.finDeflection := 0;
     St.maxAngleChangePerDt2 := 0;
     St.isAngleStableOK := true;
     St.isAbsoluteAngleOK := true;
     St.thrustEndFlag := false;
     St.angleChanges := [];
     St.angleChangeBuffer := [];
     St.maxAbsoluteAngle := 0;
     St.stepCounter := 0;
     St.totalTorque := 0;
     St.avgThrustForTorque := 0;
     St.thrustSamplesCount := 0;
     St.angleChangePerDt2 := 0;
     St.prec_MaxHeight := 0;
     St.maxHeight := 0;
     St.maxSpeed := 0;
     St.maxDistance := 0;
     St.maxFinDeflection := 0;
     St.keyPoints := KeyPoints.initial;
     St.isTorqueStableOK := true;
     St.prevOmega := angle * Math.PI / 180 |}.

(** [config?.toggle ?? DEFAULT]. *)
Definition toggle (config : option Config) (field : Config -> option bool)
    (default : bool) : bool :=
  match config with
  | Some c => match field c with Some b => b | None => default end
  | None => default
  end.

(** The ejection delay: the number after the dash of the motor's designation. *)
Definition parachuteDelayOf (selectedMotor : jsstring) : float :=
  parseInt (nth_error (split_on 45 selectedMotor) 1).

Definition momentOfInertiaOf (rocketParams : RocketParams) (finMaterial : FinMaterial)
    : float :=
  let finCount := if (finCount rocketParams =? 0) || is_nan (finCount rocketParams)
                  then 3 else finCount rocketParams in
  let mass_kg := gToKg (weight rocketParams) in
  let bodyDiameter := mmToM (bodyWidth rocketParams) in
  let bodyRadius := bodyDiameter / 2 in
  let bodyLength := mmToM (bodyHeight rocketParams + noseHeight rocketParams) in
  let finBaseWidth_m := mmToM (finBaseWidth rocketParams) in
  let finHeight_m := mmToM (finHeight rocketParams) in
  let finTipWidth_m := mmToM (finTipWidth rocketParams) in
  let finSweepLength_m := mmToM (finSweepLength rocketParams) in
  let finThickness_m := mmToM (finThickness rocketParams) in
  let finCp_m := mmToM (num (finCp rocketParams)) in
  let finVol := (finTipWidth_m + finBaseWidth_m) * finHeight_m * 0.5 * finThickness_m in
  let finMass := finVol * Material.MD finMaterial in
  let fin_momentOfInertia :=
    if finBaseWidth_m <? finSweepLength_m + finTipWidth_m then
      Math.pow ((finBaseWidth_m + (finSweepLength_m + finTipWidth_m - finBaseWidth_m)) / 2) 2
      * finMass / 3
    else Math.pow (finBaseWidth_m / 2) 2 * finMass / 3 in
  if finCount =? 3 then
    let cg_to_sideFincg :=
      Math.pow
        (Math.pow (((finTipWidth_m + (2 * finBaseWidth_m)) / (3 * (finTipWidth_m + finBaseWidth_m)))
                   * (finHeight_m * 1.732 / 2)) 2
         + Math.pow finCp_m 2) 0.5 in
    0.25 * (mass_kg - finMass * 3) * bodyRadius * bodyRadius
    + 0.0833 * (mass_kg - finMass * 3) * bodyLength * bodyLength
    + ((fin_momentOfInertia + finMass * Math.pow finCp_m 2)
       + (fin_momentOfInertia + finMass * Math.pow cg_to_sideFincg 2) * 2)
  else
    let cg_to_sideFincg :=
      Math.pow
        (Math.pow (((finTipWidth_m + (2 * finBaseWidth_m)) / (3 * (finTipWidth_m + finBaseWidth_m)))
                   * finHeight_m) 2
         + Math.pow finCp_m 2) 0.5 in
    0.25 * (mass_kg - finMass * 3) * bodyRadius * bodyRadius
    + 0.0833 * (mass_kg - finMass * 3) * bodyLength * bodyLength
    + ((fin_momentOfInertia + finMass * Math.pow finCp_m 2) * 2
       + (fin_momentOfInertia + finMass * Math.pow cg_to_sideFincg 2) * 2).

(** What the function fixes before the loop.  Reading a property of a missing
    table entry throws; the parameter object then holds [finCp]. *)
Definition environment (rocketParams : RocketParams) (angle windSpeed : float)
    (windProfile : WindProfile) (config : option Config) : outcome Env.t :=
  match MOTOR_THRUST_DATA (Motor_name (selectedMotor rocketParams)),
        FIN_MATERIALS (js "light_veneer") with
  | Some thrustData, Some finMaterial =>
      let bodyDiameter := mmToM (bodyWidth rocketParams) in
      let thrustEndTime := array_length thrustData * dt in
      let parachuteDelay := parachuteDelayOf (Motor_name (selectedMotor rocketParams)) in
      let parachuteEjectionTime := thrustEndTime + parachuteDelay in
      let parachuteActiveTime := parachuteEjectionTime + parachuteDeployTime in
      let centerOfPressure := calculateCenterOfPressure rocketParams in
      aerodynamicCenter <- calculateAerodynamicCenter rocketParams ;;
      Returned
        {| Env.rocketParams := set_finCp rocketParams (Pressure.finCp centerOfPressure);
           Env.angle := angle;
           Env.windSpeed := windSpeed;
           Env.windProfile := windProfile;
           Env.useEnhancedAttitudeControl :=
             toggle config enhancedAttitudeControl ENHANCED_ATTITUDE_CONTROL;
           Env.useWindAngleLimitation :=
             toggle config windAngleLimitation WIND_ANGLE_LIMITATION;
           Env.mass_kg := gToKg (weight rocketParams);
           Env.thrustData := thrustData;
           Env.bodyDiameter := bodyDiameter;
           Env.bodyLength := mmToM (bodyHeight rocketParams + noseHeight rocketParams);
           Env.finwidth_m := mmToM (finHeight rocketParams);
           Env.finThickness_m := mmToM (finThickness rocketParams);
           Env.finMaterial := finMaterial;
           Env.momentOfInertia := momentOfInertiaOf rocketParams finMaterial;
           Env.noseCd := NOSE_SHAPES_cd (noseShape rocketParams);
           Env.thrustEndTime := thrustEndTime;
           Env.parachuteEjectionTime := parachuteEjectionTime;
           Env.parachuteActiveTime := parachuteActiveTime;
           Env.parachuteDiameter :=
             mmToM (parseInt
                      (Some (slice_from 1 (Parachute_name (selectedParachute rocketParams)))));
           Env.projectedAreas := calculateProjectedArea (to_value rocketParams);
           Env.centerOfPressure := centerOfPressure;
           Env.aerodynamicCenter := aerodynamicCenter |}
  | _, _ => Thrown
  end.

(** The object returned after the loop.  The log of the flight phases reads
    [data[0]], which throws on an empty trajectory. *)
Definition flightResult (e : Env.t) (s : St.t) : outcome FlightResult.t :=
  let rocketParams := Env.rocketParams e in
  volumes <- calculateVolume (to_value rocketParams) ;;
  match St.data s with
  | [] => Thrown
  | _ :: _ =>
      Returned
        {| FlightResult.data := St.data s;
           FlightResult.prec_MaxHeight := St.prec_MaxHeight s;
           FlightResult.maxHeight := St.maxHeight s;
           FlightResult.maxSpeed := St.maxSpeed s;
           FlightResult.maxDistance := St.maxDistance s;
           FlightResult.maxFinDeflection := St.maxFinDeflection s;
           FlightResult.keyPoints := St.keyPoints s;
           FlightResult.angleStability :=
             {| AngleStability.maxAngleChangePerDt2 := St.maxAngleChangePerDt2 s;
                AngleStability.isAngleStableOK := St.isAngleStableOK s;
                AngleStability.isAbsoluteAngleOK := St.isAbsoluteAngleOK s;
                AngleStability.isTorqueStableOK := St.isTorqueStableOK s;
                AngleStability.isStabilityOverallOK :=
                  St.isAngleStableOK s && St.isAbsoluteAngleOK s && St.isTorqueStableOK s;
                AngleStability.maxAbsoluteAngle := St.maxAbsoluteAngle s |};
           FlightResult.projectedAreas := Env.projectedAreas e;
           FlightResult.volumes := volumes;
           FlightResult.pressureCenter := Env.centerOfPressure e;
           FlightResult.aerodynamicCenter := Env.aerodynamicCenter e;
           FlightResult.stabilityCenterOfPressure :=
             calculateStabilityCenterOfPressure rocketParams;
           FlightResult.staticMargins := calculateStaticMargin rocketParams |}
  end.

Definition calculateFlightPath (fuel : nat) (rocketParams : RocketParams)
    (angle windSpeed : float) (windProfile : WindProfile) (config : option Config)
    : outcome FlightResult.t :=
  e <- environment rocketParams angle windSpeed windProfile config ;;
  match simulate fuel e (initialState angle) with
  | None => OutOfFuel
  | Some s => flightResult e s
  end.

(** ** RocketLandingPrediction *)

Definition defaultLandingPrediction : Landing.t :=
  {| Landing.landingX := 0; Landing.landingDistance := 0;
     Landing.timeToLanding := 0; Landing.isPrediction := true |}.

Definition defaultLandingParams : LandingParams :=
  {| lp_weight := 50; lp_bodyWidth := 31; lp_bodyHeight := 255;
     lp_selectedParachute := VString (966%N :: js "300") |}.

(** One iteration of the descent loop. *)
Definition descentStep (windSpeed : float) (windProfile : WindProfile)
    (mass_kg parachuteDiameter bodyDiameter bodyLength safeTerminalVelocity : float)
    (isParachuteActive isParachuteEjected : bool) (d : Descent.t) : Descent.t :=
  let g := 9.81 in
  let rho := 1.225 in
  let dt := 0.05 in
  let currentVx := Descent.currentVx d in
  let currentVy := Descent.currentVy d in
  let effectiveWindSpeed :=
    calculateWindSpeedAtHeight windSpeed (Descent.currentHeight d) windProfile in
  let velocity := Math.sqrt (currentVx * currentVx + currentVy * currentVy) in
  let '(Fx, Fy) :=
    if isParachuteActive then
      let Cd := 0.775 in
      let Area := Math.PI * Math.pow (parachuteDiameter / 2) 2 in
      let Dp := 0.5 * Cd * rho * velocity * velocity * Area in
      let Fx := if 0.001 <? velocity then - Dp * (currentVx / velocity) else 0 in
      let Fy := if 0.001 <? velocity then - Dp * (currentVy / velocity) else 0 in
      let Cdw := 0.25 in
      let S := parachuteDiameter * parachuteDiameter * 0.785 in
      let Dw := 0.5 * Cdw * rho * Math.abs effectiveWindSpeed * effectiveWindSpeed * S in
      (Fx - Dw, Fy)
    else if isParachuteEjected && negb isParachuteActive then
      let Fy := - mass_kg * g in
      let dragCoefficient := 0.1 in
      let Fx := if 0.001 <? velocity then - dragCoefficient * currentVx else 0 in
      let Fy := if 0.001 <? velocity then Fy - dragCoefficient * currentVy else Fy in
      let Cdw := 0.25 in
      let S := bodyDiameter * bodyLength * 0.5 in
      let Dw := 0.5 * Cdw * rho * Math.abs effectiveWindSpeed * effectiveWindSpeed * S in
      (Fx - Dw * 0.5, Fy)
    else
      let Fy := - mass_kg * g in
      let dragCoefficient := 0.05 in
      let Fx := if 0.001 <? velocity then - dragCoefficient * currentVx else 0 in
      let Fy := if 0.001 <? velocity then Fy - dragCoefficient * currentVy else Fy in
      let Cdw := 0.1 in
      let S := bodyDiameter * bodyLength * 0.3 in
      let Dw := 0.5 * Cdw * rho * Math.abs effectiveWindSpeed * effectiveWindSpeed * S in
      (Fx - Dw * 0.2, Fy) in
  let Fy := if negb isParachuteActive then Fy - mass_kg * g else Fy in
  let ax := Fx / mass_kg in
  let ay := Fy / mass_kg in
  let currentVx := currentVx + ax * dt in
  let currentVy := currentVy + ay * dt in
  let currentVy :=
    if isParachuteActive && (currentVy <? - safeTerminalVelocity)
    then - safeTerminalVelocity else currentVy in
  let currentX := Descent.currentX d + currentVx * dt in
  let currentHeight := Descent.currentHeight d + currentVy * dt in
  let currentHeight := if currentHeight <? 0 then 0 else currentHeight in
  {| Descent.currentHeight := currentHeight;
     Descent.currentX := currentX;
     Descent.currentVx := currentVx;
     Descent.currentVy := currentVy;
     Descent.remainingTime := Descent.remainingTime d - dt |}.

(** [selectedParachute ? parseFloat(selectedParachute.replace(phi, '')) / 1000
    : 0.3], where phi is the diameter sign of the parachute names (code unit
    966); the expression stands before the [try], and only a string has a
    [replace] method, so every other truthy value throws. *)
Definition parachuteDiameterOf (selectedParachute : value) : outcome float :=
  if falsy selectedParachute then Returned 0.3
  else
    match selectedParachute with
    | VString s => Returned (parseFloat (remove_first 966 s) / 1000)
    | _ => Thrown
    end.

(** [while (currentHeight > 0 && remainingTime > 0)]. *)
Fixpoint descend (fuel : nat) (body : Descent.t -> Descent.t) (d : Descent.t)
    : option Descent.t :=
  match fuel with
  | O => None
  | S fuel' =>
      if (0 <? Descent.currentHeight d) && (0 <? Descent.remainingTime d)
      then descend fuel' body (body d)
      else Some d
  end.

Definition predictLanding (fuel : nat) (rocketParams : option LandingParams)
    (flightData : FlightData) (windSpeed : float) (windProfile : WindProfile)
    : outcome Landing.t :=
  match flightData with
  | FD_number _ => Returned defaultLandingPrediction
  | FD_not_an_array => Returned defaultLandingPrediction
  | FD_array dataArray | FD_object_with_data dataArray =>
      match dataArray with
      | [] => Returned defaultLandingPrediction
      | _ :: _ =>
          let rocketParams := or_else rocketParams defaultLandingParams in
          match last dataArray None with
          | None => Returned defaultLandingPrediction
          | Some lastDataPoint =>
              let finalHeight := or_else (Point.height lastDataPoint) 0 in
              let finalX := or_else (Point.physicsX lastDataPoint) 0 in
              let finalVx := or_else (Point.vx lastDataPoint) 0 in
              let finalVy := or_else (Point.vy lastDataPoint) 0 in
              let isParachuteActive := or_else (Point.isParachuteActive lastDataPoint) false in
              let isParachuteEjected := or_else (Point.isParachuteEjected lastDataPoint) false in
              if finalHeight <=? 0 then
                Returned
                  {| Landing.landingX := finalX;
                     Landing.landingDistance := Math.abs finalX;
                     Landing.timeToLanding := 0;
                     Landing.isPrediction := false |}
              else
                parachuteDiameter <-
                  parachuteDiameterOf (lp_selectedParachute rocketParams) ;;
                let bodyDiameter := lp_bodyWidth rocketParams / 1000 in
                let bodyLength := lp_bodyHeight rocketParams / 1000 in
                let mass_kg := lp_weight rocketParams * 0.001 in
                let parachuteTerminalVelocity :=
                  if isParachuteActive then Math.abs (num_or finalVy 5.0) else 5.0 in
                let safeTerminalVelocity :=
                  if 0.5 <? parachuteTerminalVelocity then parachuteTerminalVelocity else 5.0 in
                let timeToLanding := finalHeight / safeTerminalVelocity in
                match descend fuel
                        (descentStep windSpeed windProfile mass_kg parachuteDiameter
                           bodyDiameter bodyLength safeTerminalVelocity
                           isParachuteActive isParachuteEjected)
                        {| Descent.currentHeight := finalHeight;
                           Descent.currentX := finalX;
                           Descent.currentVx := finalVx;
                           Descent.currentVy := num_or finalVy (- safeTerminalVelocity);
                           Descent.remainingTime := timeToLanding |} with
                | None => OutOfFuel
                | Some d =>
                    let predictedLandingX := Descent.currentX d in
                    Returned
                      {| Landing.landingX := predictedLandingX;
                         Landing.landingDistance := Math.abs predictedLandingX;
                         Landing.timeToLanding := timeToLanding;
                         Landing.isPrediction := true |}
                end
          end
      end
  end.

(** The wrapper the simulator calls.  An exception of the flight sends it to
    its [catch] branch, where the same call throws again and the empty object
    [{ data: [], maxHeight: 0, maxSpeed: 0, maxDistance: 0 }] is returned.  An
    exception of [predictLanding] sends it there too: the flight is computed
    again, on the parameter object that by then holds [finCp], and returned
    without a landing. *)
Definition calculateFlightPathWithLanding (fuel landingFuel : nat)
    (rocketParams : RocketParams) (angle windSpeed : float)
    (windProfile : WindProfile) (config : option Config) : outcome Launch.t :=
  match calculateFlightPath fuel rocketParams angle windSpeed windProfile config with
  | OutOfFuel => OutOfFuel
  | Thrown => Returned Launch.Empty
  | Returned flightResult =>
      let data := FlightResult.data flightResult in
      match
        predictLanding landingFuel (Some (LandingParams_of rocketParams))
          (FD_array (map (fun p => Some (Point.of_sample p)) data))
          windSpeed windProfile
      with
      | OutOfFuel => OutOfFuel
      | Thrown =>
          let stored :=
            set_finCp rocketParams
              (Pressure.finCp (calculateCenterOfPressure rocketParams)) in
          match calculateFlightPath fuel stored angle windSpeed windProfile config with
          | OutOfFuel => OutOfFuel
          | Thrown => Returned Launch.Empty
          | Returned again => Returned (Launch.FlightOnly again)
          end
      | Returned landingPrediction =>
      let lastTimePoint :=
        match last (map Some data) None with
        | Some p => Sample.time p
        | None => 0
        end in
      let finalHeight :=
        match last (map Some data) None with
        | Some p => Sample.height p
        | None => 0
        end in
      let hasLanded := finalHeight <=? 0 in
      let totalFlightTime :=
        if hasLanded then lastTimePoint
        else lastTimePoint + Landing.timeToLanding landingPrediction in
      Returned
        (Launch.WithLanding flightResult landingPrediction totalFlightTime
           {| Launch.time := lastTimePoint + Landing.timeToLanding landingPrediction;
              Launch.distance := Landing.landingDistance landingPrediction;
              Launch.x := Landing.landingX landingPrediction;
              Launch.totalFlightTime := totalFlightTime |})
      end
  end.

End Engine.

(** ** RocketPhysics: helpers that [calculateFlightPath] does not call *)

(** [applyWindDirectionAngleLimit(omega, windSpeed)]. *)
Definition applyWindDirectionAngleLimit (omega windSpeed : float) : float :=
  if Math.abs windSpeed <? 0.5 then omega
  else
    let limitAngle := Math.sign windSpeed * Math.PI / 2 in
    let isMovingUpwind :=
      ((windSpeed <? 0) && (omega <? 0)) || ((0 <? windSpeed) && (0 <? omega)) in
    if isMovingUpwind then
      if ((windSpeed <? 0) && (omega <? limitAngle))
         || ((0 <? windSpeed) && (limitAngle <? omega))
      then limitAngle
      else omega
    else omega.

(** [calculateThrustMoment(thrust, centerOfGravity, omega, flightAngle,
    rocketParams)]. *)
Definition calculateThrustMoment {M : Math.Impl}
    (thrust centerOfGravity omega flightAngle : float) (rocketParams : RocketParams)
    : float :=
  let noseHeight := noseHeight rocketParams in
  let bodyHeight := bodyHeight rocketParams in
  let angleOfAttack := omega - flightAngle in
  let thrustPosition := noseHeight + bodyHeight in
  let momentMagnitude :=
    Math.abs (thrust * Math.sin angleOfAttack * Math.cos angleOfAttack
              * (thrustPosition - centerOfGravity) * 0.001) in
  let finalMoment :=
    if ((centerOfGravity <=? thrustPosition) && (angleOfAttack <? 0))
       || ((thrustPosition <? centerOfGravity) && (0 <=? angleOfAttack))
    then momentMagnitude
    else - momentMagnitude in
  let MIN_MOMENT := 0.00001 in
  if (0 <? Math.abs finalMoment) && (Math.abs finalMoment <? MIN_MOMENT)
  then Math.sign finalMoment * MIN_MOMENT
  else finalMoment.

(** ** The thrust curve lookup of [calculateFlightPath] *)

(** The thrust that an iteration at [time] reads off the motor's curve:
    [thrustData[Math.min(Math.floor(time / dt), thrustData.length - 1)]]. *)
Definition thrustAt (thrustData : list float) (time : float) : float :=
  let thrustIndex := Math.min (Math.floor (time / dt)) (array_length thrustData - 1) in
  array_get thrustData thrustIndex.

(** ** A host for evaluating the engine on examples

    The theorems below hold for every implementation of the host functions.
    To run the engine on concrete inputs, here is one: the ECMAScript special
    cases exactly, and elsewhere series that are accurate to about an ulp. *)

Module Reference.

Fixpoint horner (coefficients : list float) (x : float) : float :=
  match coefficients with
  | [] => 0
  | c :: r => c + x * horner r x
  end.

Definition nearestZ (x : float) : Z :=
  match floorZ (x + 0.5) with Some z => z | None => 0%Z end.

Definition pio2_hi : float := 1.5707963267948966.
Definition pio2_lo : float := 6.123233995736766e-17.
Definition ln2_hi : float := 0.6931471803691238.
Definition ln2_lo : float := 1.9082149292705877e-10.

Definition sin_kernel (r : float) : float :=
  r * horner [1; -1 / 6; 1 / 120; -1 / 5040; 1 / 362880; -1 / 39916800;
              1 / 6227020800; -1 / 1307674368000] (r * r).

Definition cos_kernel (r : float) : float :=
  horner [1; -1 / 2; 1 / 24; -1 / 720; 1 / 40320; -1 / 3628800; 1 / 479001600;
          -1 / 87178291200; 1 / 20922789888000] (r * r).

(** The quadrant of [x] and what is left of it in [-pi/4, pi/4]. *)
Definition reduce (x : float) : Z * float :=
  let k := nearestZ (x / pio2_hi) in
  let kf := of_Z k in
  (k, (x - kf * pio2_hi) - kf * pio2_lo).

Definition sin (x : float) : float :=
  if negb (is_finite x) then nan
  else
    let '(k, r) := reduce x in
    match (k mod 4)%Z with
    | 0%Z => sin_kernel r
    | 1%Z => cos_kernel r
    | 2%Z => - sin_kernel r
    | _ => - cos_kernel r
    end.

Definition cos (x : float) : float :=
  if negb (is_finite x) then nan
  else
    let '(k, r) := reduce x in
    match (k mod 4)%Z with
    | 0%Z => cos_kernel r
    | 1%Z => - sin_kernel r
    | 2%Z => - cos_kernel r
    | _ => sin_kernel r
    end.

Definition atan_small (t : float) : float :=
  t * horner [1; -1 / 3; 1 / 5; -1 / 7; 1 / 9; -1 / 11; 1 / 13; -1 / 15; 1 / 17;
              -1 / 19; 1 / 21] (t * t).

Definition half_angle (t : float) : float := t / (1 + PrimFloat.sqrt (1 + t * t)).

Definition atan_unit (t : float) : float := 4 * atan_small (half_angle (half_angle t)).

Definition atan (x : float) : float :=
  if is_nan x then nan
  else if 1 <? PrimFloat.abs x then
    if 0 <? x then pio2_hi - atan_unit (1 / x)
    else - pio2_hi - atan_unit (1 / x)
  else atan_unit x.

(** [Math.atan2(y, x)]. *)
Definition atan2 (y x : float) : float :=
  let pi := Math.PI in
  if is_nan x || is_nan y then nan
  else if is_infinity x && is_infinity y then
    let q := if 0 <? x then pi / 4 else 3 * pi / 4 in
    if 0 <? y then q else - q
  else if 0 <? x then atan (y / x)
  else if x <? 0 then
    if get_sign y then atan (y / x) - pi else atan (y / x) + pi
  else if 0 <? y then pio2_hi
  else if y <? 0 then - pio2_hi
  else if get_sign x then (if get_sign y then - pi else pi)
  else y.

Definition ln (x : float) : float :=
  if is_nan x || (x <? 0) then nan
  else if x =? 0 then neg_infinity
  else if is_infinity x then infinity
  else
    let '(m, e) := FloatOps.Z.frexp x in
    let '(m, e) := if m <? 0.7071067811865476 then (2 * m, (e - 1)%Z) else (m, e) in
    let t := (m - 1) / (m + 1) in
    (of_Z e * ln2_hi
     + 2 * t * horner [1; 1 / 3; 1 / 5; 1 / 7; 1 / 9; 1 / 11; 1 / 13; 1 / 15; 1 / 17;
                       1 / 19; 1 / 21] (t * t))
    + of_Z e * ln2_lo.

Definition exp (x : float) : float :=
  if is_nan x then nan
  else if 709.8 <? x then infinity
  else if x <? -745.2 then 0
  else
    let k := nearestZ (x / (ln2_hi + ln2_lo)) in
    let kf := of_Z k in
    let r := (x - kf * ln2_hi) - kf * ln2_lo in
    FloatOps.Z.ldexp
      (horner [1; 1; 1 / 2; 1 / 6; 1 / 24; 1 / 120; 1 / 720; 1 / 5040; 1 / 40320;
               1 / 362880; 1 / 3628800; 1 / 39916800; 1 / 479001600; 1 / 6227020800;
               1 / 87178291200] r) k.

Fixpoint power (x : float) (n : nat) : float :=
  match n with
  | O => 1
  | S O => x
  | S n' => x * power x n'
  end.

Definition is_integer (y : float) : bool := is_finite y && (Math.floor y =? y).

Definition is_odd_integer (y : float) : bool :=
  is_integer y && match floorZ y with Some z => Z.odd z | None => false end.

(** [Math.pow(x, y)]: the cases of Number::exponentiate, then a product for a
    small integer exponent, the square root for 0.5, and exp(y ln x). *)
Definition pow (x y : float) : float :=
  if is_nan y then nan
  else if y =? 0 then 1
  else if is_nan x then nan
  else if is_infinity x then
    if 0 <? x then (if 0 <? y then infinity else 0)
    else if 0 <? y then (if is_odd_integer y then neg_infinity else infinity)
    else (if is_odd_integer y then neg_zero else 0)
  else if x =? 0 then
    if get_sign x then
      if 0 <? y then (if is_odd_integer y then neg_zero else 0)
      else (if is_odd_integer y then neg_infinity else infinity)
    else (if 0 <? y then 0 else infinity)
  else if is_infinity y then
    if PrimFloat.abs x =? 1 then nan
    else if (1 <? PrimFloat.abs x) then (if 0 <? y then infinity else 0)
    else (if 0 <? y then 0 else infinity)
  else if (x <? 0) && negb (is_integer y) then nan
  else if is_integer y && (PrimFloat.abs y <=? 64) then
    let p := power x (Z.to_nat (Z.abs (nearestZ y))) in
    if 0 <? y then p else 1 / p
  else if y =? 0.5 then PrimFloat.sqrt x
  else
    let p := exp (y * ln (PrimFloat.abs x)) in
    if (x <? 0) && is_odd_integer y then - p else p.

#[export] Instance math : Math.Impl :=
  {| Math.pow := pow; Math.sin := sin; Math.cos := cos;
     Math.atan := atan; Math.atan2 := atan2 |}.

(** The conversions, for the strings of decimal digits and the integers they
    denote; the examples convert nothing else. *)
Definition all_digits (s : jsstring) : bool :=
  forallb (fun c => (48 <=? c)%N && (c <=? 57)%N) s.

Definition digits_to_number (s : jsstring) : float :=
  match s with
  | [] => nan
  | _ => if all_digits s then parseInt (Some s) else nan
  end.

Fixpoint digits_of (fuel : nat) (n : N) (acc : jsstring) : jsstring :=
  match fuel with
  | O => acc
  | S fuel' =>
      let acc' := (48 + n mod 10)%N :: acc in
      if (n <? 10)%N then acc' else digits_of fuel' (n / 10)%N acc'
  end.

Definition integer_to_digits (x : float) : jsstring :=
  match floorZ x with
  | Some z =>
      if is_integer x then
        (if (z <? 0)%Z then [45%N] else [])
        ++ digits_of 400 (Z.to_N (Z.abs z)) []
      else js "NaN"
  | None => js "NaN"
  end.

#[export] Instance conversions : Conversions :=
  {| StringToNumber := digits_to_number;
     NumberToString := integer_to_digits;
     parseFloat := digits_to_number |}.

End Reference.

(** ** Example inputs *)

Module Examples.

(** The design the simulator starts with. *)
Definition defaultRocket : RocketParams :=
  {| noseShape := ogive; noseHeight := 57; bodyHeight := 255; bodyWidth := 31;
     finHeight := 58.5; finBaseWidth := 65; finTipWidth := 25; finThickness := 1.5;
     finSweepLength := 95; finMaterial := light_veneer; finCount := 3;
     weight := 50; centerOfGravity := 150;
     selectedMotor := Motor_A8_3; selectedParachute := Phi300; finCp := None |}.

(** The same parameter object after a first flight has stored [finCp] on it. *)
Definition defaultRocketFlown : RocketParams :=
  set_finCp defaultRocket
    (Pressure.finCp
       (@calculateCenterOfPressure Reference.math Reference.conversions defaultRocket)).

(** The heaviest design of the form: 150 g on the default geometry. *)
Definition heavyRocket : RocketParams :=
  {| noseShape := ogive; noseHeight := 57; bodyHeight := 255; bodyWidth := 31;
     finHeight := 58.5; finBaseWidth := 65; finTipWidth := 25; finThickness := 1.5;
     finSweepLength := 95; finMaterial := light_veneer; finCount := 3;
     weight := 150; centerOfGravity := 150;
     selectedMotor := Motor_A8_3; selectedParachute := Phi300; finCp := None |}.

(** The default design with a nose height that is not a number. *)
Definition nanNoseRocket : RocketParams :=
  {| noseShape := ogive; noseHeight := nan; bodyHeight := 255; bodyWidth := 31;
     finHeight := 58.5; finBaseWidth := 65; finTipWidth := 25; finThickness := 1.5;
     finSweepLength := 95; finMaterial := light_veneer; finCount := 3;
     weight := 50; centerOfGravity := 150;
     selectedMotor := Motor_A8_3; selectedParachute := Phi300; finCp := None |}.

(** The default design with pointed fins: a tip chord of 0 mm. *)
Definition pointedFinRocket : RocketParams :=
  {| noseShape := ogive; noseHeight := 57; bodyHeight := 255; bodyWidth := 31;
     finHeight := 58.5; finBaseWidth := 65; finTipWidth := 0; finThickness := 1.5;
     finSweepLength := 95; finMaterial := light_veneer; finCount := 3;
     weight := 50; centerOfGravity := 150;
     selectedMotor := Motor_A8_3; selectedParachute := Phi300; finCp := None |}.

(** The largest fins of the form, swept forward, on its largest body; and the
    same parameter object after a first flight has stored [finCp] on it. *)
Definition largeFinRocket : RocketParams :=
  {| noseShape := ogive; noseHeight := 150; bodyHeight := 500; bodyWidth := 50;
     finHeight := 250; finBaseWidth := 150; finTipWidth := 75; finThickness := 1.5;
     finSweepLength := -50; finMaterial := light_veneer; finCount := 3;
     weight := 50; centerOfGravity := 150;
     selectedMotor := Motor_B6_4; selectedParachute := Phi300; finCp := None |}.

Definition largeFinRocketFlown : RocketParams :=
  set_finCp largeFinRocket
    (Pressure.finCp
       (@calculateCenterOfPressure Reference.math Reference.conversions largeFinRocket)).



(** A design object without the field [bodyHeight]. *)
Definition noBodyHeight : value :=
  VObject
    [ prop "noseShape" (VString (NoseShape_name ogive));
      prop "noseHeight" (VNumber 57);
      prop "bodyWidth" (VNumber 31);
      prop "finHeight" (VNumber 58.5);
      prop "finBaseWidth" (VNumber 65);
      prop "finTipWidth" (VNumber 25);
      prop "finThickness" (VNumber 1.5);
      prop "finSweepLength" (VNumber 95);
      prop "finMaterial" (VString (FinMaterialKey_name light_veneer));
      prop "finCount" (VNumber 3) ].

(** A row of a trajectory in the air, 12 m up and still moving upwards. *)
Definition risingRow : Point.t :=
  {| Point.height := Some 12; Point.physicsX := Some 1.5;
     Point.vx := Some 0.5; Point.vy := Some 3;
     Point.isParachuteActive := Some false; Point.isParachuteEjected := Some false |}.

(** A row of a trajectory, below the ground. *)
Definition sunkRow : Point.t :=
  {| Point.height := Some (-0.25); Point.physicsX := Some 12.5;
     Point.vx := Some 1; Point.vy := Some (-4);
     Point.isParachuteActive := Some true; Point.isParachuteEjected := Some true |}.

Definition sunkSample : Sample.t :=
  {| Sample.time := 7.5; Sample.physicsX := 12.5; Sample.physicsY := -0.25;
     Sample.height := -0.25; Sample.vx := 1; Sample.vy := -4;
     Sample.ax := 0; Sample.ay := 0;
     Sample.speedMagnitude := 4.123105625617661; Sample.accelerationMagnitude := 0;
     Sample.angularVelocity := 0; Sample.angularAcceleration := 0;
     Sample.isParachuteEjected := true; Sample.isParachuteActive := true;
     Sample.parachuteDeploymentProgress := 1; Sample.omega := 0;
     Sample.omegaDegrees := 0; Sample.torque := 0; Sample.angleChangePerDt2 := 0;
     Sample.horizontalDistance := 12.5; Sample.finDeflection := 0;
     Sample.angleDeviationDegrees := 0; Sample.effectiveWindSpeed := 0;
     Sample.isThrustActive := false; Sample.absoluteAngleDegrees := 0;
     Sample.isAbsoluteAngleOK := true; Sample.angleChangeLimit := 45;
     Sample.absoluteAngleLimit := 112.5 |}.

End Examples.

(** ** An invariant of the loop *)

(** A state whose trajectory ends with a sample taken in the loop: the sample's
    time passed the loop condition, and the state's clock and height are the
    ones that followed it. *)
Definition Recorded (s : St.t) : Prop :=
  exists init sample,
    St.data s = init ++ [sample]
    /\ (Sample.time sample <? MAX_TIME) = true
    /\ St.time s = Sample.time sample + dt
    /\ Sample.height sample = St.y s.

(** The deployment progress between the flags: 0 before the ejection, 1 once
    the parachute is active. *)
Definition ProgressAtRest (s : St.t) : Prop :=
  (St.isParachuteActive s = true -> St.parachuteDeploymentProgress s = 1)
  /\ (St.isParachuteEjected s = false -> St.isParachuteActive s = false ->
      St.parachuteDeploymentProgress s = 0).

(** * Properties *)

(** ** Facts about binary64 comparisons *)

Section FloatFacts.

Lemma ltb_compare (x y : float) :
  (x <? y) = match SFcompare (Prim2SF x) (Prim2SF y) with Some Lt => true | _ => false end.
Proof. rewrite FloatAxioms.ltb_spec. reflexivity. Qed.

Lemma leb_compare (x y : float) :
  (x <=? y) =
  match SFcompare (Prim2SF x) (Prim2SF y) with Some (Lt | Eq) => true | _ => false end.
Proof. rewrite FloatAxioms.leb_spec. reflexivity. Qed.

Lemma SFcompare_swap (a b : spec_float) :
  SFcompare b a = option_map CompOpp (SFcompare a b).
Proof.
  destruct a as [sa|sa| |sa ma ea], b as [sb|sb| |sb mb eb]; simpl;
    try reflexivity;
    try (destruct sa; reflexivity); try (destruct sb; reflexivity);
    try (destruct sa, sb; reflexivity).
  destruct sa, sb; simpl; try reflexivity;
    rewrite (Z.compare_antisym ea eb);
    destruct (ea ?= eb)%Z; simpl; try reflexivity;
    rewrite !Pos.compare_cont_spec; simpl;
    rewrite (Pos.compare_antisym ma mb); destruct (ma ?= mb)%positive; reflexivity.
Qed.

Lemma SFcompare_refl (a : spec_float) : a <> S754_nan -> SFcompare a a = Some Eq.
Proof.
  destruct a as [s|s| |s m e]; simpl; intros H; try congruence;
    try (destruct s; reflexivity).
  destruct s; rewrite Z.compare_refl, Pos.compare_cont_spec, Pos.compare_refl; reflexivity.
Qed.

Lemma SFcompare_None (a b : spec_float) :
  SFcompare a b = None -> a = S754_nan \/ b = S754_nan.
Proof.
  destruct a as [sa|sa| |sa ma ea], b as [sb|sb| |sb mb eb]; simpl; intros H;
    try discriminate; auto.
Qed.

Lemma lexicographic_below (e1 e2 e3 : Z) (m1 m2 m3 : positive) :
  match (e1 ?= e2)%Z with Lt => Lt | Gt => Gt | Eq => Pos.compare_cont Eq m1 m2 end = Lt ->
  match (e2 ?= e3)%Z with Lt => Lt | Gt => Gt | Eq => Pos.compare_cont Eq m2 m3 end = Lt ->
  match (e1 ?= e3)%Z with Lt => Lt | Gt => Gt | Eq => Pos.compare_cont Eq m1 m3 end = Lt.
Proof.
  rewrite !Pos.compare_cont_spec. simpl.
  destruct (Z.compare_spec e1 e2), (Z.compare_spec e2 e3), (Z.compare_spec e1 e3);
    try discriminate; try lia; try reflexivity.
  destruct (Pos.compare_spec m1 m2), (Pos.compare_spec m2 m3), (Pos.compare_spec m1 m3);
    try discriminate; try lia; try reflexivity.
Qed.

Lemma lexicographic_above (e1 e2 e3 : Z) (m1 m2 m3 : positive) :
  match (e1 ?= e2)%Z with
  | Lt => Gt | Gt => Lt | Eq => CompOpp (Pos.compare_cont Eq m1 m2) end = Lt ->
  match (e2 ?= e3)%Z with
  | Lt => Gt | Gt => Lt | Eq => CompOpp (Pos.compare_cont Eq m2 m3) end = Lt ->
  match (e1 ?= e3)%Z with
  | Lt => Gt | Gt => Lt | Eq => CompOpp (Pos.compare_cont Eq m1 m3) end = Lt.
Proof.
  rewrite !Pos.compare_cont_spec. simpl.
  destruct (Z.compare_spec e1 e2), (Z.compare_spec e2 e3), (Z.compare_spec e1 e3);
    try discriminate; try lia; try reflexivity.
  destruct (Pos.compare_spec m1 m2), (Pos.compare_spec m2 m3), (Pos.compare_spec m1 m3);
    simpl; try discriminate; try lia; try reflexivity.
Qed.

Lemma SFcompare_below_trans (a b c : spec_float) :
  SFcompare a b = Some Lt -> SFcompare b c = Some Lt -> SFcompare a c = Some Lt.
Proof.
  destruct a as [sa|sa| |sa ma ea], b as [sb|sb| |sb mb eb], c as [sc|sc| |sc mc ec];
    simpl; intros H1 H2; try discriminate; try assumption;
    try (destruct sa; try discriminate; try reflexivity;
         destruct sb; try discriminate; try reflexivity;
         destruct sc; try discriminate; reflexivity);
    try (destruct sb; try discriminate;
         destruct sc; try discriminate; try reflexivity;
         destruct sa; try discriminate; reflexivity).
  all: try (destruct sa, sb; try discriminate; destruct sc; try discriminate; reflexivity).
  all: try (destruct sa, sc; try discriminate; try reflexivity; destruct sb; discriminate).
  destruct sa, sb, sc; try discriminate; try reflexivity;
    injection H1 as H1; injection H2 as H2; f_equal.
  - eapply lexicographic_above; eassumption.
  - eapply lexicographic_below; eassumption.
Qed.

Lemma is_nan_Prim2SF (x : float) :
  is_nan x = match Prim2SF x with S754_nan => true | _ => false end.
Proof.
  unfold is_nan. rewrite FloatAxioms.eqb_spec. unfold SFeqb.
  destruct (Prim2SF x) eqn:Ex; try reflexivity.
  - destruct s; reflexivity.
  - rewrite SFcompare_refl by discriminate. reflexivity.
Qed.

(** Strict order is asymmetric, lies inside the large order, and is transitive. *)
Lemma ltb_asym (x y : float) : (x <? y) = true -> (y <? x) = false.
Proof.
  rewrite !ltb_compare, (SFcompare_swap (Prim2SF x) (Prim2SF y)).
  destruct (SFcompare (Prim2SF x) (Prim2SF y)) as [[]|]; simpl; congruence.
Qed.

Lemma ltb_leb (x y : float) : (x <? y) = true -> (x <=? y) = true.
Proof.
  rewrite ltb_compare, leb_compare.
  destruct (SFcompare (Prim2SF x) (Prim2SF y)) as [[]|]; simpl; congruence.
Qed.

Lemma ltb_trans (x y z : float) : (x <? y) = true -> (y <? z) = true -> (x <? z) = true.
Proof.
  rewrite !ltb_compare. intros Hxy Hyz.
  rewrite (SFcompare_below_trans (Prim2SF x) (Prim2SF y) (Prim2SF z)); auto.
  - destruct (SFcompare (Prim2SF x) (Prim2SF y)) as [[]|]; congruence.
  - destruct (SFcompare (Prim2SF y) (Prim2SF z)) as [[]|]; congruence.
Qed.

(** Two numbers, neither below the other: the first is at most the second. *)
Lemma leb_of_not_ltb (x y : float) :
  is_nan x = false -> is_nan y = false -> (y <? x) = false -> (x <=? y) = true.
Proof.
  rewrite !is_nan_Prim2SF, ltb_compare, leb_compare,
    (SFcompare_swap (Prim2SF x) (Prim2SF y)).
  intros Hx Hy.
  destruct (SFcompare (Prim2SF x) (Prim2SF y)) as [[]|] eqn:Hc; simpl; try congruence.
  destruct (SFcompare_None _ _ Hc) as [H|H]; rewrite H in *; discriminate.
Qed.

Lemma ltb_nan_r (x y : float) : is_nan y = true -> (x <? y) = false.
Proof.
  rewrite is_nan_Prim2SF, ltb_compare. destruct (Prim2SF y); try discriminate.
  destruct (Prim2SF x); reflexivity.
Qed.

Lemma leb_nan_l (x y : float) : is_nan x = true -> (x <=? y) = false.
Proof.
  rewrite is_nan_Prim2SF, leb_compare. destruct (Prim2SF x); try discriminate.
  reflexivity.
Qed.

Lemma leb_nan_r (x y : float) : is_nan y = true -> (x <=? y) = false.
Proof.
  rewrite is_nan_Prim2SF, leb_compare. destruct (Prim2SF y); try discriminate.
  destruct (Prim2SF x); reflexivity.
Qed.

End FloatFacts.

(** ** Facts about [Math.min] and [Math.max] *)

Lemma Math_min_not_above (a b : float) : (b <? Math.min a b) = false.
Proof.
  unfold Math.min.
  destruct (is_nan a || is_nan b) eqn:Hn.
  - apply ltb_nan_r. reflexivity.
  - destruct (a <? b) eqn:Hab.
    + apply ltb_asym. exact Hab.
    + destruct (b <? a) eqn:Hba.
      * apply Bool.orb_false_iff in Hn. destruct Hn as [_ Hb].
        rewrite ltb_compare, SFcompare_refl; [reflexivity|].
        rewrite is_nan_Prim2SF in Hb. destruct (Prim2SF b); congruence.
      * destruct (get_sign a); [exact Hba|].
        apply Bool.orb_false_iff in Hn. destruct Hn as [_ Hb].
        rewrite ltb_compare, SFcompare_refl; [reflexivity|].
        rewrite is_nan_Prim2SF in Hb. destruct (Prim2SF b); congruence.
Qed.

Lemma Math_min_nan (a b : float) :
  is_nan (Math.min a b) = is_nan a || is_nan b.
Proof.
  unfold Math.min. destruct (is_nan a || is_nan b) eqn:Hn; [reflexivity|].
  apply Bool.orb_false_iff in Hn. destruct Hn as [Ha Hb].
  destruct (a <? b); [exact Ha|]. destruct (b <? a); [exact Hb|].
  destruct (get_sign a); assumption.
Qed.

Lemma Math_max_nan (a b : float) :
  is_nan (Math.max a b) = is_nan a || is_nan b.
Proof.
  unfold Math.max. destruct (is_nan a || is_nan b) eqn:Hn; [reflexivity|].
  apply Bool.orb_false_iff in Hn. destruct Hn as [Ha Hb].
  destruct (a <? b); [exact Hb|]. destruct (b <? a); [exact Ha|].
  destruct (get_sign a); assumption.
Qed.

(** [Math.max lo (Math.min hi x)] lies in [[lo, hi]] when [x] is a number. *)
Lemma clamp_in_range (lo hi x : float) :
  (lo <=? hi) = true -> is_nan x = false ->
  (lo <=? Math.max lo (Math.min hi x)) = true
  /\ (Math.max lo (Math.min hi x) <=? hi) = true.
Proof.
  intros Hlh Hx.
  assert (Hlo : is_nan lo = false).
  { destruct (is_nan lo) eqn:H; [|reflexivity].
    rewrite (leb_nan_l lo hi H) in Hlh. discriminate. }
  assert (Hhi : is_nan hi = false).
  { rewrite is_nan_Prim2SF. rewrite leb_compare in Hlh.
    destruct (Prim2SF hi); try reflexivity.
    destruct (Prim2SF lo); discriminate. }
  assert (Hm : is_nan (Math.min hi x) = false).
  { rewrite Math_min_nan, Hhi, Hx. reflexivity. }
  assert (Hmh : (Math.min hi x <=? hi) = true).
  { unfold Math.min. rewrite Hhi, Hx. simpl.
    destruct (hi <? x) eqn:H1.
    - apply leb_of_not_ltb; auto. apply ltb_asym in H1.
      rewrite ltb_compare, SFcompare_refl; [reflexivity|].
      rewrite is_nan_Prim2SF in Hhi. destruct (Prim2SF hi); congruence.
    - destruct (x <? hi) eqn:H2.
      + apply ltb_leb. exact H2.
      + destruct (get_sign hi).
        * apply leb_of_not_ltb; auto.
          rewrite ltb_compare, SFcompare_refl; [reflexivity|].
          rewrite is_nan_Prim2SF in Hhi. destruct (Prim2SF hi); congruence.
        * apply leb_of_not_ltb; auto. }
  unfold Math.max. rewrite Hlo, Hm. simpl.
  destruct (lo <? Math.min hi x) eqn:H1.
  - split; [apply ltb_leb; exact H1 | exact Hmh].
  - destruct (Math.min hi x <? lo) eqn:H2.
    + split; [|exact Hlh]. apply leb_of_not_ltb; auto.
      rewrite ltb_compare, SFcompare_refl; [reflexivity|].
      rewrite is_nan_Prim2SF in Hlo. destruct (Prim2SF lo); congruence.
    + destruct (get_sign lo).
      * split; [|exact Hmh]. apply leb_of_not_ltb; auto.
      * split; [|exact Hlh]. apply leb_of_not_ltb; auto.
        rewrite ltb_compare, SFcompare_refl; [reflexivity|].
        rewrite is_nan_Prim2SF in Hlo. destruct (Prim2SF lo); congruence.
Qed.

(** ** The wind model *)

(** C3: [calculateWindSpeedAtHeight] returns the base speed unchanged at
    height <= 0 (so at height 0, for every profile) and when the profile's
    exponent is 0; otherwise it returns the base speed times
    min(3.0, (height / 1.5)^alpha); the multiplier never exceeds 3.0. *)
Theorem windSpeed_power_law_capped {M : Math.Impl}
    (baseWindSpeed height : float) (profile : WindProfile) :
  calculateWindSpeedAtHeight baseWindSpeed 0 profile = baseWindSpeed
  /\ ((height <=? 0) = true ->
      calculateWindSpeedAtHeight baseWindSpeed height profile = baseWindSpeed)
  /\ ((WIND_PROFILES_alpha profile =? 0) = true ->
      calculateWindSpeedAtHeight baseWindSpeed height profile = baseWindSpeed)
  /\ ((height <=? 0) = false -> (WIND_PROFILES_alpha profile =? 0) = false ->
      calculateWindSpeedAtHeight baseWindSpeed height profile
      = baseWindSpeed
        * Math.min (Math.pow (height / 1.5) (WIND_PROFILES_alpha profile)) 3.0)
  /\ (3.0 <? Math.min (Math.pow (height / 1.5) (WIND_PROFILES_alpha profile)) 3.0) = false.
Proof.
  unfold calculateWindSpeedAtHeight, windSpeedMultiplier.
  repeat split.
  - intros H. rewrite H. reflexivity.
  - intros H. rewrite H. destruct (height <=? 0); reflexivity.
  - intros H1 H2. rewrite H1, H2. reflexivity.
  - apply Math_min_not_above.
Qed.

Lemma windSpeed_power_law_capped_witness :
  @calculateWindSpeedAtHeight Reference.math 5 (-2) urban = 5
  /\ @calculateWindSpeedAtHeight Reference.math 5 80 uniform = 5
  /\ @calculateWindSpeedAtHeight Reference.math 5 80 urban
     = 5 * Math.min (@Math.pow Reference.math (80 / 1.5) 0.4) 3.0
  /\ @calculateWindSpeedAtHeight Reference.math 5 80 urban = 15.
Proof.
  destruct (@windSpeed_power_law_capped Reference.math 5 (-2) urban) as (_ & Hground & _).
  destruct (@windSpeed_power_law_capped Reference.math 5 80 uniform) as (_ & _ & Hflat & _).
  destruct (@windSpeed_power_law_capped Reference.math 5 80 urban) as (_ & _ & _ & Hlaw & _).
  split; [apply Hground; reflexivity|].
  split; [apply Hflat; reflexivity|].
  split; [apply Hlaw; reflexivity|].
  rewrite Hlaw by reflexivity. vm_compute. reflexivity.
Defined.

(** ** The fin moment at the call sites *)

Section FinMoment.

Context {M : Math.Impl} {C : Conversions}.

(** C10: the call sites hand [calculateFinMoment] eight arguments, so its
    fourteenth parameter [centerOfGravity] is [undefined], the null guard
    returns 0, and MF is 0 in every step: the raw torque is ML + MD + MW + 0. *)
Theorem fin_moment_is_zero_at_call_sites
    (e : Env.t) (velocity adjustedOmega flightAngle effectiveWindSpeed : float)
    (isCurrentlyZeroWind : bool) (s : St.t) (a0 a1 a2 a3 a4 a5 a6 a7 : value) :
  arg [a0; a1; a2; a3; a4; a5; a6; a7] 13 = VUndefined
  /\ calculateFinMoment [a0; a1; a2; a3; a4; a5; a6; a7] = 0
  /\ MF (moments e velocity adjustedOmega flightAngle effectiveWindSpeed
           isCurrentlyZeroWind) = 0
  /\ MF (stepMoments e s) = 0
  /\ rawTorque (stepMoments e s)
     = ML (stepMoments e s) + MD (stepMoments e s) + MW (stepMoments e s) + 0.
Proof.
  assert (Hcall : forall b0 b1 b2 b3 b4 b5 b6 b7 : value,
             calculateFinMoment [b0; b1; b2; b3; b4; b5; b6; b7] = 0).
  { intros. unfold calculateFinMoment, arg. simpl. reflexivity. }
  assert (Hmoments : forall v o f w z, MF (moments e v o f w z) = 0).
  { intros. unfold moments. destruct z; simpl; [reflexivity | apply Hcall]. }
  split; [reflexivity|].
  split; [apply Hcall|].
  split; [apply Hmoments|].
  split; [apply Hmoments|].
  unfold rawTorque, stepMoments. rewrite Hmoments. reflexivity.
Qed.

End FinMoment.

(** ** The landing prediction of a flight that is on the ground *)

Section Landing.

Context {M : Math.Impl} {C : Conversions}.

(** C9: when the last row of the trajectory has height <= 0, [predictLanding]
    returns a time to landing of 0, flagged as no prediction, and the landing
    point is that row's horizontal position; so it is for the last sample of
    a recorded flight. *)
Theorem predictLanding_on_the_ground
    (fuel : nat) (rocketParams : option LandingParams) (rows : list (option Point.t))
    (lastDataPoint : Point.t) (windSpeed : float) (windProfile : WindProfile)
    (data : list Sample.t) (terminal : Sample.t) :
  (last rows None = Some lastDataPoint ->
   (or_else (Point.height lastDataPoint) 0 <=? 0) = true ->
   predictLanding fuel rocketParams (FD_array rows) windSpeed windProfile
   = Returned
       {| Landing.landingX := or_else (Point.physicsX lastDataPoint) 0;
          Landing.landingDistance := Math.abs (or_else (Point.physicsX lastDataPoint) 0);
          Landing.timeToLanding := 0;
          Landing.isPrediction := false |}
   /\ predictLanding fuel rocketParams (FD_object_with_data rows) windSpeed windProfile
      = predictLanding fuel rocketParams (FD_array rows) windSpeed windProfile)
  /\ ((Sample.height terminal <=? 0) = true ->
      predictLanding fuel rocketParams
        (FD_array (map (fun p => Some (Point.of_sample p)) (data ++ [terminal])))
        windSpeed windProfile
      = Returned
          {| Landing.landingX := Sample.physicsX terminal;
             Landing.landingDistance := Math.abs (Sample.physicsX terminal);
             Landing.timeToLanding := 0;
             Landing.isPrediction := false |}).
Proof.
  assert (Hrows : forall rs p,
             last rs None = Some p -> (or_else (Point.height p) 0 <=? 0) = true ->
             predictLanding fuel rocketParams (FD_array rs) windSpeed windProfile
             = Returned
                 {| Landing.landingX := or_else (Point.physicsX p) 0;
                    Landing.landingDistance := Math.abs (or_else (Point.physicsX p) 0);
                    Landing.timeToLanding := 0;
                    Landing.isPrediction := false |}).
  { intros rs p Hlast Hheight. unfold predictLanding.
    destruct rs as [|r rs']; [discriminate|].
    rewrite Hlast, Hheight. reflexivity. }
  split.
  - intros Hlast Hheight. split; [apply Hrows; assumption | reflexivity].
  - intros Hheight.
    rewrite (Hrows _ (Point.of_sample terminal)).
    + reflexivity.
    + rewrite map_app. simpl. apply last_last.
    + exact Hheight.
Qed.

End Landing.

Lemma predictLanding_on_the_ground_witness :
  @predictLanding Reference.math Reference.conversions 0 None
    (FD_array [None; Some Examples.sunkRow]) 3 urban
  = Returned
      {| Landing.landingX := 12.5; Landing.landingDistance := 12.5;
         Landing.timeToLanding := 0; Landing.isPrediction := false |}
  /\ @predictLanding Reference.math Reference.conversions 0 None
       (FD_array (map (fun p => Some (Point.of_sample p)) [Examples.sunkSample]))
       3 urban
     = Returned
         {| Landing.landingX := 12.5; Landing.landingDistance := 12.5;
            Landing.timeToLanding := 0; Landing.isPrediction := false |}.
Proof.
  destruct (@predictLanding_on_the_ground Reference.math Reference.conversions 0 None
              [None; Some Examples.sunkRow] Examples.sunkRow 3 urban
              [] Examples.sunkSample) as [Hrows Hsample].
  split.
  - destruct Hrows as [H _]; [reflexivity | reflexivity | exact H].
  - apply Hsample. reflexivity.
Defined.

(** ** The moments are numbers *)

Section MomentsAreFinite.

Context {M : Math.Impl} {C : Conversions}.

Lemma guarded_is_finite (finalMoment : float) :
  is_finite (if negb (isFinite finalMoment) || isNaN finalMoment then 0 else finalMoment)
  = true.
Proof.
  unfold isFinite, isNaN. destruct (is_finite finalMoment) eqn:Hf; simpl.
  - destruct (is_nan finalMoment); [reflexivity | exact Hf].
  - reflexivity.
Qed.

Lemma is_finite_not_nan (x : float) : is_finite x = true -> is_nan x = false.
Proof.
  unfold is_finite. destruct (is_nan x); [discriminate | reflexivity].
Qed.

Lemma calculateLiftMoment_finite (v o f a c g : float) :
  is_finite (calculateLiftMoment v o f a c g) = true.
Proof. unfold calculateLiftMoment. apply guarded_is_finite. Qed.

Lemma calculateDragMoment_finite (v o f a c g : float) :
  is_finite (calculateDragMoment v o f a c g) = true.
Proof. unfold calculateDragMoment. apply guarded_is_finite. Qed.

Lemma calculateWindMoment_finite
    (n d b : float) (w o : value) (t : float) (p g : value) :
  is_finite (calculateWindMoment n d b w o t p g) = true.
Proof.
  unfold calculateWindMoment.
  destruct (is_nullish p || is_nullish g); [reflexivity | apply guarded_is_finite].
Qed.

Lemma moments_valid (e : Env.t) (v o f w : float) (z : bool) :
  invalidMoment (moments e v o f w z) = false.
Proof.
  unfold invalidMoment, moments, isFinite, isNaN.
  destruct z; [reflexivity|]. cbn [ML MD MW MF].
  assert (HF : calculateFinMoment
                 [VNumber (finHeight (Env.rocketParams e));
                  VNumber (finBaseWidth (Env.rocketParams e));
                  VNumber (finCount (Env.rocketParams e)); VNumber v; VNumber f;
                  to_value (Env.rocketParams e);
                  get (to_value (Env.rocketParams e)) "finCp";
                  VNumber (centerOfGravity (Env.rocketParams e))] = 0).
  { unfold calculateFinMoment, arg. simpl. reflexivity. }
  rewrite HF.
  rewrite calculateLiftMoment_finite, calculateDragMoment_finite,
    calculateWindMoment_finite.
  rewrite (is_finite_not_nan _ (calculateLiftMoment_finite _ _ _ _ _ _)),
    (is_finite_not_nan _ (calculateDragMoment_finite _ _ _ _ _ _)),
    (is_finite_not_nan _ (calculateWindMoment_finite _ _ _ _ _ _ _ _)).
  reflexivity.
Qed.

End MomentsAreFinite.

(** ** One iteration of the loop *)

Section Iteration.

Context {M : Math.Impl} {C : Conversions}.

(** The guard fires in the torque block exactly through [freeFlightTorque]. *)
Lemma freeFlightTorque_abort (e : Env.t) (v o f w : float) (z : bool) :
  (TORQUE_THRESHOLD <? Math.abs (rawTorque (moments e v o f w z))) = true ->
  freeFlightTorque (moments e v o f w z) = TorqueAbort.
Proof.
  intros H. unfold freeFlightTorque. rewrite moments_valid, H. reflexivity.
Qed.

Lemma forces_abort (e : Env.t) (s : St.t) :
  reachesTorqueBlock e s = true ->
  (TORQUE_THRESHOLD <? Math.abs (rawTorque (stepMoments e s))) = true ->
  exists a c f k, forces e s (updateParachute e s) (locals e s) = ForceAbort a c f k.
Proof.
  unfold reachesTorqueBlock, stepMoments. intros Hreach Hraw.
  apply Bool.andb_true_iff in Hreach. destruct Hreach as [Hphase Hgate].
  apply Bool.andb_true_iff in Hphase. destruct Hphase as [Hactive Hejected].
  apply Bool.negb_true_iff in Hactive, Hejected.
  unfold forces. rewrite Hactive, Hejected. cbn [andb negb].
  destruct (St.time s <? Env.thrustEndTime e).
  - apply Bool.andb_true_iff in Hgate. destruct Hgate as [Hrail Hfast].
    apply Bool.negb_true_iff in Hrail. rewrite Hrail, Hfast.
    rewrite (freeFlightTorque_abort _ _ _ _ _ _ Hraw). eauto.
  - rewrite Hgate. rewrite (freeFlightTorque_abort _ _ _ _ _ _ Hraw). eauto.
Qed.

(** What a [break] leaves behind: the trajectory and the clock as they were,
    and the torque verdict withdrawn. *)
Lemma step_Break (e : Env.t) (s s' : St.t) :
  step e s = Break s' ->
  St.isTorqueStableOK s' = false /\ St.data s' = St.data s
  /\ St.time s' = St.time s /\ St.y s' = St.y s.
Proof.
  unfold step.
  destruct (forces e s (updateParachute e s) (locals e s)); intros H;
    [injection H as <- | discriminate].
  repeat split.
Qed.

(** What a full iteration appends and advances. *)
Lemma step_Next (e : Env.t) (s s' : St.t) :
  step e s = Next s' ->
  St.time s' = St.time s + dt
  /\ St.isTorqueStableOK s' = St.isTorqueStableOK s
  /\ exists sample,
       St.data s' = St.data s ++ [sample]
       /\ Sample.time sample = St.time s
       /\ Sample.height sample = St.y s'.
Proof.
  unfold step.
  destruct (forces e s (updateParachute e s) (locals e s)); intros H;
    [discriminate | injection H as <-].
  split; [reflexivity|]. split; [reflexivity|].
  eexists. split; [reflexivity|]. split; reflexivity.
Qed.

End Iteration.

(** ** The run of the loop *)

Section Run.

Context {M : Math.Impl} {C : Conversions}.

Lemma simulate_S (fuel : nat) (e : Env.t) (s : St.t) :
  simulate (S fuel) e s
  = if loopCondition s then
      match step e s with
      | Break s' => Some s'
      | Next s' => simulate fuel e s'
      end
    else Some s.
Proof. reflexivity. Qed.

(** A run that completes [n] iterations continues from the state they reach. *)
Lemma simulate_after_iterations (n : nat) :
  forall (fuel : nat) (e : Env.t) (s0 s : St.t),
    iterations n e s0 = Some s -> simulate (n + fuel) e s0 = simulate fuel e s.
Proof.
  induction n as [|n IH]; intros fuel e s0 s Hiter.
  - injection Hiter as <-. reflexivity.
  - cbn [iterations] in Hiter. cbn [Nat.add simulate].
    destruct (loopCondition s0); [|discriminate].
    destruct (step e s0) as [s1|s1]; [discriminate|].
    apply IH. exact Hiter.
Qed.

End Run.

(** ** Termination of the loop and the last recorded sample *)

Section Termination.

Context {M : Math.Impl} {C : Conversions}.

Lemma Recorded_Next (e : Env.t) (s s' : St.t) :
  loopCondition s = true -> step e s = Next s' -> Recorded s'.
Proof.
  intros Hloop Hstep.
  destruct (step_Next e s s' Hstep) as (Htime & _ & sample & Hdata & Hst & Hh).
  exists (St.data s), sample.
  split; [exact Hdata|]. split.
  - rewrite Hst. apply Bool.andb_true_iff in Hloop. apply Hloop.
  - split; [rewrite Hst; exact Htime | exact Hh].
Qed.

Lemma Recorded_Break (e : Env.t) (s s' : St.t) :
  Recorded s -> step e s = Break s' -> Recorded s'.
Proof.
  intros (init & sample & Hdata & Hlt & Htime & Hh) Hstep.
  destruct (step_Break e s s' Hstep) as (_ & Hd & Ht & Hy).
  exists init, sample. rewrite Hd, Ht, Hy. auto.
Qed.

(** Below the speed gates of the torque block, an iteration cannot break. *)
Lemma forces_of_a_slow_step (e : Env.t) (s : St.t) (ph : Phase) (l : Locals) :
  (0.5 <? velocity l) = false -> (1.0 <? velocity l) = false ->
  exists o, forces e s ph l = ForceOk o.
Proof.
  intros Hcoast Hpowered. unfold forces. rewrite Hcoast, Hpowered.
  destruct (ph_isParachuteActive ph).
  { destruct (accelerations _ _ _). eauto. }
  destruct (ph_isParachuteEjected ph && negb false).
  { destruct (accelerations _ _ _). eauto. }
  destruct (St.time s <? Env.thrustEndTime e).
  - destruct (onLaunchRail l).
    + destruct (Env.angle e =? 0); destruct (accelerations _ _ _); eauto.
    + destruct (accelerations _ _ _). eauto.
  - destruct (accelerations _ _ _). eauto.
Qed.

Lemma first_step_is_full (e : Env.t) (angle : float) :
  exists s', step e (initialState angle) = Next s'.
Proof.
  destruct (forces_of_a_slow_step e (initialState angle)
              (updateParachute e (initialState angle))
              (locals e (initialState angle)))
    as [o Ho]; [reflexivity | reflexivity |].
  unfold step. rewrite Ho. eauto.
Qed.

(** The first iteration always runs, so the trajectory is never empty. *)
Lemma simulate_from_start (fuel : nat) (e : Env.t) (angle : float) (sf : St.t) :
  simulate fuel e (initialState angle) = Some sf ->
  exists s1, Recorded s1 /\ St.isTorqueStableOK s1 = true
             /\ simulate (pred fuel) e s1 = Some sf.
Proof.
  destruct fuel as [|fuel]; [discriminate|]. rewrite simulate_S.
  assert (Hloop : loopCondition (initialState angle) = true) by reflexivity.
  rewrite Hloop.
  destruct (first_step_is_full e angle) as [s1 Hs1]. rewrite Hs1.
  intros Hrun. exists s1.
  split; [eapply Recorded_Next; eassumption|].
  split; [|exact Hrun].
  destruct (step_Next e _ _ Hs1) as (_ & Hflag & _). exact Hflag.
Qed.

(** The loop ends in a recorded state, either by the torque guard or with its
    condition false. *)
Lemma simulate_Recorded (fuel : nat) (e : Env.t) (s sf : St.t) :
  Recorded s -> simulate fuel e s = Some sf ->
  Recorded sf /\ (St.isTorqueStableOK sf = false \/ loopCondition sf = false).
Proof.
  revert s. induction fuel as [|fuel IH]; intros s Hrec Hrun; [discriminate|].
  rewrite simulate_S in Hrun. destruct (loopCondition s) eqn:Hloop.
  - destruct (step e s) as [s'|s'] eqn:Hstep.
    + injection Hrun as <-. split; [eapply Recorded_Break; eassumption|].
      left. apply (step_Break e s s' Hstep).
    + apply (IH s'); [eapply Recorded_Next; eassumption | exact Hrun].
  - injection Hrun as <-. auto.
Qed.

(** The clock only depends on the number of iterations. *)
Lemma clock_reaches_the_cap : (clockAfter 1001 <? MAX_TIME) = false.
Proof. vm_compute. reflexivity. Qed.

Lemma simulate_terminates (n : nat) :
  forall (j fuel : nat) (e : Env.t) (s : St.t),
    St.time s = clockAfter j -> (j + n = 1001)%nat -> (n < fuel)%nat ->
    exists sf, simulate fuel e s = Some sf.
Proof.
  induction n as [|n IH]; intros j fuel e s Htime Hsum Hfuel.
  - destruct fuel as [|fuel]; [lia|]. rewrite simulate_S.
    assert (Hj : j = 1001%nat) by lia. subst j.
    unfold loopCondition. rewrite Htime, clock_reaches_the_cap.
    rewrite Bool.andb_false_r. eauto.
  - destruct fuel as [|fuel]; [lia|]. rewrite simulate_S.
    destruct (loopCondition s); [|eauto].
    destruct (step e s) as [s'|s'] eqn:Hstep; [eauto|].
    apply (IH (S j)); [|lia|lia].
    destruct (step_Next e s s' Hstep) as (Ht & _). rewrite Ht, Htime. reflexivity.
Qed.

Lemma environment_Returned
    (rocketParams : RocketParams) (angle windSpeed : float)
    (windProfile : WindProfile) (config : option Config) :
  exists e, environment rocketParams angle windSpeed windProfile config = Returned e.
Proof.
  unfold environment.
  assert (Hmotor : exists d,
             MOTOR_THRUST_DATA (Motor_name (selectedMotor rocketParams)) = Some d).
  { destruct (selectedMotor rocketParams); eexists; vm_compute; reflexivity. }
  destruct Hmotor as [d Hd]. rewrite Hd.
  assert (Hmaterial : exists m, FIN_MATERIALS (js "light_veneer") = Some m)
    by (eexists; vm_compute; reflexivity).
  destruct Hmaterial as [m Hm]. rewrite Hm.
  unfold calculateAerodynamicCenter, calculateVolume.
  change (is_nullish (to_value rocketParams)) with false.
  cbv beta iota. unfold bind. eauto.
Qed.

Lemma flightResult_Returned (e : Env.t) (s : St.t) (init : list Sample.t)
    (sample : Sample.t) :
  St.data s = init ++ [sample] ->
  exists r, flightResult e s = Returned r
            /\ FlightResult.data r = St.data s
            /\ AngleStability.isTorqueStableOK (FlightResult.angleStability r)
               = St.isTorqueStableOK s.
Proof.
  intros Hdata. unfold flightResult, calculateVolume.
  change (is_nullish (to_value (Env.rocketParams e))) with false.
  cbv beta iota. unfold bind.
  destruct (St.data s) as [|p rest] eqn:Hd.
  - destruct init; discriminate.
  - eexists. split; [reflexivity|]. split; reflexivity.
Qed.

End Termination.

(** ** The abort on an abnormal torque *)

Section Abort.

Context {M : Math.Impl} {C : Conversions}.

(** Every full iteration records one sample. *)
Lemma iterations_data_length (e : Env.t) (n : nat) :
  forall s sn,
    iterations n e s = Some sn ->
    List.length (St.data sn) = (List.length (St.data s) + n)%nat.
Proof.
  induction n as [|n IH]; intros s sn Hrun.
  - injection Hrun as <-. lia.
  - cbn [iterations] in Hrun.
    destruct (loopCondition s); [|discriminate].
    destruct (step e s) as [s'|s'] eqn:Hstep; [discriminate|].
    destruct (step_Next e s s' Hstep) as (_ & _ & sample & Hdata & _).
    rewrite (IH s' sn Hrun), Hdata, length_app. cbn [List.length]. lia.
Qed.

(** C1: in a free-flight iteration (powered or coasting) whose torque block
    runs, a combined raw torque ML + MD + MW + MF of magnitude above 10.0
    makes the loop break at once: no sample is recorded in that iteration or
    after it, the flag isTorqueStableOK is false, and the clock at the stop is
    below 20.  When the iteration is the one after [n] full iterations of a
    run of calculateFlightPath, the run returns a result: its data are the [n]
    samples recorded before, and its angleStability has isTorqueStableOK =
    false, hence isStabilityOverallOK = false. *)
Theorem abnormal_torque_aborts_the_run (e : Env.t) (s : St.t) (fuel : nat) :
  loopCondition s = true ->
  reachesTorqueBlock e s = true ->
  (TORQUE_THRESHOLD <? Math.abs (rawTorque (stepMoments e s))) = true ->
  exists s',
    step e s = Break s'
    /\ simulate (S fuel) e s = Some s'
    /\ St.data s' = St.data s
    /\ St.isTorqueStableOK s' = false
    /\ (St.time s' <? MAX_TIME) = true
    /\ forall n rocketParams angle windSpeed windProfile config,
         environment rocketParams angle windSpeed windProfile config = Returned e ->
         iterations n e (initialState angle) = Some s ->
         exists r,
           calculateFlightPath (n + S fuel) rocketParams angle windSpeed windProfile config
           = Returned r
           /\ FlightResult.data r = St.data s
           /\ List.length (FlightResult.data r) = n
           /\ AngleStability.isTorqueStableOK (FlightResult.angleStability r) = false
           /\ AngleStability.isStabilityOverallOK (FlightResult.angleStability r) = false.
Proof.
  intros Hloop Hreach Hraw.
  destruct (forces_abort e s Hreach Hraw) as (a & c & f & k & Hforces).
  assert (Hstep : exists s', step e s = Break s').
  { unfold step. rewrite Hforces. eauto. }
  destruct Hstep as [s' Hstep]. exists s'.
  destruct (step_Break e s s' Hstep) as (Hflag & Hdata & Htime & _).
  split; [exact Hstep|].
  split; [simpl; rewrite Hloop, Hstep; reflexivity|].
  split; [exact Hdata|]. split; [exact Hflag|].
  split.
  - rewrite Htime. unfold loopCondition in Hloop.
    apply Bool.andb_true_iff in Hloop. apply Hloop.
  - intros n rocketParams angle windSpeed windProfile config Henv Hiter.
    pose proof (iterations_data_length e n _ _ Hiter) as Hlen. cbn in Hlen.
    assert (Hsome : exists init sample, St.data s' = init ++ [sample]).
    { rewrite Hdata. destruct n as [|n].
      - injection Hiter as <-.
        destruct (first_step_is_full e angle) as [s1 H1].
        rewrite H1 in Hstep. discriminate.
      - destruct (St.data s) as [|p d] using rev_ind; [discriminate|]. eauto. }
    destruct Hsome as (init & sample & Hsome).
    destruct (flightResult_Returned e s' init sample Hsome) as (r & Hr & Hd & Hok).
    exists r.
    split.
    { unfold calculateFlightPath. rewrite Henv. unfold bind.
      rewrite (simulate_after_iterations n (S fuel) e _ s Hiter).
      rewrite simulate_S, Hloop, Hstep. exact Hr. }
    split; [congruence|]. split; [congruence|].
    split; [congruence|].
    unfold flightResult in Hr.
    destruct (calculateVolume (to_value (Env.rocketParams e))); try discriminate.
    simpl in Hr. destruct (St.data s'); [discriminate|].
    injection Hr as <-. simpl. rewrite Hflag, !Bool.andb_false_r. reflexivity.
Qed.

End Abort.

(** The large-fin design in an 8 m/s urban wind: the 29th iteration exceeds
    the threshold, and the flight returns its first 28 samples with
    isTorqueStableOK false. *)
Lemma abnormal_torque_aborts_the_run_witness :
  exists e s s' r,
    @environment Reference.math Reference.conversions
      Examples.largeFinRocketFlown 0 8 urban None = Returned e
    /\ @iterations Reference.math Reference.conversions 28 e
         (initialState 0) = Some s
    /\ @step Reference.math Reference.conversions e s = Break s'
    /\ @simulate Reference.math Reference.conversions 1 e s = Some s'
    /\ St.isTorqueStableOK s' = false
    /\ (St.time s' <? MAX_TIME) = true
    /\ @calculateFlightPath Reference.math Reference.conversions 29
         Examples.largeFinRocketFlown 0 8 urban None
       = Returned r
    /\ FlightResult.data r = St.data s
    /\ List.length (FlightResult.data r) = 28%nat
    /\ AngleStability.isTorqueStableOK (FlightResult.angleStability r) = false
    /\ AngleStability.isStabilityOverallOK (FlightResult.angleStability r) = false.
Proof.
  eassert (He : @environment Reference.math Reference.conversions
                  Examples.largeFinRocketFlown 0 8 urban None = Returned _)
    by (vm_compute; reflexivity).
  match type of He with _ = Returned ?v => set (e := v) in He end.
  eassert (Hs : @iterations Reference.math Reference.conversions 28 e
                  (initialState 0) = Some _)
    by (vm_compute; reflexivity).
  match type of Hs with _ = Some ?v => set (s := v) in Hs end.
  assert (Hloop : loopCondition s = true) by (vm_compute; reflexivity).
  assert (Hreach : @reachesTorqueBlock Reference.math e s = true)
    by (vm_compute; reflexivity).
  assert (Hraw : (TORQUE_THRESHOLD
                  <? Math.abs (rawTorque
                                 (@stepMoments Reference.math Reference.conversions e s)))
                 = true)
    by (vm_compute; reflexivity).
  destruct (@abnormal_torque_aborts_the_run Reference.math Reference.conversions
              e s 0 Hloop Hreach Hraw)
    as (s' & Hstep & Hrun & Hdata & Hflag & Htime & Hpath).
  destruct (Hpath 28%nat _ _ _ _ _ He Hs) as (r & Hr & Hd & Hlen & Hok & Hall).
  exists e, s, s', r.
  split; [exact He|]. split; [exact Hs|]. split; [exact Hstep|].
  split; [exact Hrun|]. split; [exact Hflag|]. split; [exact Htime|].
  split; [exact Hr|]. split; [exact Hd|]. split; [exact Hlen|].
  split; [exact Hok | exact Hall].
Defined.

Section LastSample.

Context {M : Math.Impl} {C : Conversions}.

(** C2, as the code has it: for every input [calculateFlightPath] terminates
    (1002 iterations of fuel are enough), its trajectory is not empty, and the
    last recorded sample has time < 20, so time < 20 + dt.  The height is not
    clamped: the run stops by the torque guard, or at the time cap, or because
    the recorded height is no longer >= 0 once the 0.1 s grace window is over. *)
Theorem flight_terminates_with_a_last_sample
    (fuel : nat) (rocketParams : RocketParams) (angle windSpeed : float)
    (windProfile : WindProfile) (config : option Config) :
  (1002 <= fuel)%nat ->
  exists r init sample,
    calculateFlightPath fuel rocketParams angle windSpeed windProfile config = Returned r
    /\ FlightResult.data r = init ++ [sample]
    /\ (Sample.time sample <? MAX_TIME) = true
    /\ (Sample.time sample <? MAX_TIME + dt) = true
    /\ (AngleStability.isTorqueStableOK (FlightResult.angleStability r) = false
        \/ (Sample.time sample + dt <? MAX_TIME) = false
        \/ ((0 <=? Sample.height sample) = false
            /\ (Sample.time sample + dt <? 0.1) = false)).
Proof.
  intros Hfuel.
  destruct (environment_Returned rocketParams angle windSpeed windProfile config)
    as [e He].
  unfold calculateFlightPath. rewrite He. unfold bind.
  destruct (simulate_terminates 1001 0 fuel e (initialState angle)) as [sf Hrun];
    [reflexivity | reflexivity | lia |].
  rewrite Hrun.
  destruct (simulate_from_start fuel e angle sf Hrun) as (s1 & Hrec1 & _ & Hrun1).
  destruct (simulate_Recorded _ e s1 sf Hrec1 Hrun1) as [Hrec Hend].
  destruct Hrec as (init & sample & Hdata & Hlt & Htime & Hheight).
  destruct (flightResult_Returned e sf init sample Hdata) as (r & Hr & Hrd & Hflag).
  exists r, init, sample.
  split; [exact Hr|]. split; [congruence|]. split; [exact Hlt|].
  split.
  - apply (ltb_trans _ MAX_TIME); [exact Hlt | reflexivity].
  - rewrite Hflag. destruct Hend as [Habort | Hcond]; [left; exact Habort | right].
    unfold loopCondition in Hcond. rewrite Htime, <- Hheight in Hcond.
    destruct (Sample.time sample + dt <? MAX_TIME); [right | left; reflexivity].
    rewrite Bool.andb_true_r in Hcond.
    apply Bool.orb_false_iff in Hcond. exact Hcond.
Qed.

(** On the rail of a vertical launch without wind the host's functions are not
    consulted: whatever they are, the 150 g design stops after five samples,
    at t = 0.08 s, below the ground and with the torque verdict intact. *)
Lemma heavy_rocket_stops_below_ground :
  exists r init sample,
    calculateFlightPath 1002 Examples.heavyRocket 0 0 uniform None = Returned r
    /\ FlightResult.data r = init ++ [sample]
    /\ List.length init = 4%nat
    /\ Sample.time sample = 0.08
    /\ (Sample.height sample <? 0) = true
    /\ AngleStability.isTorqueStableOK (FlightResult.angleStability r) = true.
Proof.
  eexists ?[r]. exists (firstn 4 (FlightResult.data ?r)). eexists.
  split; [vm_compute; reflexivity|].
  split; [vm_compute; reflexivity|].
  split; [vm_compute; reflexivity|].
  split; [vm_compute; reflexivity|].
  split; vm_compute; reflexivity.
Qed.

End LastSample.

Lemma flight_terminates_with_a_last_sample_witness :
  (1002 <= 1002)%nat
  /\ exists r init sample,
       @calculateFlightPath Reference.math Reference.conversions 1002
         Examples.heavyRocket 0 0 uniform None = Returned r
       /\ FlightResult.data r = init ++ [sample]
       /\ (Sample.time sample <? MAX_TIME) = true
       /\ (Sample.time sample <? MAX_TIME + dt) = true
       /\ (AngleStability.isTorqueStableOK (FlightResult.angleStability r) = false
           \/ (Sample.time sample + dt <? MAX_TIME) = false
           \/ ((0 <=? Sample.height sample) = false
               /\ (Sample.time sample + dt <? 0.1) = false)).
Proof.
  split; [lia|].
  apply (@flight_terminates_with_a_last_sample Reference.math Reference.conversions).
  lia.
Defined.

(** C2 as stated fails on the heaviest design of the form (150 g, motor A8-3,
    vertical launch, no wind): thrust is below weight for the first steps, so
    the loop stops when the grace window ends, and the last recorded sample,
    at t = 0.08 s, has a negative height while isTorqueStableOK is true. *)
Lemma last_height_is_not_clamped :
  exists r init sample,
    @calculateFlightPath Reference.math Reference.conversions 1002
      Examples.heavyRocket 0 0 uniform None = Returned r
    /\ FlightResult.data r = init ++ [sample]
    /\ Sample.time sample = 0.08
    /\ (Sample.height sample <? 0) = true
    /\ (0 <=? Sample.height sample) = false
    /\ AngleStability.isTorqueStableOK (FlightResult.angleStability r) = true.
Proof.
  eexists ?[r]. exists (firstn 4 (FlightResult.data ?r)). eexists.
  split; [vm_compute; reflexivity|].
  split; [vm_compute; reflexivity|].
  split; [vm_compute; reflexivity|].
  split; [vm_compute; reflexivity|].
  split; vm_compute; reflexivity.
Qed.

(** ** The parachute phases *)

Section Parachute.

Context {M : Math.Impl} {C : Conversions}.

Lemma iterations_S (n : nat) (e : Env.t) (s : St.t) :
  iterations (S n) e s
  = if loopCondition s then
      match step e s with
      | Break _ => None
      | Next s' => iterations n e s'
      end
    else None.
Proof. reflexivity. Qed.

Lemma step_Next_parachute (e : Env.t) (s s' : St.t) :
  step e s = Next s' ->
  St.isParachuteEjected s' = ph_isParachuteEjected (updateParachute e s)
  /\ St.isParachuteActive s' = ph_isParachuteActive (updateParachute e s)
  /\ St.parachuteDeploymentProgress s'
     = ph_parachuteDeploymentProgress (updateParachute e s).
Proof.
  unfold step.
  destruct (forces e s (updateParachute e s) (locals e s)); intros H;
    [discriminate | injection H as <-].
  repeat split.
Qed.

Lemma updateParachute_flags (e : Env.t) (s : St.t) :
  ph_isParachuteEjected (updateParachute e s)
  = St.isParachuteEjected s || (Env.parachuteEjectionTime e <=? St.time s)
  /\ ph_isParachuteActive (updateParachute e s)
     = St.isParachuteActive s || (Env.parachuteActiveTime e <=? St.time s).
Proof.
  unfold updateParachute.
  destruct (St.isParachuteEjected s), (St.isParachuteActive s),
    (Env.parachuteEjectionTime e <=? St.time s),
    (Env.parachuteActiveTime e <=? St.time s); split; reflexivity.
Qed.

(** Along a run, the flags are set from the first iteration whose clock has
    reached the ejection time, and the activation time, on. *)
Lemma flags_along_the_run (e : Env.t) (n : nat) :
  forall (j : nat) (s sn : St.t),
    St.time s = clockAfter j ->
    iterations n e s = Some sn ->
    St.time sn = clockAfter (j + n)
    /\ St.isParachuteEjected sn
       = St.isParachuteEjected s
         || existsb (fun i => Env.parachuteEjectionTime e <=? clockAfter i) (seq j n)
    /\ St.isParachuteActive sn
       = St.isParachuteActive s
         || existsb (fun i => Env.parachuteActiveTime e <=? clockAfter i) (seq j n).
Proof.
  induction n as [|n IH]; intros j s sn Htime Hrun.
  - injection Hrun as <-. rewrite Nat.add_0_r, !Bool.orb_false_r. auto.
  - rewrite iterations_S in Hrun.
    destruct (loopCondition s); [|discriminate].
    destruct (step e s) as [s'|s'] eqn:Hstep; [discriminate|].
    destruct (step_Next e s s' Hstep) as (Ht & _).
    destruct (step_Next_parachute e s s' Hstep) as (Hej & Hact & _).
    destruct (updateParachute_flags e s) as [Hfe Hfa].
    destruct (IH (S j) s' sn) as (Htn & Hen & Han);
      [rewrite Ht, Htime; reflexivity | exact Hrun |].
    split; [rewrite Htn; f_equal; lia|].
    cbn [seq existsb]. rewrite <- Htime.
    split.
    + rewrite Hen, Hej, Hfe, Bool.orb_assoc. reflexivity.
    + rewrite Han, Hact, Hfa, Bool.orb_assoc. reflexivity.
Qed.

(** Once the parachute is active the force computation cannot stop the run. *)
Lemma forces_under_the_parachute (e : Env.t) (s : St.t) :
  ph_isParachuteActive (updateParachute e s) = true ->
  exists fo,
    forces e s (updateParachute e s) (locals e s) = ForceOk fo
    /\ fo_keyPoints fo = ph_keyPoints (updateParachute e s).
Proof.
  intros Ha. unfold forces. rewrite Ha.
  destruct (accelerations _ _ _). eexists. split; reflexivity.
Qed.

(** The velocity with which an iteration leaves: the velocity after the
    parachute update, advanced by the acceleration over one time step and
    limited to 100 m/s; the sample records it. *)
Lemma step_Next_velocity (e : Env.t) (s s' : St.t) :
  step e s = Next s' ->
  exists sample,
    St.data s' = St.data s ++ [sample]
    /\ Sample.isParachuteEjected sample = ph_isParachuteEjected (updateParachute e s)
    /\ Sample.isParachuteActive sample = ph_isParachuteActive (updateParachute e s)
    /\ Sample.parachuteDeploymentProgress sample
       = ph_parachuteDeploymentProgress (updateParachute e s)
    /\ (let vx := ph_vx (updateParachute e s) + Sample.ax sample * dt in
        let vy := ph_vy (updateParachute e s) + Sample.ay sample * dt in
        let currentSpeed := Math.sqrt (vx * vx + vy * vy) in
        Sample.vx sample = (if 100 <? currentSpeed then vx * (100 / currentSpeed) else vx)
        /\ Sample.vy sample
           = (if 100 <? currentSpeed then vy * (100 / currentSpeed) else vy))
    /\ St.vx s' = Sample.vx sample
    /\ St.vy s' = Sample.vy sample
    /\ (forall fo,
          forces e s (updateParachute e s) (locals e s) = ForceOk fo ->
          KeyPoints.parachuteActive (St.keyPoints s')
          = KeyPoints.parachuteActive (fo_keyPoints fo)).
Proof.
  unfold step.
  destruct (forces e s (updateParachute e s) (locals e s)) as [a c f k|fo]; intros H;
    [discriminate | injection H as <-].
  eexists. split; [reflexivity|].
  cbn [Sample.isParachuteEjected Sample.isParachuteActive
         Sample.parachuteDeploymentProgress Sample.vx Sample.vy Sample.ax Sample.ay
         St.vx St.vy St.keyPoints].
  do 3 (split; [reflexivity|]).
  split; [cbv zeta; split; reflexivity|].
  split; [reflexivity|]. split; [reflexivity|].
  intros fo' Hfo. injection Hfo as <-.
  destruct (_ <? _); destruct (_ <? _); reflexivity.
Qed.

(** The progress an iteration records, by the flags it records. *)
Lemma updateParachute_ramp (e : Env.t) (s : St.t) :
  ProgressAtRest s ->
  ph_parachuteDeploymentProgress (updateParachute e s)
  = (if ph_isParachuteActive (updateParachute e s) then 1
     else if ph_isParachuteEjected (updateParachute e s)
          then Math.min 1 ((St.time s - Env.parachuteEjectionTime e) / 1.0)
          else 0)
  /\ (ph_isParachuteActive (updateParachute e s) = true ->
      ph_parachuteDeploymentProgress (updateParachute e s) = 1)
  /\ (ph_isParachuteEjected (updateParachute e s) = false ->
      ph_isParachuteActive (updateParachute e s) = false ->
      ph_parachuteDeploymentProgress (updateParachute e s) = 0).
Proof.
  intros [Hactive Hrest]. unfold updateParachute.
  destruct (St.isParachuteActive s) eqn:Ha;
    destruct (Env.parachuteActiveTime e <=? St.time s);
    destruct (St.isParachuteEjected s) eqn:Hj;
    destruct (Env.parachuteEjectionTime e <=? St.time s);
    cbn [negb andb ph_isParachuteActive ph_parachuteDeploymentProgress
           ph_isParachuteEjected];
    rewrite ?(Hactive eq_refl), ?(Hrest eq_refl eq_refl);
    repeat split; intros; try reflexivity; discriminate.
Qed.

(** Along a run, the sample that iteration [n] records carries the clock, the
    two flags as the clock sets them, and the deployment progress that goes
    with them: 0 before the ejection, then the ramp
    min(1, (time - ejection time) / 1.0), then 1. *)
Lemma ramp_along_the_run (e : Env.t) (n : nat) :
  forall (j : nat) (s sn : St.t),
    St.time s = clockAfter j ->
    ProgressAtRest s ->
    iterations (S n) e s = Some sn ->
    ProgressAtRest sn
    /\ exists init sample,
         St.data sn = init ++ [sample]
         /\ Sample.time sample = clockAfter (j + n)
         /\ Sample.isParachuteEjected sample = St.isParachuteEjected sn
         /\ Sample.isParachuteActive sample = St.isParachuteActive sn
         /\ Sample.parachuteDeploymentProgress sample
            = (if Sample.isParachuteActive sample then 1
               else if Sample.isParachuteEjected sample
                    then Math.min 1
                           ((clockAfter (j + n) - Env.parachuteEjectionTime e) / 1.0)
                    else 0).
Proof.
  induction n as [|n IH]; intros j s sn Htime Hrest Hrun.
  - rewrite iterations_S in Hrun.
    destruct (loopCondition s); [|discriminate].
    destruct (step e s) as [s'|s'] eqn:Hstep; [discriminate|].
    injection Hrun as <-.
    destruct (step_Next e s s' Hstep) as (_ & _ & sample0 & Hd0 & Ht0 & _).
    destruct (step_Next_parachute e s s' Hstep) as (Hej & Hact & Hprog).
    destruct (step_Next_velocity e s s' Hstep)
      as (sample & Hd & Hsj & Hsa & Hsp & _).
    destruct (updateParachute_ramp e s Hrest) as (Hramp & H1 & H0).
    assert (sample0 = sample)
      by (rewrite Hd0 in Hd; apply app_inj_tail in Hd; apply Hd).
    subst sample0.
    split.
    + split; rewrite ?Hej, ?Hact, Hprog; assumption.
    + exists (St.data s), sample. rewrite Nat.add_0_r, <- Htime.
      split; [exact Hd|]. split; [exact Ht0|].
      split; [congruence|]. split; [congruence|].
      rewrite Hsp, Hsa, Hsj. exact Hramp.
  - rewrite iterations_S in Hrun.
    destruct (loopCondition s); [|discriminate].
    destruct (step e s) as [s'|s'] eqn:Hstep; [discriminate|].
    destruct (step_Next e s s' Hstep) as (Ht & _).
    destruct (step_Next_parachute e s s' Hstep) as (Hej & Hact & Hprog).
    destruct (updateParachute_ramp e s Hrest) as (_ & H1 & H0).
    destruct (IH (S j) s' sn) as (Hrest' & init & sample & H);
      [rewrite Ht, Htime; reflexivity
      | split; rewrite ?Hej, ?Hact, Hprog; assumption
      | exact Hrun |].
    split; [exact Hrest'|]. exists init, sample.
    replace (j + S n)%nat with (S j + n)%nat by lia. exact H.
Qed.

(** C6: the ejection delay is the number after the dash of the motor's
    designation ("A8-3" gives 3 s) and ejection is due at thrustEndTime +
    delay; the flag is set in the first iteration whose time has reached it;
    from then on the deployment progress is min(1, (time - ejection time) /
    1.0), a ramp of slope 1 per second; and in the iteration whose time has
    reached the ejection time + 1.0 the parachute becomes active, the progress
    is 1 and both velocity components are multiplied by 0.1.  That iteration
    cannot stop the run: it integrates the acceleration from the reduced
    velocity, records the result in its sample, and notes the reduced
    vertical speed in the key point [parachuteActive]; in every other
    iteration the velocity goes into the integration as it is.  Along a run,
    the sample of iteration [n] carries the flags as the clock sets them and
    the progress that goes with them: 0, then the ramp, then 1. *)
Theorem parachute_ejection_and_deployment (e : Env.t) (s : St.t) :
  (parachuteDelayOf (js "A8-3") = 3
   /\ parachuteDelayOf (Motor_name Motor_half_A6_2) = 2
   /\ parachuteDelayOf (Motor_name Motor_A8_3) = 3
   /\ parachuteDelayOf (Motor_name Motor_B6_4) = 4)
  /\ (forall rocketParams angle windSpeed windProfile config env,
        environment rocketParams angle windSpeed windProfile config = Returned env ->
        Env.parachuteEjectionTime env
        = Env.thrustEndTime env
          + parachuteDelayOf (Motor_name (selectedMotor rocketParams))
        /\ Env.parachuteActiveTime env = Env.parachuteEjectionTime env + 1.0)
  /\ (St.isParachuteEjected s = false ->
      ph_isParachuteEjected (updateParachute e s)
      = (Env.parachuteEjectionTime e <=? St.time s))
  /\ (forall n sn,
        iterations n e (initialState (Env.angle e)) = Some sn ->
        St.isParachuteEjected sn
        = existsb (fun i => Env.parachuteEjectionTime e <=? clockAfter i) (seq 0 n)
        /\ St.isParachuteActive sn
           = existsb (fun i => Env.parachuteActiveTime e <=? clockAfter i) (seq 0 n))
  /\ (ph_isParachuteEjected (updateParachute e s) = true ->
      St.isParachuteActive s = false ->
      (Env.parachuteActiveTime e <=? St.time s) = false ->
      ph_parachuteDeploymentProgress (updateParachute e s)
      = Math.min 1 ((St.time s - Env.parachuteEjectionTime e) / 1.0)
      /\ ph_isParachuteActive (updateParachute e s) = false
      /\ ph_vx (updateParachute e s) = St.vx s
      /\ ph_vy (updateParachute e s) = St.vy s)
  /\ (St.isParachuteActive s = false ->
      (Env.parachuteActiveTime e <=? St.time s) = true ->
      ph_isParachuteActive (updateParachute e s) = true
      /\ ph_parachuteDeploymentProgress (updateParachute e s) = 1
      /\ ph_vx (updateParachute e s) = St.vx s * 0.1
      /\ ph_vy (updateParachute e s) = St.vy s * 0.1)
  /\ (St.isParachuteActive s = true ->
      ph_vx (updateParachute e s) = St.vx s /\ ph_vy (updateParachute e s) = St.vy s)
  /\ (forall s',
        step e s = Next s' ->
        St.isParachuteEjected s' = ph_isParachuteEjected (updateParachute e s)
        /\ St.isParachuteActive s' = ph_isParachuteActive (updateParachute e s)
        /\ St.parachuteDeploymentProgress s'
           = ph_parachuteDeploymentProgress (updateParachute e s))
  /\ (St.isParachuteActive s = false ->
      (Env.parachuteActiveTime e <=? St.time s) = true ->
      exists s' sample,
        step e s = Next s'
        /\ St.data s' = St.data s ++ [sample]
        /\ Sample.isParachuteActive sample = true
        /\ Sample.parachuteDeploymentProgress sample = 1
        /\ (let vx := St.vx s * 0.1 + Sample.ax sample * dt in
            let vy := St.vy s * 0.1 + Sample.ay sample * dt in
            let currentSpeed := Math.sqrt (vx * vx + vy * vy) in
            Sample.vx sample
            = (if 100 <? currentSpeed then vx * (100 / currentSpeed) else vx)
            /\ Sample.vy sample
               = (if 100 <? currentSpeed then vy * (100 / currentSpeed) else vy))
        /\ St.vx s' = Sample.vx sample
        /\ St.vy s' = Sample.vy sample
        /\ KeyPoints.parachuteActive (St.keyPoints s')
           = {| KeyPoint.time := St.time s; KeyPoint.height := St.y s;
                KeyPoint.speed := St.vy s * 0.1 |})
  /\ (St.isParachuteActive s = true
      \/ (Env.parachuteActiveTime e <=? St.time s) = false ->
      forall s',
        step e s = Next s' ->
        exists sample,
          St.data s' = St.data s ++ [sample]
          /\ Sample.isParachuteActive sample = St.isParachuteActive s
          /\ (let vx := St.vx s + Sample.ax sample * dt in
              let vy := St.vy s + Sample.ay sample * dt in
              let currentSpeed := Math.sqrt (vx * vx + vy * vy) in
              Sample.vx sample
              = (if 100 <? currentSpeed then vx * (100 / currentSpeed) else vx)
              /\ Sample.vy sample
                 = (if 100 <? currentSpeed then vy * (100 / currentSpeed) else vy))
          /\ St.vx s' = Sample.vx sample
          /\ St.vy s' = Sample.vy sample)
  /\ (forall n sn,
        iterations (S n) e (initialState (Env.angle e)) = Some sn ->
        exists init sample,
          St.data sn = init ++ [sample]
          /\ List.length init = n
          /\ Sample.time sample = clockAfter n
          /\ Sample.isParachuteEjected sample
             = existsb (fun i => Env.parachuteEjectionTime e <=? clockAfter i)
                 (seq 0 (S n))
          /\ Sample.isParachuteActive sample
             = existsb (fun i => Env.parachuteActiveTime e <=? clockAfter i)
                 (seq 0 (S n))
          /\ Sample.parachuteDeploymentProgress sample
             = (if Sample.isParachuteActive sample then 1
                else if Sample.isParachuteEjected sample
                     then Math.min 1
                            ((clockAfter n - Env.parachuteEjectionTime e) / 1.0)
                     else 0)).
Proof.
  split; [repeat split; vm_compute; reflexivity|].
  split.
  { intros rp angle ws wp cfg env Henv. unfold environment in Henv.
    destruct (MOTOR_THRUST_DATA (Motor_name (selectedMotor rp))); [|discriminate].
    destruct (FIN_MATERIALS (js "light_veneer")); [|discriminate].
    destruct (calculateAerodynamicCenter rp); try discriminate.
    unfold bind in Henv. injection Henv as <-. split; reflexivity. }
  split.
  { intros Hej. destruct (updateParachute_flags e s) as [H _].
    rewrite H, Hej. reflexivity. }
  split.
  { intros n sn Hrun.
    destruct (flags_along_the_run e n 0 (initialState (Env.angle e)) sn)
      as (_ & Hej & Hact); [reflexivity | exact Hrun |].
    split; assumption. }
  split.
  { intros Hej Hact Hlate. unfold updateParachute in *.
    rewrite Hact, Hlate in *. cbn [negb andb] in *.
    cbn [ph_isParachuteEjected ph_parachuteDeploymentProgress ph_isParachuteActive
           ph_vx ph_vy] in *.
    rewrite Hej. rewrite Bool.andb_true_r. auto. }
  assert (Hcut : St.isParachuteActive s = false ->
                 (Env.parachuteActiveTime e <=? St.time s) = true ->
                 ph_isParachuteActive (updateParachute e s) = true
                 /\ ph_parachuteDeploymentProgress (updateParachute e s) = 1
                 /\ ph_vx (updateParachute e s) = St.vx s * 0.1
                 /\ ph_vy (updateParachute e s) = St.vy s * 0.1
                 /\ KeyPoints.parachuteActive (ph_keyPoints (updateParachute e s))
                    = {| KeyPoint.time := St.time s; KeyPoint.height := St.y s;
                         KeyPoint.speed := St.vy s * 0.1 |}).
  { intros Hact Hdue. unfold updateParachute. rewrite Hact, Hdue.
    cbn [negb andb]. repeat split. }
  assert (Hkeep : St.isParachuteActive s = true
                  \/ (Env.parachuteActiveTime e <=? St.time s) = false ->
                  ph_isParachuteActive (updateParachute e s) = St.isParachuteActive s
                  /\ ph_vx (updateParachute e s) = St.vx s
                  /\ ph_vy (updateParachute e s) = St.vy s).
  { intros H. unfold updateParachute.
    destruct H as [H|H]; rewrite H; cbn [negb andb];
      rewrite ?Bool.andb_false_r; auto. }
  split.
  { intros Hact Hdue. destruct (Hcut Hact Hdue) as (H1 & H2 & H3 & H4 & _). auto. }
  split.
  { intros Hact. apply Hkeep. left. exact Hact. }
  split.
  { intros s' Hstep. apply step_Next_parachute. exact Hstep. }
  split.
  { intros Hact Hdue. destruct (Hcut Hact Hdue) as (Ha & Hp & Hvx & Hvy & Hk).
    destruct (forces_under_the_parachute e s Ha) as (fo & Hfo & Hkeys).
    assert (Hstep : exists s', step e s = Next s').
    { unfold step. rewrite Hfo. eauto. }
    destruct Hstep as [s' Hstep].
    destruct (step_Next_velocity e s s' Hstep)
      as (sample & Hd & _ & Hsa & Hsp & Hv & Hx & Hy & Hkp).
    exists s', sample. rewrite Hvx, Hvy in Hv.
    split; [exact Hstep|]. split; [exact Hd|].
    split; [rewrite Hsa; exact Ha|]. split; [rewrite Hsp; exact Hp|].
    split; [exact Hv|]. split; [exact Hx|]. split; [exact Hy|].
    rewrite (Hkp fo Hfo), Hkeys. exact Hk. }
  split.
  { intros Hno s' Hstep. destruct (Hkeep Hno) as (Ha & Hvx & Hvy).
    destruct (step_Next_velocity e s s' Hstep)
      as (sample & Hd & _ & Hsa & _ & Hv & Hx & Hy & _).
    exists sample. rewrite Hvx, Hvy in Hv.
    split; [exact Hd|]. split; [rewrite Hsa; exact Ha|].
    split; [exact Hv|]. split; [exact Hx | exact Hy]. }
  intros n sn Hrun.
  destruct (ramp_along_the_run e n 0 (initialState (Env.angle e)) sn)
    as (_ & init & sample & Hd & Ht & Hsj & Hsa & Hsp);
    [reflexivity | split; [discriminate | reflexivity] | exact Hrun |].
  destruct (flags_along_the_run e (S n) 0 (initialState (Env.angle e)) sn)
    as (_ & Hej & Hact); [reflexivity | exact Hrun |].
  pose proof (iterations_data_length e (S n) _ _ Hrun) as Hlen.
  rewrite Hd, length_app in Hlen. cbn in Hlen.
  exists init, sample. cbn [Nat.add] in *.
  split; [exact Hd|]. split; [lia|]. split; [exact Ht|].
  split; [rewrite Hsj; exact Hej|]. split; [rewrite Hsa; exact Hact|]. exact Hsp.
Qed.

End Parachute.

(** The default design with an A8-3 motor, launched at 30 degrees into a
    5 m/s urban wind: thrust ends at 0.7 s and ejection is due at 3.7 s.  The
    sample of iteration 210 (4.2 s) is halfway up the ramp.  The parachute
    becomes active in iteration 236 (4.72 s): the rocket enters it at
    (2.50, -5.20) m/s and leaves it, after the cut and the integration of the
    acceleration, at (-0.92, -0.31) m/s; the key point notes the vertical
    speed of -0.52 m/s. *)
Lemma parachute_ejection_and_deployment_witness :
  exists e s236 s237 sample (init : list Sample.t) halfway,
    @environment Reference.math Reference.conversions
      Examples.defaultRocketFlown 30 5 urban None = Returned e
    /\ Env.thrustEndTime e = 0.7000000000000001
    /\ Env.parachuteEjectionTime e = 0.7000000000000001 + 3
    /\ @iterations Reference.math Reference.conversions 236 e (initialState 30) = Some s236
    /\ St.isParachuteEjected s236 = true
    /\ St.isParachuteActive s236 = false
    /\ @step Reference.math Reference.conversions e s236 = Next s237
    /\ St.data s237 = St.data s236 ++ [sample]
    /\ Sample.isParachuteActive sample = true
    /\ Sample.parachuteDeploymentProgress sample = 1
    /\ (let vx := St.vx s236 * 0.1 + Sample.ax sample * dt in
        let vy := St.vy s236 * 0.1 + Sample.ay sample * dt in
        let currentSpeed := Math.sqrt (vx * vx + vy * vy) in
        Sample.vx sample = (if 100 <? currentSpeed then vx * (100 / currentSpeed) else vx)
        /\ Sample.vy sample
           = (if 100 <? currentSpeed then vy * (100 / currentSpeed) else vy))
    /\ St.vx s237 = Sample.vx sample
    /\ St.vy s237 = Sample.vy sample
    /\ KeyPoints.parachuteActive (St.keyPoints s237)
       = {| KeyPoint.time := St.time s236; KeyPoint.height := St.y s236;
            KeyPoint.speed := St.vy s236 * 0.1 |}
    /\ ((2.50 <? St.vx s236) && (St.vx s236 <? 2.51)
        && (-5.21 <? St.vy s236) && (St.vy s236 <? -5.20)
        && (-0.92 <? St.vx s237) && (St.vx s237 <? -0.91)
        && (-0.32 <? St.vy s237) && (St.vy s237 <? -0.31)
        && (-0.53 <? St.vy s236 * 0.1) && (St.vy s236 * 0.1 <? -0.52)) = true
    /\ List.length init = 210%nat
    /\ Sample.time halfway = clockAfter 210
    /\ Sample.isParachuteEjected halfway = true
    /\ Sample.isParachuteActive halfway = false
    /\ Sample.parachuteDeploymentProgress halfway
       = Math.min 1 ((clockAfter 210 - Env.parachuteEjectionTime e) / 1.0)
    /\ ((0.49 <? Sample.parachuteDeploymentProgress halfway)
        && (Sample.parachuteDeploymentProgress halfway <? 0.51)) = true.
Proof.
  eassert (He : @environment Reference.math Reference.conversions
                  Examples.defaultRocketFlown 30 5 urban None = Returned _)
    by (vm_compute; reflexivity).
  match type of He with _ = Returned ?v => set (e := v) in He end.
  eassert (H236 : @iterations Reference.math Reference.conversions 236 e (initialState 30)
                  = Some _) by (vm_compute; reflexivity).
  match type of H236 with _ = Some ?v => set (s236 := v) in H236 end.
  eassert (H211 : @iterations Reference.math Reference.conversions 211 e (initialState 30)
                  = Some _) by (vm_compute; reflexivity).
  match type of H211 with _ = Some ?v => set (s211 := v) in H211 end.
  destruct (@parachute_ejection_and_deployment Reference.math Reference.conversions e s236)
    as (_ & Henv & _ & _ & _ & _ & _ & _ & Hcut & _ & Hramp).
  destruct (Henv _ _ _ _ _ _ He) as [Het _].
  destruct Hcut as (s237 & sample & Hstep & Hd & Hsa & Hsp & Hv & Hx & Hy & Hk);
    [vm_compute; reflexivity | vm_compute; reflexivity |].
  destruct (Hramp 210%nat s211 H211) as (init & halfway & _ & Hlen & Ht & Hj & Ha & Hp).
  assert (Hj' : Sample.isParachuteEjected halfway = true)
    by (rewrite Hj; vm_compute; reflexivity).
  assert (Ha' : Sample.isParachuteActive halfway = false)
    by (rewrite Ha; vm_compute; reflexivity).
  rewrite Ha', Hj' in Hp.
  assert (Hnumbers :
            ((2.50 <? St.vx s236) && (St.vx s236 <? 2.51)
             && (-5.21 <? St.vy s236) && (St.vy s236 <? -5.20)
             && (-0.92 <? St.vx s237) && (St.vx s237 <? -0.91)
             && (-0.32 <? St.vy s237) && (St.vy s237 <? -0.31)
             && (-0.53 <? St.vy s236 * 0.1) && (St.vy s236 * 0.1 <? -0.52)) = true).
  { assert (Hs : @step Reference.math Reference.conversions e s236 = Next s237)
      by exact Hstep.
    eassert (Hc : @step Reference.math Reference.conversions e s236 = Next _)
      by (vm_compute; reflexivity).
    rewrite Hc in Hs. injection Hs as <-. vm_compute. reflexivity. }
  exists e, s236, s237, sample, init, halfway.
  split; [exact He|].
  split; [vm_compute; reflexivity|].
  split; [rewrite Het; vm_compute; reflexivity|].
  split; [exact H236|].
  split; [vm_compute; reflexivity|]. split; [vm_compute; reflexivity|].
  split; [exact Hstep|]. split; [exact Hd|]. split; [exact Hsa|]. split; [exact Hsp|].
  split; [exact Hv|]. split; [exact Hx|]. split; [exact Hy|]. split; [exact Hk|].
  split; [exact Hnumbers|].
  split; [exact Hlen|]. split; [exact Ht|]. split; [exact Hj'|]. split; [exact Ha'|].
  split; [exact Hp|].
  rewrite Hp. vm_compute. reflexivity.
Defined.

(** ** Validation of the design fields *)

Section NaNPropagation.

(** A NaN operand makes the result of an arithmetic operation NaN. *)

Lemma Prim2SF_nan (x : float) : is_nan x = true -> Prim2SF x = S754_nan.
Proof.
  rewrite is_nan_Prim2SF. destruct (Prim2SF x); try discriminate. reflexivity.
Qed.

Lemma mul_nan_r (x y : float) : is_nan y = true -> is_nan (x * y) = true.
Proof.
  intros Hy. rewrite is_nan_Prim2SF, FloatAxioms.mul_spec, (Prim2SF_nan y Hy).
  destruct (Prim2SF x); reflexivity.
Qed.

Lemma mul_nan_l (x y : float) : is_nan x = true -> is_nan (x * y) = true.
Proof.
  intros Hx. rewrite is_nan_Prim2SF, FloatAxioms.mul_spec, (Prim2SF_nan x Hx).
  reflexivity.
Qed.

Lemma div_nan_l (x y : float) : is_nan x = true -> is_nan (x / y) = true.
Proof.
  intros Hx. rewrite is_nan_Prim2SF, FloatAxioms.div_spec, (Prim2SF_nan x Hx).
  reflexivity.
Qed.

Lemma add_nan_l (x y : float) : is_nan x = true -> is_nan (x + y) = true.
Proof.
  intros Hx. rewrite is_nan_Prim2SF, FloatAxioms.add_spec, (Prim2SF_nan x Hx).
  reflexivity.
Qed.




End NaNPropagation.

Section Validation.

Context {M : Math.Impl} {C : Conversions}.

(** The two early returns of [calculateProjectedArea]. *)
Lemma calculateProjectedArea_zero (rocketParams : value) :
  falsy rocketParams || negb (typeof_is_object rocketParams) = true
  \/ existsb (fun k => negb (typeof_is_number (get rocketParams k)))
       numericGeometryFields = true ->
  calculateProjectedArea rocketParams = Areas.zero.
Proof.
  intros [H|H]; unfold calculateProjectedArea.
  - rewrite H. reflexivity.
  - destruct (falsy rocketParams || negb (typeof_is_object rocketParams));
      [reflexivity|].
    match goal with
    | |- (if ?c then _ else _) = _ =>
        assert (Hc : c = true); [| rewrite Hc; reflexivity]
    end.
    cbn [existsb numericGeometryFields] in H.
    destruct (typeof_is_number (get rocketParams "noseHeight")),
      (typeof_is_number (get rocketParams "bodyHeight")),
      (typeof_is_number (get rocketParams "bodyWidth")),
      (typeof_is_number (get rocketParams "finHeight")),
      (typeof_is_number (get rocketParams "finBaseWidth")),
      (typeof_is_number (get rocketParams "finTipWidth")),
      (typeof_is_number (get rocketParams "finThickness")),
      (typeof_is_number (get rocketParams "finSweepLength"));
      try reflexivity; discriminate H.
Qed.

End Validation.

(** ** The limits on the critical speeds *)

Section Limits.

Context {M : Math.Impl} {C : Conversions}.

(** Whenever the raw critical speed is a number, the speed returned lies in
    the stated range: [[20, 300]] m/s for divergence, [[30, 400]] m/s for
    flutter. *)
Theorem critical_speeds_are_limited (rocketParams : value) (material : FinMaterial) :
  is_nullish rocketParams = false ->
  FIN_MATERIALS_at (get rocketParams "finMaterial") = Some material ->
  (is_nan (divSpeed rocketParams material) = false ->
   exists v, calculateFinDivergenceSpeed rocketParams = Returned v
             /\ (20 <=? v) = true /\ (v <=? 300) = true)
  /\ (is_nan (flutterSpeed rocketParams material) = false ->
      exists v, calculateFinFlutterSpeed rocketParams = Returned v
                /\ (30 <=? v) = true /\ (v <=? 400) = true)
  /\ (is_nan (flutterSpeed rocketParams material) = true ->
      exists v, calculateFinFlutterSpeed rocketParams = Returned v
                /\ is_nan v = true).
Proof.
  intros Hn Hm. unfold calculateFinDivergenceSpeed, calculateFinFlutterSpeed.
  rewrite Hn, Hm. split; [|split].
  - intros Hx. eexists. split; [reflexivity|].
    apply clamp_in_range; [vm_compute; reflexivity | exact Hx].
  - intros Hx. eexists. split; [reflexivity|].
    apply clamp_in_range; [vm_compute; reflexivity | exact Hx].
  - intros Hx. eexists. split; [reflexivity|].
    rewrite Math_max_nan, Math_min_nan, Hx. reflexivity.
Qed.

End Limits.

(** The default design: both critical speeds are numbers within their ranges. *)
Lemma critical_speeds_are_limited_witness :
  exists d f,
    @calculateFinDivergenceSpeed Reference.math Reference.conversions
      (to_value Examples.defaultRocket) = Returned d
    /\ (20 <=? d) = true /\ (d <=? 300) = true
    /\ @calculateFinFlutterSpeed Reference.math Reference.conversions
         (to_value Examples.defaultRocket) = Returned f
    /\ (30 <=? f) = true /\ (f <=? 400) = true.
Proof.
  eassert (Hm : FIN_MATERIALS_at (get (to_value Examples.defaultRocket) "finMaterial")
                = Some _) by (vm_compute; reflexivity).
  destruct (@critical_speeds_are_limited Reference.math Reference.conversions
              (to_value Examples.defaultRocket) _ eq_refl Hm) as (Hd & Hf & _).
  destruct Hd as (d & Hd1 & Hd2 & Hd3); [vm_compute; reflexivity|].
  destruct Hf as (f & Hf1 & Hf2 & Hf3); [vm_compute; reflexivity|].
  exists d, f. repeat split; assumption.
Defined.

(** C8 at a design with pointed fins (tip chord 0 mm, the lower end of the
    form's range), on every host whose [Math.pow] has the two special cases
    that ECMAScript fixes, pow(+0, 3) = +0 and pow(NaN, 0.5) = NaN: the torsion
    constant and the half chord are both 0, the raw flutter speed is the
    square root of 0/0, and [Math.max] and [Math.min] hand the NaN through:
    the result is not in [[30, 400]]. *)
Theorem flutter_speed_of_a_pointed_fin_is_NaN {M : Math.Impl} {C : Conversions} :
  Math.pow 0 3 = 0 ->
  is_nan (Math.pow nan 0.5) = true ->
  exists v,
    calculateFinFlutterSpeed (to_value Examples.pointedFinRocket) = Returned v
    /\ is_nan v = true
    /\ (30 <=? v) = false
    /\ (v <=? 400) = false.
Proof.
  intros Hzero Hnan.
  assert (Hraw : exists m,
             FIN_MATERIALS_at (get (to_value Examples.pointedFinRocket) "finMaterial")
             = Some m
             /\ is_nan (flutterSpeed (to_value Examples.pointedFinRocket) m) = true).
  { eexists. split; [vm_compute; reflexivity|].
    unfold flutterSpeed.
    change (mmToM (ToNumber (get (to_value Examples.pointedFinRocket) "finTipWidth")))
      with 0.
    rewrite Hzero.
    match goal with
    | |- is_nan (Math.pow ?x 0.5) = true => replace x with nan by (vm_compute; reflexivity)
    end.
    exact Hnan. }
  destruct Hraw as (m & Hm & Hraw).
  unfold calculateFinFlutterSpeed.
  change (is_nullish (to_value Examples.pointedFinRocket)) with false.
  cbv beta iota. rewrite Hm. eexists. split; [reflexivity|].
  assert (Hv : is_nan (Math.max 30 (Math.min 400
                 (flutterSpeed (to_value Examples.pointedFinRocket) m))) = true).
  { rewrite Math_max_nan, Math_min_nan, Hraw. reflexivity. }
  split; [exact Hv|].
  split; [apply leb_nan_r | apply leb_nan_l]; exact Hv.
Qed.

Lemma flutter_speed_of_a_pointed_fin_is_NaN_witness :
  exists v,
    @calculateFinFlutterSpeed Reference.math Reference.conversions
      (to_value Examples.pointedFinRocket) = Returned v
    /\ is_nan v = true
    /\ (30 <=? v) = false
    /\ (v <=? 400) = false.
Proof.
  apply (@flutter_speed_of_a_pointed_fin_is_NaN Reference.math Reference.conversions);
    vm_compute; reflexivity.
Defined.

(** ** The guards of the four moment functions *)

Section Guards.

Context {M : Math.Impl} {C : Conversions}.

(** The lift, drag and wind moments are finite numbers on every input. *)
Theorem guarded_moments_are_finite
    (velocity omega flightAngle area aerodynamicCenter centerOfGravity : float)
    (noseHeight bodyDiameter bodyHeight totalFinArea : float)
    (windSpeed omega' centerOfPressure centerOfGravity' : value) :
  is_finite (calculateLiftMoment velocity omega flightAngle area aerodynamicCenter
               centerOfGravity) = true
  /\ is_finite (calculateDragMoment velocity omega flightAngle area aerodynamicCenter
                  centerOfGravity) = true
  /\ is_finite (calculateWindMoment noseHeight bodyDiameter bodyHeight windSpeed omega'
                  totalFinArea centerOfPressure centerOfGravity') = true.
Proof.
  split; [|split].
  - unfold calculateLiftMoment. apply guarded_is_finite.
  - unfold calculateDragMoment. apply guarded_is_finite.
  - unfold calculateWindMoment.
    destruct (is_nullish centerOfPressure || is_nullish centerOfGravity');
      [reflexivity | apply guarded_is_finite].
Qed.

End Guards.

(** ** What a caller receives after a torque abort *)

(** C5 at the large-fin design in an 8 m/s urban wind: the torque guard stops
    the run in its 28th iteration, and the caller receives the ordinary
    result, whose [data] is the 28 samples recorded so far (the last one at
    0.54 s, above the ground), with [isTorqueStableOK] false; the object has no
    [error] property. *)
Theorem torque_abort_returns_the_partial_trajectory :
  exists flight landing total predicted init sample,
    @calculateFlightPathWithLanding Reference.math Reference.conversions 1002 5000
      Examples.largeFinRocketFlown 0 8 urban None
    = Returned (Launch.WithLanding flight landing total predicted)
    /\ FlightResult.data flight = init ++ [sample]
    /\ List.length (FlightResult.data flight) = 28%nat
    /\ (Sample.time sample <? 0.55) = true
    /\ (0 <? Sample.height sample) = true
    /\ AngleStability.isTorqueStableOK (FlightResult.angleStability flight) = false
    /\ FlightResult.error_hasError = false.
Proof.
  eexists ?[r], _, _, _. exists (firstn 27 (FlightResult.data ?r)). eexists.
  split; [vm_compute; reflexivity|].
  repeat split; vm_compute; reflexivity.
Qed.

(** * Further properties of the engine *)

(** ** More facts about binary64 comparisons *)

Section FloatOrder.

Lemma ltb_irrefl (x : float) : (x <? x) = false.
Proof.
  destruct (x <? x) eqn:H; [|reflexivity]. rewrite (ltb_asym x x H) in H. discriminate.
Qed.

Lemma lexicographic_Eq (e1 e2 : Z) (m1 m2 : positive) :
  match (e1 ?= e2)%Z with Lt => Lt | Gt => Gt | Eq => Pos.compare_cont Eq m1 m2 end = Eq ->
  e1 = e2 /\ m1 = m2.
Proof.
  rewrite Pos.compare_cont_spec. simpl.
  destruct (Z.compare_spec e1 e2); try discriminate.
  destruct (Pos.compare_spec m1 m2); try discriminate. auto.
Qed.

Lemma lexicographic_Eq_opp (e1 e2 : Z) (m1 m2 : positive) :
  match (e1 ?= e2)%Z with
  | Lt => Gt | Gt => Lt | Eq => CompOpp (Pos.compare_cont Eq m1 m2) end = Eq ->
  e1 = e2 /\ m1 = m2.
Proof.
  rewrite Pos.compare_cont_spec. simpl.
  destruct (Z.compare_spec e1 e2); try discriminate.
  destruct (Pos.compare_spec m1 m2); try discriminate. auto.
Qed.

(** Numbers that compare equal can replace each other in a comparison. *)
Lemma SFcompare_Eq_l (a b c : spec_float) :
  SFcompare a b = Some Eq -> SFcompare a c = SFcompare b c.
Proof.
  destruct a as [sa|sa| |sa ma ea], b as [sb|sb| |sb mb eb]; simpl; intros H;
    try discriminate;
    try (destruct sa; discriminate); try (destruct sb; discriminate).
  - destruct c; reflexivity.
  - destruct sa, sb; try discriminate; reflexivity.
  - destruct sa, sb; try discriminate; injection H as H.
    + apply lexicographic_Eq_opp in H. destruct H as [-> ->]. reflexivity.
    + apply lexicographic_Eq in H. destruct H as [-> ->]. reflexivity.
Qed.

Lemma SFcompare_Eq_r (a b c : spec_float) :
  SFcompare b c = Some Eq -> SFcompare a b = SFcompare a c.
Proof.
  intros H. rewrite (SFcompare_swap b a), (SFcompare_swap c a).
  f_equal. apply SFcompare_Eq_l. exact H.
Qed.

Lemma ltb_leb_trans (x y z : float) :
  (x <? y) = true -> (y <=? z) = true -> (x <? z) = true.
Proof.
  rewrite !ltb_compare, leb_compare. intros Hxy Hyz.
  destruct (SFcompare (Prim2SF y) (Prim2SF z)) as [[]|] eqn:Hc; try discriminate.
  - rewrite <- (SFcompare_Eq_r _ _ _ Hc). exact Hxy.
  - rewrite (SFcompare_below_trans (Prim2SF x) (Prim2SF y) (Prim2SF z)); auto.
    destruct (SFcompare (Prim2SF x) (Prim2SF y)) as [[]|]; congruence.
Qed.

Lemma leb_ltb_trans (x y z : float) :
  (x <=? y) = true -> (y <? z) = true -> (x <? z) = true.
Proof.
  rewrite !ltb_compare, leb_compare. intros Hxy Hyz.
  destruct (SFcompare (Prim2SF x) (Prim2SF y)) as [[]|] eqn:Hc; try discriminate.
  - rewrite (SFcompare_Eq_l _ _ _ Hc). exact Hyz.
  - rewrite (SFcompare_below_trans (Prim2SF x) (Prim2SF y) (Prim2SF z)); auto.
    destruct (SFcompare (Prim2SF y) (Prim2SF z)) as [[]|]; congruence.
Qed.

Lemma leb_not_ltb (x y : float) : (x <=? y) = true -> (y <? x) = false.
Proof.
  rewrite ltb_compare, leb_compare, (SFcompare_swap (Prim2SF x) (Prim2SF y)).
  destruct (SFcompare (Prim2SF x) (Prim2SF y)) as [[]|]; simpl; congruence.
Qed.

Lemma ltb_not_nan (x y : float) :
  (x <? y) = true -> is_nan x = false /\ is_nan y = false.
Proof.
  rewrite ltb_compare, !is_nan_Prim2SF.
  destruct (Prim2SF x), (Prim2SF y); simpl; intros H; try discriminate; auto.
Qed.

Lemma leb_not_nan (x y : float) :
  (x <=? y) = true -> is_nan x = false /\ is_nan y = false.
Proof.
  rewrite leb_compare, !is_nan_Prim2SF.
  destruct (Prim2SF x), (Prim2SF y); simpl; intros H; try discriminate; auto.
Qed.

(** The magnitude. *)
Lemma abs_is_nan (x : float) : is_nan (abs x) = is_nan x.
Proof.
  rewrite !is_nan_Prim2SF, FloatAxioms.abs_spec. destruct (Prim2SF x); reflexivity.
Qed.

Lemma abs_not_negative (x : float) : (abs x <? 0) = false.
Proof.
  rewrite ltb_compare, FloatAxioms.abs_spec.
  change (Prim2SF 0) with (S754_zero false).
  destruct (Prim2SF x); reflexivity.
Qed.

Lemma SFcompare_abs_l (x c : spec_float) :
  SFcompare (SFabs x) c = Some Lt ->
  SFcompare x c = Some Lt /\ SFcompare (SFopp c) x = Some Lt.
Proof.
  destruct x as [sx|sx| |sx mx ex], c as [sc|sc| |sc mc ec]; simpl; intros H;
    try discriminate;
    try (destruct sc; try discriminate; destruct sx; split; reflexivity).
  destruct sc; try discriminate. injection H as H.
  destruct sx; simpl; split; try reflexivity; f_equal; try exact H.
  - rewrite Z.compare_antisym, Pos.compare_cont_spec, Pos.compare_antisym.
    rewrite Pos.compare_cont_spec in H. simpl in *.
    destruct (ex ?= ec)%Z; simpl; try discriminate; try reflexivity.
    destruct (mx ?= mc)%positive; simpl; try discriminate; reflexivity.
Qed.

Lemma abs_below (x c : float) :
  (abs x <? c) = true -> (x <? c) = true /\ (- c <? x) = true.
Proof.
  rewrite !ltb_compare, FloatAxioms.abs_spec, FloatAxioms.opp_spec. intros H.
  destruct (SFcompare (SFabs (Prim2SF x)) (Prim2SF c)) as [[]|] eqn:Hc; try discriminate.
  destruct (SFcompare_abs_l _ _ Hc) as [H1 H2]. rewrite H1, H2. auto.
Qed.

Lemma SFcompare_abs_r (x c : spec_float) :
  SFcompare c x = Some Lt \/ SFcompare x (SFopp c) = Some Lt ->
  SFcompare c (SFabs x) = Some Lt.
Proof.
  destruct x as [sx|sx| |sx mx ex], c as [sc|sc| |sc mc ec]; simpl; intros [H|H];
    try discriminate; try reflexivity;
    try (destruct sc; try discriminate; try reflexivity;
         destruct sx; try discriminate; reflexivity);
    try (destruct sx; try discriminate; try reflexivity;
         destruct sc; try discriminate; reflexivity).
  - destruct sc, sx; try discriminate; try reflexivity. exact H.
  - destruct sc, sx; simpl in *; try discriminate; try reflexivity.
    injection H as H. f_equal.
    rewrite Z.compare_antisym, Pos.compare_cont_spec, Pos.compare_antisym.
    rewrite Pos.compare_cont_spec in H. simpl in *.
    destruct (ex ?= ec)%Z; simpl in *; try discriminate; try reflexivity.
    destruct (mx ?= mc)%positive; simpl in *; try discriminate; reflexivity.
Qed.

Lemma abs_not_above (x c : float) :
  (c <? abs x) = false -> (c <? x) = false /\ (x <? - c) = false.
Proof.
  rewrite !ltb_compare, FloatAxioms.abs_spec, FloatAxioms.opp_spec. intros H.
  split.
  - destruct (SFcompare (Prim2SF c) (Prim2SF x)) as [[]|] eqn:Hc; try reflexivity.
    rewrite (SFcompare_abs_r _ _ (or_introl Hc)) in H. discriminate.
  - destruct (SFcompare (Prim2SF x) (SFopp (Prim2SF c))) as [[]|] eqn:Hc; try reflexivity.
    rewrite (SFcompare_abs_r _ _ (or_intror Hc)) in H. discriminate.
Qed.

Lemma abs_positive (x : float) :
  (0 <? abs x) = true -> (0 <? x) = true \/ (x <? 0) = true.
Proof.
  rewrite !ltb_compare, FloatAxioms.abs_spec.
  change (Prim2SF 0) with (S754_zero false).
  destruct (Prim2SF x) as [sx|sx| |sx mx ex]; simpl; intros H; try discriminate;
    destruct sx; auto.
Qed.

End FloatOrder.

Section NaNArithmetic.

Lemma add_nan_r (x y : float) : is_nan y = true -> is_nan (x + y) = true.
Proof.
  intros Hy. rewrite is_nan_Prim2SF, FloatAxioms.add_spec, (Prim2SF_nan y Hy).
  destruct (Prim2SF x); reflexivity.
Qed.

Lemma div_nan_r (x y : float) : is_nan y = true -> is_nan (x / y) = true.
Proof.
  intros Hy. rewrite is_nan_Prim2SF, FloatAxioms.div_spec, (Prim2SF_nan y Hy).
  destruct (Prim2SF x); reflexivity.
Qed.

End NaNArithmetic.

(** ** The caps and guards of the moment functions *)

Section Caps.

Context {M : Math.Impl} {C : Conversions}.









End Caps.



(** ** Invariants of a whole run *)

Section Trajectory.

Context {M : Math.Impl} {C : Conversions}.

(** A property that every iteration keeps, whether it ends in a [break] or
    not, holds when the loop is over. *)
Lemma simulate_invariant (P : St.t -> Prop) (e : Env.t) :
  (forall s s', loopCondition s = true -> P s -> step e s = Next s' -> P s') ->
  (forall s s', loopCondition s = true -> P s -> step e s = Break s' -> P s') ->
  forall fuel s sf, P s -> simulate fuel e s = Some sf -> P sf.
Proof.
  intros HNext HBreak. induction fuel as [|fuel IH]; intros s sf HP Hrun;
    [discriminate|].
  rewrite simulate_S in Hrun. destruct (loopCondition s) eqn:Hloop.
  - destruct (step e s) as [s'|s'] eqn:Hstep.
    + injection Hrun as <-. eapply HBreak; eassumption.
    + eapply IH; [|exact Hrun]. eapply HNext; eassumption.
  - injection Hrun as <-. exact HP.
Qed.

(** The three stages of [calculateFlightPath]. *)
Lemma calculateFlightPath_stages
    (fuel : nat) (rocketParams : RocketParams) (angle windSpeed : float)
    (windProfile : WindProfile) (config : option Config) (r : FlightResult.t) :
  calculateFlightPath fuel rocketParams angle windSpeed windProfile config = Returned r ->
  exists e sf,
    environment rocketParams angle windSpeed windProfile config = Returned e
    /\ simulate fuel e (initialState angle) = Some sf
    /\ flightResult e sf = Returned r.
Proof.
  unfold calculateFlightPath. intros H.
  destruct (environment rocketParams angle windSpeed windProfile config) as [e| |] eqn:He;
    try discriminate.
  cbn [bind] in H.
  destruct (simulate fuel e (initialState angle)) as [sf|] eqn:Hs; [|discriminate].
  exists e, sf. auto.
Qed.

Lemma flightResult_fields (e : Env.t) (s : St.t) (r : FlightResult.t) :
  flightResult e s = Returned r ->
  FlightResult.data r = St.data s
  /\ FlightResult.prec_MaxHeight r = St.prec_MaxHeight s
  /\ FlightResult.maxHeight r = St.maxHeight s
  /\ FlightResult.maxDistance r = St.maxDistance s
  /\ FlightResult.maxFinDeflection r = St.maxFinDeflection s
  /\ FlightResult.keyPoints r = St.keyPoints s
  /\ AngleStability.isAngleStableOK (FlightResult.angleStability r) = St.isAngleStableOK s
  /\ AngleStability.isAbsoluteAngleOK (FlightResult.angleStability r)
     = St.isAbsoluteAngleOK s
  /\ AngleStability.isTorqueStableOK (FlightResult.angleStability r)
     = St.isTorqueStableOK s.
Proof.
  unfold flightResult. intros H.
  destruct (calculateVolume (to_value (Env.rocketParams e))); try discriminate.
  cbn [bind] in H. destruct (St.data s) eqn:Hd; [discriminate|].
  injection H as <-. cbn. repeat split.
Qed.

(** Every iteration records one sample, stamped with the loop's clock: the
    samples of a returned trajectory are numbered by the clock 0, dt, dt + dt,
    ... as the loop accumulates it, and there are between 1 and 1001 of them. *)
Theorem samples_follow_the_clock
    (fuel : nat) (rocketParams : RocketParams) (angle windSpeed : float)
    (windProfile : WindProfile) (config : option Config) (r : FlightResult.t) :
  calculateFlightPath fuel rocketParams angle windSpeed windProfile config = Returned r ->
  (1 <= List.length (FlightResult.data r) <= 1001)%nat
  /\ forall i p,
       nth_error (FlightResult.data r) i = Some p -> Sample.time p = clockAfter i.
Proof.
  intros Hr. destruct (calculateFlightPath_stages _ _ _ _ _ _ _ Hr) as (e & sf & _ & Hrun & Hres).
  destruct (flightResult_fields e sf r Hres) as (Hdata & _). rewrite Hdata.
  set (P := fun s : St.t =>
              (List.length (St.data s) <= 1001)%nat
              /\ St.time s = clockAfter (List.length (St.data s))
              /\ forall i p, nth_error (St.data s) i = Some p ->
                             Sample.time p = clockAfter i).
  assert (HP : P sf).
  { apply (simulate_invariant P e) with (fuel := fuel) (s := initialState angle);
      [| | |exact Hrun].
    - intros s s' Hloop (Hlen & Htime & Hstamps) Hstep.
      destruct (step_Next e s s' Hstep) as (Ht & _ & p & Hd & Hp & _).
      assert (Hlt : (List.length (St.data s) < 1001)%nat).
      { destruct (Nat.eq_dec (List.length (St.data s)) 1001) as [Heq|]; [|lia].
        exfalso. unfold loopCondition in Hloop.
        apply Bool.andb_true_iff in Hloop. destruct Hloop as [_ Hcap].
        rewrite Htime, Heq, clock_reaches_the_cap in Hcap. discriminate. }
      unfold P. rewrite Hd, length_app. cbn [List.length].
      split; [lia|]. split.
      + rewrite Ht, Htime. replace (List.length (St.data s) + 1)%nat
          with (S (List.length (St.data s))) by lia. reflexivity.
      + intros i q Hq.
        destruct (Nat.lt_ge_cases i (List.length (St.data s))) as [Hi|Hi].
        * rewrite nth_error_app1 in Hq by exact Hi. apply Hstamps. exact Hq.
        * rewrite nth_error_app2 in Hq by exact Hi.
          destruct (i - List.length (St.data s))%nat as [|k] eqn:Hk.
          -- injection Hq as <-. rewrite Hp, Htime. f_equal. lia.
          -- destruct k; discriminate.
    - intros s s' _ (Hlen & Htime & Hstamps) Hstep.
      destruct (step_Break e s s' Hstep) as (_ & Hd & Ht & _).
      unfold P. rewrite Hd, Ht. auto.
    - unfold P. cbn. split; [lia|]. split; [reflexivity|].
      intros [|i] p H; discriminate. }
  destruct HP as (Hlen & _ & Hstamps).
  split; [|exact Hstamps]. split; [|exact Hlen].
  unfold flightResult in Hres.
  destruct (calculateVolume (to_value (Env.rocketParams e))); try discriminate.
  cbn [bind] in Hres. destruct (St.data sf); [discriminate | cbn; lia].
Qed.

End Trajectory.

Lemma samples_follow_the_clock_witness :
  exists r,
    @calculateFlightPath Reference.math Reference.conversions
      1002 Examples.heavyRocket 0 0 uniform None = Returned r
    /\ ((1 <= List.length (FlightResult.data r) <= 1001)%nat
        /\ forall i p,
             nth_error (FlightResult.data r) i = Some p -> Sample.time p = clockAfter i).
Proof.
  eassert (He : @calculateFlightPath Reference.math Reference.conversions
      1002 Examples.heavyRocket 0 0 uniform None = Returned _)
    by (vm_compute; reflexivity).
  match type of He with _ = Returned ?v => set (r := v) in He end.
  exists r. split; [exact He|].
  apply (@samples_follow_the_clock Reference.math Reference.conversions _ _ _ _ _ _ _ He).
Defined.

(** ** The fin deflection *)

Section FinDeflection.

Context {M : Math.Impl}.

Lemma calculateFinDeflection_bounds
    (velocity : float) (material : FinMaterial) (finParams : FinParams)
    (angleChangePerDt2 : float) :
  let deflection := calculateFinDeflection velocity material finParams angleChangePerDt2 in
  is_nan deflection = false
  /\ (15 <? deflection) = false
  /\ (deflection <? -0.01) = false
  /\ ((deflection <? 0) = true -> (-0.01 <? deflection) = true)
  /\ ((Math.abs velocity <? 0.001) = true -> deflection = 0).
Proof.
  cbv zeta. unfold calculateFinDeflection.
  destruct (Math.abs velocity <? 0.001); [repeat split; discriminate|].
  match goal with
  | |- context [if isNaN ?d then _ else _] => set (deflectionMm := d)
  end.
  unfold isNaN.
  destruct (is_nan deflectionMm) eqn:Hnan;
    [repeat split; try reflexivity; discriminate|].
  destruct (15 <? Math.abs deflectionMm) eqn:Hbig;
    [repeat split; try reflexivity; discriminate|].
  destruct (Math.abs deflectionMm <? 0.01) eqn:Hsmall.
  - destruct (abs_below _ _ Hsmall) as [_ Hlow].
    change (PrimFloat.opp 0.01) with (-0.01) in Hlow.
    destruct (abs_not_above _ _ Hbig) as [Hhigh _].
    split; [exact Hnan|]. split; [exact Hhigh|].
    split; [apply ltb_asym; exact Hlow|]. split; [intros _; exact Hlow | discriminate].
  - assert (Hmax : Math.max 0.01 (Math.abs deflectionMm) = 0.01
                   \/ Math.max 0.01 (Math.abs deflectionMm) = Math.abs deflectionMm).
    { unfold Math.max. rewrite abs_is_nan, Hnan. cbn [is_nan orb].
      change (is_nan 0.01) with false. cbn [orb].
      destruct (0.01 <? Math.abs deflectionMm); [auto|].
      destruct (Math.abs deflectionMm <? 0.01); [auto|].
      destruct (get_sign 0.01); auto. }
    assert (Hneg : (Math.abs deflectionMm <? -0.01) = false).
    { destruct (Math.abs deflectionMm <? -0.01) eqn:H; [|reflexivity].
      rewrite <- (abs_not_negative deflectionMm).
      symmetry. apply (ltb_trans _ (-0.01) 0); [exact H | reflexivity]. }
    assert (Hzero : (Math.abs deflectionMm <? 0) = false) by apply abs_not_negative.
    destruct Hmax as [-> | ->].
    + repeat split; try reflexivity; discriminate.
    + rewrite abs_is_nan. repeat split; try assumption; try discriminate.
      rewrite Hzero. discriminate.
Qed.

(** [calculateFinDeflection] always returns a number between -0.01 and 15
    (mm): 0 below 0.001 m/s, 15 when the computed deflection is NaN or above
    15 in magnitude, the computed deflection itself, with its sign, when it is
    below 0.01 in magnitude, and its magnitude otherwise. *)
Theorem fin_deflection_range
    (velocity : float) (material : FinMaterial) (finParams : FinParams)
    (angleChangePerDt2 : float) :
  let deflection := calculateFinDeflection velocity material finParams angleChangePerDt2 in
  is_nan deflection = false
  /\ (15 <? deflection) = false
  /\ (deflection <? -0.01) = false
  /\ ((deflection <? 0) = true -> (-0.01 <? deflection) = true)
  /\ ((Math.abs velocity <? 0.001) = true -> deflection = 0).
Proof. apply calculateFinDeflection_bounds. Qed.

End FinDeflection.

Section Records.

Context {M : Math.Impl} {C : Conversions}.

Lemma angleUpdate_velocity (e : Env.t) (s : St.t) (b : bool) (t a c : float) :
  au_angularVelocity (angleUpdate e s b t a c) = St.angularVelocity s
  \/ exists y, au_angularVelocity (angleUpdate e s b t a c)
               = Math.max (-3) (Math.min 3 y).
Proof.
  unfold angleUpdate. destruct (ANGLE_STEPS_PER_UPDATE <=? St.stepCounter s + 1);
    cbn [au_angularVelocity]; eauto.
Qed.

Lemma angleUpdate_verdict (e : Env.t) (s : St.t) (b : bool) (t a c : float) :
  St.isAngleStableOK s = false ->
  au_isAngleStableOK (angleUpdate e s b t a c) = false.
Proof.
  intros H. unfold angleUpdate.
  destruct (ANGLE_STEPS_PER_UPDATE <=? St.stepCounter s + 1);
    cbn [au_isAngleStableOK]; [|exact H].
  destruct (_ && _); [reflexivity | exact H].
Qed.

Lemma physicalAttitude_verdict (e : Env.t) (s : St.t) (au : AngleUpd) (z r j a : bool) :
  au_isAngleStableOK au = false ->
  at_isAngleStableOK (physicalAttitude e s au z r j a) = false.
Proof.
  intros H. unfold physicalAttitude. cbn [PHYSICAL_ATTITUDE_CONTROL at_isAngleStableOK].
  destruct (_ && _); [reflexivity | exact H].
Qed.

(** The rolling window of angle changes holds at most ten entries. *)
Lemma physicalAttitude_window (e : Env.t) (s : St.t) (au : AngleUpd) (z r j a : bool) :
  (List.length (St.angleChangeBuffer s) <= 10)%nat ->
  (List.length (at_angleChangeBuffer (physicalAttitude e s au z r j a)) <= 10)%nat.
Proof.
  intros H. unfold physicalAttitude.
  cbn [PHYSICAL_ATTITUDE_CONTROL at_angleChangeBuffer].
  set (delta := if _ <? -180 then _ else _). clearbody delta.
  assert (Hcut : forall n : nat, (n <= 11)%nat ->
            (ANGLE_RESPONSE_DT / dt <? of_Z (Z.of_nat n)) = Nat.ltb 10 n).
  { intros n Hn. do 12 (destruct n as [|n]; [vm_compute; reflexivity|]). lia. }
  unfold array_length. rewrite Hcut by (rewrite length_app; cbn; lia).
  rewrite length_app. cbn [List.length].
  destruct (Nat.ltb_spec 10 (List.length (St.angleChangeBuffer s) + 1)).
  - destruct (St.angleChangeBuffer s); cbn in *; [lia|].
    rewrite length_app. cbn. lia.
  - rewrite length_app. cbn. lia.
Qed.

(** What a full iteration records and how it moves the running values. *)
Lemma step_Next_record (e : Env.t) (s s' : St.t) :
  step e s = Next s' ->
  exists p,
    St.data s' = St.data s ++ [p]
    /\ Sample.height p = St.y s'
    /\ Sample.horizontalDistance p = Math.abs (St.x s')
    /\ Sample.isAbsoluteAngleOK p = St.isAbsoluteAngleOK s'
    /\ Sample.angularVelocity p = St.angularVelocity s'
    /\ Sample.finDeflection p = St.finDeflection s'
    /\ Sample.parachuteDeploymentProgress p = St.parachuteDeploymentProgress s'
    /\ Sample.isParachuteEjected p = St.isParachuteEjected s'
    /\ Sample.isParachuteActive p = St.isParachuteActive s'
    /\ St.maxHeight s' = (if St.maxHeight s <? St.y s' then St.y s' else St.maxHeight s)
    /\ St.prec_MaxHeight s'
       = (if St.prec_MaxHeight s <? St.y s' then St.y s' else St.prec_MaxHeight s)
    /\ St.maxDistance s'
       = (if St.maxDistance s <? Math.abs (St.x s') then Math.abs (St.x s')
          else St.maxDistance s).
Proof.
  unfold step.
  destruct (forces e s (updateParachute e s) (locals e s)); intros H;
    [discriminate | injection H as <-].
  eexists. split; [reflexivity|]. cbn. repeat split.
Qed.

End Records.

Section Maxima.

Context {M : Math.Impl} {C : Conversions}.

(** What a [break] leaves as it was. *)
Lemma step_Break_record (e : Env.t) (s s' : St.t) :
  step e s = Break s' ->
  St.data s' = St.data s
  /\ St.maxHeight s' = St.maxHeight s
  /\ St.prec_MaxHeight s' = St.prec_MaxHeight s
  /\ St.maxDistance s' = St.maxDistance s
  /\ St.angularVelocity s' = St.angularVelocity s
  /\ St.isAngleStableOK s' = St.isAngleStableOK s
  /\ St.angleChangeBuffer s' = St.angleChangeBuffer s
  /\ (St.isAbsoluteAngleOK s = false -> St.isAbsoluteAngleOK s' = false).
Proof.
  unfold step.
  destruct (forces e s (updateParachute e s) (locals e s)); intros H;
    [injection H as <- | discriminate].
  cbn. repeat split.
  intros ->. destruct (_ && _); reflexivity.
Qed.

(** A running maximum: it is not below the new value, stays not below what it
    was not below, and is the old maximum or the new value. *)
Lemma running_maximum (m v : float) :
  let m' := if m <? v then v else m in
  (m' <? v) = false
  /\ (forall w, (m <? w) = false -> (m' <? w) = false)
  /\ (m' = m \/ m' = v).
Proof.
  cbv zeta. destruct (m <? v) eqn:H.
  - split; [apply ltb_irrefl|]. split; [|auto].
    intros w Hw. destruct (v <? w) eqn:Hvw; [|reflexivity].
    rewrite (ltb_trans m v w H Hvw) in Hw. discriminate.
  - split; [exact H|]. split; auto.
Qed.

(** The maxima of a returned flight: [prec_MaxHeight] and [maxHeight] are the
    same number; no recorded height is above [maxHeight] and no recorded
    horizontal distance above [maxDistance]; and each maximum is 0, its value
    before the launch, or the value of a recorded sample. *)
Theorem maxima_bound_the_trajectory
    (fuel : nat) (rocketParams : RocketParams) (angle windSpeed : float)
    (windProfile : WindProfile) (config : option Config) (r : FlightResult.t) :
  calculateFlightPath fuel rocketParams angle windSpeed windProfile config = Returned r ->
  FlightResult.prec_MaxHeight r = FlightResult.maxHeight r
  /\ (forall p, In p (FlightResult.data r) ->
        (FlightResult.maxHeight r <? Sample.height p) = false
        /\ (FlightResult.maxDistance r <? Sample.horizontalDistance p) = false)
  /\ (FlightResult.maxHeight r = 0
      \/ exists p, In p (FlightResult.data r)
                   /\ Sample.height p = FlightResult.maxHeight r)
  /\ (FlightResult.maxDistance r = 0
      \/ exists p, In p (FlightResult.data r)
                   /\ Sample.horizontalDistance p = FlightResult.maxDistance r).
Proof.
  intros Hr.
  destruct (calculateFlightPath_stages _ _ _ _ _ _ _ Hr) as (e & sf & _ & Hrun & Hres).
  destruct (flightResult_fields e sf r Hres) as (-> & -> & -> & -> & _).
  set (P := fun s : St.t =>
              St.prec_MaxHeight s = St.maxHeight s
              /\ (forall p, In p (St.data s) ->
                    (St.maxHeight s <? Sample.height p) = false
                    /\ (St.maxDistance s <? Sample.horizontalDistance p) = false)
              /\ (St.maxHeight s = 0
                  \/ exists p, In p (St.data s) /\ Sample.height p = St.maxHeight s)
              /\ (St.maxDistance s = 0
                  \/ exists p, In p (St.data s)
                               /\ Sample.horizontalDistance p = St.maxDistance s)).
  apply (simulate_invariant P e) with (fuel := fuel) (s := initialState angle);
    [| | |exact Hrun].
  - intros s s' _ (Hprec & Hall & Hh & Hd) Hstep.
    destruct (step_Next_record e s s' Hstep)
      as (p & Hdata & Hph & Hpd & _ & _ & _ & _ & _ & _ & Hmh & Hmp & Hmd).
    destruct (running_maximum (St.maxHeight s) (St.y s')) as (Hh1 & Hh2 & Hh3).
    destruct (running_maximum (St.maxDistance s) (Math.abs (St.x s')))
      as (Hd1 & Hd2 & Hd3).
    cbv zeta in *. rewrite <- Hmh in *. rewrite <- Hmd in *.
    unfold P. rewrite Hdata. split; [rewrite Hmp, Hmh, Hprec; reflexivity|].
    split; [|split].
    + intros q Hq. apply in_app_or in Hq. destruct Hq as [Hq|[<-|[]]].
      * destruct (Hall q Hq). auto.
      * rewrite Hph, Hpd. auto.
    + destruct Hh3 as [Hsame|Hnew].
      * rewrite Hsame. destruct Hh as [Hh|(q & Hq & Hqh)]; [auto|].
        right. exists q. split; [apply in_or_app; auto | exact Hqh].
      * right. exists p. split; [apply in_or_app; right; left; reflexivity|].
        rewrite Hph, Hnew. reflexivity.
    + destruct Hd3 as [Hsame|Hnew].
      * rewrite Hsame. destruct Hd as [Hd|(q & Hq & Hqd)]; [auto|].
        right. exists q. split; [apply in_or_app; auto | exact Hqd].
      * right. exists p. split; [apply in_or_app; right; left; reflexivity|].
        rewrite Hpd, Hnew. reflexivity.
  - intros s s' _ HP Hstep.
    destruct (step_Break_record e s s' Hstep) as (Hd & Hmh & Hmp & Hmd & _).
    unfold P. rewrite Hd, Hmh, Hmp, Hmd. exact HP.
  - unfold P. cbn. split; [reflexivity|]. split; [intros p []|]. auto.
Qed.

End Maxima.

(** The default design, launched at 30 degrees into a 5 m/s urban wind, on a
    parameter object that holds [finCp]: the flight climbs to 41.8 m and
    drifts 94.2 m, and both maxima are those of recorded samples. *)
Lemma maxima_bound_the_trajectory_witness :
  exists r highest farthest,
    @calculateFlightPath Reference.math Reference.conversions
      1002 Examples.defaultRocketFlown 30 5 urban None = Returned r
    /\ (41 <? FlightResult.maxHeight r) = true
    /\ (94 <? FlightResult.maxDistance r) = true
    /\ FlightResult.prec_MaxHeight r = FlightResult.maxHeight r
    /\ (forall p, In p (FlightResult.data r) ->
          (FlightResult.maxHeight r <? Sample.height p) = false
          /\ (FlightResult.maxDistance r <? Sample.horizontalDistance p) = false)
    /\ In highest (FlightResult.data r)
    /\ Sample.height highest = FlightResult.maxHeight r
    /\ In farthest (FlightResult.data r)
    /\ Sample.horizontalDistance farthest = FlightResult.maxDistance r.
Proof.
  eassert (He : @calculateFlightPath Reference.math Reference.conversions
                  1002 Examples.defaultRocketFlown 30 5 urban None = Returned _)
    by (vm_compute; reflexivity).
  match type of He with _ = Returned ?v => set (r := v) in He end.
  assert (Hh : (41 <? FlightResult.maxHeight r) = true) by (vm_compute; reflexivity).
  assert (Hd : (94 <? FlightResult.maxDistance r) = true) by (vm_compute; reflexivity).
  destruct (@maxima_bound_the_trajectory Reference.math Reference.conversions
              _ _ _ _ _ _ _ He) as (Hprec & Hall & Hmax & Hfar).
  destruct Hmax as [Hzero|(highest & Hin & Hheight)];
    [rewrite Hzero in Hh; vm_compute in Hh; discriminate|].
  destruct Hfar as [Hzero|(farthest & Hin' & Hdistance)];
    [rewrite Hzero in Hd; vm_compute in Hd; discriminate|].
  exists r, highest, farthest.
  split; [exact He|]. split; [exact Hh|]. split; [exact Hd|]. split; [exact Hprec|].
  split; [exact Hall|]. split; [exact Hin|]. split; [exact Hheight|].
  split; [exact Hin' | exact Hdistance].
Defined.

Lemma ltb_nan_l (x y : float) : is_nan x = true -> (x <? y) = false.
Proof.
  rewrite is_nan_Prim2SF, ltb_compare. destruct (Prim2SF x); try discriminate.
  reflexivity.
Qed.

(** A value that lies in a range lies in every wider one, and the clamp to a
    wider range leaves it as it is. *)
Lemma clamp_of_inner (lo hi x : float) (lo' hi' : float) :
  (lo' <? lo) = true -> (hi <? hi') = true ->
  (lo <=? x) = true -> (x <=? hi) = true ->
  Math.max lo' (Math.min hi' x) = x.
Proof.
  intros Hlo Hhi Hl Hh.
  assert (Hxh : (x <? hi') = true) by (eapply leb_ltb_trans; eassumption).
  assert (Hlx : (lo' <? x) = true) by (eapply ltb_leb_trans; eassumption).
  destruct (ltb_not_nan _ _ Hxh) as [Hx Hh'].
  destruct (ltb_not_nan _ _ Hlx) as [Hl' _].
  assert (Hmin : Math.min hi' x = x).
  { unfold Math.min. rewrite Hh', Hx. cbn [orb].
    rewrite (ltb_asym _ _ Hxh), Hxh. reflexivity. }
  rewrite Hmin. unfold Math.max. rewrite Hl', Hx. cbn [orb]. rewrite Hlx. reflexivity.
Qed.

Lemma Math_min_not_above_l (a b : float) : (a <? Math.min a b) = false.
Proof.
  unfold Math.min.
  destruct (is_nan a || is_nan b) eqn:Hn; [apply ltb_nan_r; reflexivity|].
  destruct (a <? b) eqn:Hab; [apply ltb_irrefl|].
  destruct (b <? a) eqn:Hba; [exact Hab|].
  destruct (get_sign a); [apply ltb_irrefl | exact Hab].
Qed.

Lemma Next_inj (a b : St.t) : Next a = Next b -> a = b.
Proof. intros H. injection H as H. exact H. Qed.

Section Bounds.

Context {M : Math.Impl} {C : Conversions}.

Lemma updateParachute_progress (e : Env.t) (s : St.t) :
  (1 <? St.parachuteDeploymentProgress s) = false ->
  (1 <? ph_parachuteDeploymentProgress (updateParachute e s)) = false.
Proof.
  intros H. unfold updateParachute.
  destruct (negb (St.isParachuteActive s) && (Env.parachuteActiveTime e <=? St.time s));
    cbn [ph_parachuteDeploymentProgress]; [reflexivity|].
  destruct (_ && _); [apply Math_min_not_above_l | exact H].
Qed.

(** How a full iteration moves the verdicts and the bounded quantities. *)
Lemma step_Next_bounds (e : Env.t) (s s' : St.t) :
  step e s = Next s' ->
  (St.isAngleStableOK s = false -> St.isAngleStableOK s' = false)
  /\ (St.isAbsoluteAngleOK s = false -> St.isAbsoluteAngleOK s' = false)
  /\ (exists x,
        St.angularVelocity s' = Math.max (-5) (Math.min 5 x)
        /\ (x = St.angularVelocity s \/ exists y, x = Math.max (-3) (Math.min 3 y)))
  /\ (St.finDeflection s' = 0
      \/ exists v a,
           St.finDeflection s'
           = calculateFinDeflection v (Env.finMaterial e) (finParamsOf (Env.rocketParams e)) a)
  /\ ((List.length (St.angleChangeBuffer s) <= 10)%nat ->
      (List.length (St.angleChangeBuffer s') <= 10)%nat).
Proof.
  unfold step.
  destruct (forces e s (updateParachute e s) (locals e s)) as [| fo]; intros H;
    [discriminate | apply Next_inj in H; subst s'].
  lazy beta iota zeta delta
    [St.isAngleStableOK St.isAbsoluteAngleOK St.angularVelocity St.finDeflection
       St.angleChangeBuffer].
  split; [|split; [|split; [|split]]].
  - intros Hs. apply physicalAttitude_verdict. apply angleUpdate_verdict. exact Hs.
  - intros ->. destruct (_ && _); reflexivity.
  - eexists. split; [reflexivity|]. apply angleUpdate_velocity.
  - destruct (5.0 <? velocity (locals e s)); eauto.
  - apply physicalAttitude_window.
Qed.

Lemma step_Break_parachute (e : Env.t) (s s' : St.t) :
  step e s = Break s' ->
  St.parachuteDeploymentProgress s'
  = ph_parachuteDeploymentProgress (updateParachute e s).
Proof.
  unfold step.
  destruct (forces e s (updateParachute e s) (locals e s)); intros H;
    [injection H as <- | discriminate].
  reflexivity.
Qed.

End Bounds.

Section Verdicts.

Context {M : Math.Impl} {C : Conversions}.

(** A verdict that has turned false stays false to the end of the loop. *)
Lemma simulate_verdicts (fuel : nat) (e : Env.t) (s sf : St.t) :
  simulate fuel e s = Some sf ->
  (St.isAngleStableOK s = false -> St.isAngleStableOK sf = false)
  /\ (St.isAbsoluteAngleOK s = false -> St.isAbsoluteAngleOK sf = false)
  /\ (St.isTorqueStableOK s = false -> St.isTorqueStableOK sf = false).
Proof.
  revert s. induction fuel as [|fuel IH]; intros s Hrun; [discriminate|].
  rewrite simulate_S in Hrun. destruct (loopCondition s).
  - destruct (step e s) as [s'|s'] eqn:Hstep.
    + injection Hrun as <-.
      destruct (step_Break_record e s s' Hstep) as (_ & _ & _ & _ & _ & Ha & _ & Hb).
      destruct (step_Break e s s' Hstep) as (Ht & _).
      rewrite Ha. auto.
    + destruct (IH s' Hrun) as (Ha & Hb & Ht).
      destruct (step_Next_bounds e s s' Hstep) as (Ha' & Hb' & _).
      destruct (step_Next e s s' Hstep) as (_ & Ht' & _).
      rewrite Ht' in Ht. auto.
  - injection Hrun as <-. auto.
Qed.

(** The verdict on the absolute angle, which every sample records, never
    recovers: after a sample that records it as false every sample does, and
    so does the returned [angleStability], whose overall verdict is then
    false.  The overall verdict is true only if the three verdicts are. *)
Theorem absolute_angle_verdict_never_recovers
    (fuel : nat) (rocketParams : RocketParams) (angle windSpeed : float)
    (windProfile : WindProfile) (config : option Config) (r : FlightResult.t) :
  calculateFlightPath fuel rocketParams angle windSpeed windProfile config = Returned r ->
  (forall i j p q,
      (i <= j)%nat ->
      nth_error (FlightResult.data r) i = Some p ->
      nth_error (FlightResult.data r) j = Some q ->
      Sample.isAbsoluteAngleOK p = false -> Sample.isAbsoluteAngleOK q = false)
  /\ (forall p,
        In p (FlightResult.data r) -> Sample.isAbsoluteAngleOK p = false ->
        AngleStability.isAbsoluteAngleOK (FlightResult.angleStability r) = false
        /\ AngleStability.isStabilityOverallOK (FlightResult.angleStability r) = false)
  /\ (AngleStability.isStabilityOverallOK (FlightResult.angleStability r) = true ->
      AngleStability.isAngleStableOK (FlightResult.angleStability r) = true
      /\ AngleStability.isAbsoluteAngleOK (FlightResult.angleStability r) = true
      /\ AngleStability.isTorqueStableOK (FlightResult.angleStability r) = true
      /\ forall p, In p (FlightResult.data r) -> Sample.isAbsoluteAngleOK p = true).
Proof.
  intros Hr.
  destruct (calculateFlightPath_stages _ _ _ _ _ _ _ Hr) as (e & sf & _ & Hrun & Hres).
  assert (Hoverall :
            AngleStability.isStabilityOverallOK (FlightResult.angleStability r)
            = St.isAngleStableOK sf && St.isAbsoluteAngleOK sf && St.isTorqueStableOK sf).
  { unfold flightResult in Hres.
    destruct (calculateVolume (to_value (Env.rocketParams e))); try discriminate.
    cbn [bind] in Hres. destruct (St.data sf); [discriminate|].
    injection Hres as <-. reflexivity. }
  destruct (flightResult_fields e sf r Hres)
    as (Hdata & _ & _ & _ & _ & _ & Hangle & Habs & Htorque).
  rewrite Hoverall, Hdata, Hangle, Habs, Htorque.
  set (P := fun s : St.t =>
              (forall i j p q,
                  (i <= j)%nat ->
                  nth_error (St.data s) i = Some p -> nth_error (St.data s) j = Some q ->
                  Sample.isAbsoluteAngleOK p = false -> Sample.isAbsoluteAngleOK q = false)
              /\ (forall p, In p (St.data s) -> Sample.isAbsoluteAngleOK p = false ->
                            St.isAbsoluteAngleOK s = false)).
  assert (HP : P sf).
  { apply (simulate_invariant P e) with (fuel := fuel) (s := initialState angle);
      [| | |exact Hrun].
    - intros s s' _ (Hmono & Hlast) Hstep.
      destruct (step_Next_record e s s' Hstep) as (p0 & Hd & _ & _ & Hflag & _).
      destruct (step_Next_bounds e s s' Hstep) as (_ & Hkeep & _).
      unfold P. rewrite Hd. split.
      + intros i j p q Hij Hp Hq Hfalse.
        destruct (Nat.lt_ge_cases j (List.length (St.data s))) as [Hj|Hj].
        * rewrite nth_error_app1 in Hp by lia. rewrite nth_error_app1 in Hq by lia.
          exact (Hmono i j p q Hij Hp Hq Hfalse).
        * rewrite nth_error_app2 in Hq by exact Hj.
          destruct (j - List.length (St.data s))%nat as [|k];
            [|destruct k; discriminate].
          injection Hq as <-. rewrite Hflag.
          destruct (Nat.lt_ge_cases i (List.length (St.data s))) as [Hi|Hi].
          -- rewrite nth_error_app1 in Hp by exact Hi.
             apply Hkeep. apply (Hlast p); [|exact Hfalse].
             eapply nth_error_In. exact Hp.
          -- rewrite nth_error_app2 in Hp by exact Hi.
             destruct (i - List.length (St.data s))%nat as [|k];
               [|destruct k; discriminate].
             injection Hp as <-. rewrite <- Hflag. exact Hfalse.
      + intros p Hp Hfalse. apply in_app_or in Hp. destruct Hp as [Hp|[<-|[]]].
        * apply Hkeep. eapply Hlast; eassumption.
        * rewrite <- Hflag. exact Hfalse.
    - intros s s' _ (Hmono & Hlast) Hstep.
      destruct (step_Break_record e s s' Hstep) as (Hd & _ & _ & _ & _ & _ & _ & Hkeep).
      unfold P. rewrite Hd. split; [exact Hmono|].
      intros p Hp Hfalse. apply Hkeep. eapply Hlast; eassumption.
    - unfold P. cbn. split.
      + intros [|i] j p q _ H; discriminate.
      + intros p []. }
  destruct HP as (Hmono & Hlast).
  split; [exact Hmono|]. split.
  - intros p Hp Hfalse. rewrite (Hlast p Hp Hfalse).
    split; [reflexivity|]. rewrite Bool.andb_false_r. reflexivity.
  - intros Hok. apply Bool.andb_true_iff in Hok. destruct Hok as [Hok Ht].
    apply Bool.andb_true_iff in Hok. destruct Hok as [Ha Hb].
    repeat split; try assumption.
    intros p Hp. destruct (Sample.isAbsoluteAngleOK p) eqn:Hf; [reflexivity|].
    rewrite (Hlast p Hp Hf) in Hb. discriminate.
Qed.

(** Every sample of a returned flight is bounded: its angular velocity is NaN
    or lies in [[-3, 3]] rad/s (the limit of 5 rad/s applied afterwards never
    binds); its fin deflection is a number in [[-0.01, 15]] mm; its parachute
    deployment progress is not above 1; and its horizontal distance is not
    negative. *)
Theorem samples_are_bounded
    (fuel : nat) (rocketParams : RocketParams) (angle windSpeed : float)
    (windProfile : WindProfile) (config : option Config) (r : FlightResult.t) :
  calculateFlightPath fuel rocketParams angle windSpeed windProfile config = Returned r ->
  forall p, In p (FlightResult.data r) ->
    (is_nan (Sample.angularVelocity p) = true
     \/ ((-3 <=? Sample.angularVelocity p) = true
         /\ (Sample.angularVelocity p <=? 3) = true))
    /\ (is_nan (Sample.finDeflection p) = false
        /\ (15 <? Sample.finDeflection p) = false
        /\ (Sample.finDeflection p <? -0.01) = false)
    /\ (1 <? Sample.parachuteDeploymentProgress p) = false
    /\ (Sample.horizontalDistance p <? 0) = false.
Proof.
  intros Hr.
  destruct (calculateFlightPath_stages _ _ _ _ _ _ _ Hr) as (e & sf & _ & Hrun & Hres).
  destruct (flightResult_fields e sf r Hres) as (-> & _).
  set (slow := fun v : float =>
                 is_nan v = true \/ ((-3 <=? v) = true /\ (v <=? 3) = true)).
  set (Q := fun p : Sample.t =>
              slow (Sample.angularVelocity p)
              /\ (is_nan (Sample.finDeflection p) = false
                  /\ (15 <? Sample.finDeflection p) = false
                  /\ (Sample.finDeflection p <? -0.01) = false)
              /\ (1 <? Sample.parachuteDeploymentProgress p) = false
              /\ (Sample.horizontalDistance p <? 0) = false).
  set (P := fun s : St.t =>
              slow (St.angularVelocity s)
              /\ (1 <? St.parachuteDeploymentProgress s) = false
              /\ forall p, In p (St.data s) -> Q p).
  assert (Hslow : forall x, slow x -> slow (Math.max (-5) (Math.min 5 x))).
  { intros x [Hn|[Hl Hh]].
    - left. rewrite Math_max_nan, Math_min_nan, Hn, Bool.orb_true_r. reflexivity.
    - right. rewrite (clamp_of_inner (-3) 3 x (-5) 5); auto. }
  assert (Hclamp : forall y, slow (Math.max (-3) (Math.min 3 y))).
  { intros y. destruct (is_nan y) eqn:Hn.
    - left. rewrite Math_max_nan, Math_min_nan, Hn, Bool.orb_true_r. reflexivity.
    - right. apply clamp_in_range; [reflexivity | exact Hn]. }
  assert (HP : P sf).
  { apply (simulate_invariant P e) with (fuel := fuel) (s := initialState angle);
      [| | |exact Hrun].
    - intros s s' _ (Hav & Hprog & Hall) Hstep.
      destruct (step_Next_record e s s' Hstep)
        as (p0 & Hd & _ & Hhd & _ & Hpav & Hpfd & Hpprog & _).
      destruct (step_Next_bounds e s s' Hstep) as (_ & _ & (x & Hx & Hsrc) & Hfd & _).
      destruct (step_Next_parachute e s s' Hstep) as (_ & _ & Hprog').
      assert (Hav' : slow (St.angularVelocity s')).
      { rewrite Hx. apply Hslow. destruct Hsrc as [->|[y ->]]; [exact Hav | apply Hclamp]. }
      assert (Hprog'' : (1 <? St.parachuteDeploymentProgress s') = false)
        by (rewrite Hprog'; apply updateParachute_progress; exact Hprog).
      unfold P. split; [exact Hav'|]. split; [exact Hprog''|].
      rewrite Hd. intros p Hp. apply in_app_or in Hp. destruct Hp as [Hp|[<-|[]]].
      + apply Hall. exact Hp.
      + unfold Q. rewrite Hpav, Hpfd, Hpprog, Hhd.
        split; [exact Hav'|]. split; [|split; [exact Hprog'' | apply abs_not_negative]].
        destruct Hfd as [->|(v & a & ->)]; [repeat split|].
        destruct (calculateFinDeflection_bounds v (Env.finMaterial e)
                    (finParamsOf (Env.rocketParams e)) a) as (H1 & H2 & H3 & _).
        auto.
    - intros s s' _ (Hav & Hprog & Hall) Hstep.
      destruct (step_Break_record e s s' Hstep) as (Hd & _ & _ & _ & Hv & _).
      unfold P. rewrite Hd, Hv, (step_Break_parachute e s s' Hstep).
      split; [exact Hav|]. split; [apply updateParachute_progress; exact Hprog|].
      exact Hall.
    - unfold P. cbn. split; [right; split; reflexivity|]. split; [reflexivity|].
      intros p []. }
  destruct HP as (_ & _ & Hall). exact Hall.
Qed.

End Verdicts.

(** The default design, launched at 30 degrees into a 5 m/s urban wind, on a
    parameter object that holds [finCp]: the sample of 3.14 s is the first to
    record the verdict on the absolute angle as false; the last sample of the
    flight records it as false too, and so does the returned
    [angleStability]. *)
Lemma absolute_angle_verdict_never_recovers_witness :
  exists r before first final,
    @calculateFlightPath Reference.math Reference.conversions
      1002 Examples.defaultRocketFlown 30 5 urban None = Returned r
    /\ nth_error (FlightResult.data r) 156 = Some before
    /\ Sample.isAbsoluteAngleOK before = true
    /\ nth_error (FlightResult.data r) 157 = Some first
    /\ Sample.isAbsoluteAngleOK first = false
    /\ nth_error (FlightResult.data r) 1000 = Some final
    /\ Sample.isAbsoluteAngleOK final = false
    /\ AngleStability.isAbsoluteAngleOK (FlightResult.angleStability r) = false
    /\ AngleStability.isStabilityOverallOK (FlightResult.angleStability r) = false.
Proof.
  eassert (He : @calculateFlightPath Reference.math Reference.conversions
                  1002 Examples.defaultRocketFlown 30 5 urban None = Returned _)
    by (vm_compute; reflexivity).
  match type of He with _ = Returned ?v => set (r := v) in He end.
  eassert (Hb : nth_error (FlightResult.data r) 156 = Some _) by (vm_compute; reflexivity).
  match type of Hb with _ = Some ?v => set (before := v) in Hb end.
  eassert (Hf : nth_error (FlightResult.data r) 157 = Some _) by (vm_compute; reflexivity).
  match type of Hf with _ = Some ?v => set (first := v) in Hf end.
  eassert (Hl : nth_error (FlightResult.data r) 1000 = Some _) by (vm_compute; reflexivity).
  match type of Hl with _ = Some ?v => set (final := v) in Hl end.
  assert (Hfalse : Sample.isAbsoluteAngleOK first = false) by (vm_compute; reflexivity).
  destruct (@absolute_angle_verdict_never_recovers Reference.math Reference.conversions
              _ _ _ _ _ _ _ He) as (Hlater & Hverdict & _).
  destruct (Hverdict first (nth_error_In _ _ Hf) Hfalse) as [Habs Hall].
  exists r, before, first, final.
  split; [exact He|]. split; [exact Hb|]. split; [vm_compute; reflexivity|].
  split; [exact Hf|]. split; [exact Hfalse|]. split; [exact Hl|].
  split; [|split; assumption].
  apply (Hlater 157%nat 1000%nat first final); [lia | exact Hf | exact Hl | exact Hfalse].
Defined.

(** The default design, launched at 30 degrees into a 5 m/s urban wind, on a
    parameter object that holds [finCp]: every sample is within the bounds,
    and the limit of 3 rad/s on the angular velocity binds on both sides (the
    sample of 0.38 s records 3, that of 0.58 s records -3); the fin
    deflection is positive from the sample of 0.14 s on. *)
Lemma samples_are_bounded_witness :
  exists r up down bent,
    @calculateFlightPath Reference.math Reference.conversions
      1002 Examples.defaultRocketFlown 30 5 urban None = Returned r
    /\ (forall p, In p (FlightResult.data r) ->
          (is_nan (Sample.angularVelocity p) = true
           \/ ((-3 <=? Sample.angularVelocity p) = true
               /\ (Sample.angularVelocity p <=? 3) = true))
          /\ (is_nan (Sample.finDeflection p) = false
              /\ (15 <? Sample.finDeflection p) = false
              /\ (Sample.finDeflection p <? -0.01) = false)
          /\ (1 <? Sample.parachuteDeploymentProgress p) = false
          /\ (Sample.horizontalDistance p <? 0) = false)
    /\ nth_error (FlightResult.data r) 19 = Some up
    /\ Sample.angularVelocity up = 3
    /\ nth_error (FlightResult.data r) 29 = Some down
    /\ Sample.angularVelocity down = -3
    /\ nth_error (FlightResult.data r) 7 = Some bent
    /\ (0 <? Sample.finDeflection bent) = true.
Proof.
  eassert (He : @calculateFlightPath Reference.math Reference.conversions
                  1002 Examples.defaultRocketFlown 30 5 urban None = Returned _)
    by (vm_compute; reflexivity).
  match type of He with _ = Returned ?v => set (r := v) in He end.
  eassert (Hu : nth_error (FlightResult.data r) 19 = Some _) by (vm_compute; reflexivity).
  match type of Hu with _ = Some ?v => set (up := v) in Hu end.
  eassert (Hd : nth_error (FlightResult.data r) 29 = Some _) by (vm_compute; reflexivity).
  match type of Hd with _ = Some ?v => set (down := v) in Hd end.
  eassert (Hb : nth_error (FlightResult.data r) 7 = Some _) by (vm_compute; reflexivity).
  match type of Hb with _ = Some ?v => set (bent := v) in Hb end.
  exists r, up, down, bent.
  split; [exact He|].
  split; [exact (@samples_are_bounded Reference.math Reference.conversions
                   _ _ _ _ _ _ _ He)|].
  split; [exact Hu|]. split; [vm_compute; reflexivity|].
  split; [exact Hd|]. split; [vm_compute; reflexivity|].
  split; [exact Hb|]. vm_compute. reflexivity.
Defined.

(** ** Which property functions check their input *)

Section Unchecked.

Context {M : Math.Impl} {C : Conversions}.

Lemma sub_nan_l (x y : float) : is_nan x = true -> is_nan (x - y) = true.
Proof.
  intros Hx. rewrite is_nan_Prim2SF, FloatAxioms.sub_spec, (Prim2SF_nan x Hx).
  destruct (Prim2SF y); reflexivity.
Qed.

(** The nose's centre of pressure is a multiple of the nose height. *)
Lemma noseCp_nan (noseShape : NoseShape) (noseHeight : float) :
  is_nan noseHeight = true ->
  is_nan (if is_cone noseShape then noseHeight * 0.666
          else if is_parabola noseShape then noseHeight * 0.614
          else noseHeight * 0.575) = true.
Proof.
  intros H. destruct (is_cone noseShape); [|destruct (is_parabola noseShape)];
    apply mul_nan_l; exact H.
Qed.

(** A design whose numeric fields are all of type number passes the check of
    [calculateProjectedArea], NaN or not; with a nose height of NaN the side
    area is NaN. *)
Lemma calculateProjectedArea_nan (design : RocketParams) :
  is_nan (noseHeight design) = true ->
  is_nan (Areas.sideArea (calculateProjectedArea (to_value design))) = true.
Proof.
  intros H. unfold calculateProjectedArea.
  change (falsy (to_value design) || negb (typeof_is_object (to_value design)))
    with false.
  change (get (to_value design) "noseHeight") with (VNumber (noseHeight design)).
  change (get (to_value design) "bodyHeight") with (VNumber (bodyHeight design)).
  change (get (to_value design) "bodyWidth") with (VNumber (bodyWidth design)).
  change (get (to_value design) "finHeight") with (VNumber (finHeight design)).
  change (get (to_value design) "finBaseWidth") with (VNumber (finBaseWidth design)).
  change (get (to_value design) "finTipWidth") with (VNumber (finTipWidth design)).
  change (get (to_value design) "finThickness") with (VNumber (finThickness design)).
  change (get (to_value design) "finSweepLength") with (VNumber (finSweepLength design)).
  cbn [typeof_is_number negb orb ToNumber]. cbv iota. cbn [Areas.sideArea].
  apply add_nan_l, add_nan_r.
  assert (Hm : is_nan (mmToM (noseHeight design)) = true)
    by (apply div_nan_l; exact H).
  destruct (strict_eq_string _ "cone"); [|destruct (strict_eq_string _ "parabola")];
    apply mul_nan_r; exact Hm.
Qed.

(** C7, as the code has it.  [calculateProjectedArea] returns the all-zero
    areas when the design is not an object or one of its eight numeric
    geometry fields is not of type number; a field that is of type number is
    accepted, NaN too.  No other property function checks anything.
    [calculateVolume] throws on a design that is null or undefined and, when
    the three fields it divides are primitives, on no other; a missing
    [bodyHeight] makes the body and total volumes NaN.  The divergence and
    flutter speeds throw on such a design and on one without fin material.
    On a design whose nose height is NaN the centres of pressure, the
    aerodynamic centre, the stability centre of pressure and both static
    margins are NaN, and so is the projected side area. *)
Theorem only_the_projected_area_validates (rocketParams : value) (design : RocketParams) :
  (falsy rocketParams || negb (typeof_is_object rocketParams) = true
   \/ existsb (fun k => negb (typeof_is_number (get rocketParams k)))
        numericGeometryFields = true ->
   calculateProjectedArea rocketParams = Areas.zero)
  /\ (is_nullish rocketParams = true -> calculateVolume rocketParams = Thrown)
  /\ (forallb (fun k => is_primitive (get rocketParams k))
        ["noseHeight"; "bodyHeight"; "bodyWidth"]%string = true ->
      (calculateVolume rocketParams = Thrown <-> is_nullish rocketParams = true)
      /\ (is_nullish rocketParams = false ->
          is_nan (ToNumber (get rocketParams "bodyHeight")) = true ->
          exists v, calculateVolume rocketParams = Returned v
                    /\ is_nan (Volumes.bodyVolume v) = true
                    /\ is_nan (Volumes.totalVolume v) = true))
  /\ (is_nullish rocketParams = true \/ get rocketParams "finMaterial" = VUndefined ->
      calculateFinDivergenceSpeed rocketParams = Thrown
      /\ calculateFinFlutterSpeed rocketParams = Thrown)
  /\ (is_nan (noseHeight design) = true ->
      is_nan (Areas.sideArea (calculateProjectedArea (to_value design))) = true
      /\ is_nan (Pressure.noseCp (calculateCenterOfPressure design)) = true
      /\ is_nan (Pressure.bodyCp (calculateCenterOfPressure design)) = true
      /\ is_nan (Pressure.finCp (calculateCenterOfPressure design)) = true
      /\ is_nan (Pressure.centerOfPressure (calculateCenterOfPressure design)) = true
      /\ (exists aerodynamicCenter,
            calculateAerodynamicCenter design = Returned aerodynamicCenter
            /\ is_nan aerodynamicCenter = true)
      /\ is_nan (calculateStabilityCenterOfPressure design) = true
      /\ is_nan (Margins.standardStaticMargin (calculateStaticMargin design)) = true
      /\ is_nan (Margins.stabilityStaticMargin (calculateStaticMargin design)) = true).
Proof.
  split; [apply calculateProjectedArea_zero|].
  split.
  { intros H. unfold calculateVolume. rewrite H. reflexivity. }
  split.
  { intros _. split.
    - unfold calculateVolume. destruct (is_nullish rocketParams); split;
        intros H; try reflexivity; discriminate.
    - intros Hn Hb. unfold calculateVolume. rewrite Hn. eexists. split; [reflexivity|].
      cbn [Volumes.bodyVolume Volumes.totalVolume].
      assert (Hv : is_nan (Math.PI
                           * Math.pow (mmToM (ToNumber (get rocketParams "bodyWidth")) / 2) 2
                           * mmToM (ToNumber (get rocketParams "bodyHeight"))) = true).
      { apply mul_nan_r. unfold mmToM. apply div_nan_l. exact Hb. }
      split; [exact Hv | apply add_nan_l; exact Hv]. }
  split.
  { intros [H|H]; unfold calculateFinDivergenceSpeed, calculateFinFlutterSpeed.
    - rewrite H. split; reflexivity.
    - rewrite H. destruct (is_nullish rocketParams); split; reflexivity. }
  intros Hnan.
  assert (Hnose : is_nan (Pressure.noseCp (calculateCenterOfPressure design)) = true)
    by (apply noseCp_nan; exact Hnan).
  assert (Hcp : is_nan (Pressure.centerOfPressure (calculateCenterOfPressure design))
                = true).
  { unfold calculateCenterOfPressure. cbn [Pressure.centerOfPressure].
    apply div_nan_l, add_nan_l, add_nan_l, mul_nan_l, noseCp_nan. exact Hnan. }
  assert (Hst : is_nan (calculateStabilityCenterOfPressure design) = true).
  { unfold calculateStabilityCenterOfPressure.
    apply div_nan_l, add_nan_l, mul_nan_r, noseCp_nan. exact Hnan. }
  split; [apply calculateProjectedArea_nan; exact Hnan|].
  split; [exact Hnose|].
  split; [unfold calculateCenterOfPressure; cbn [Pressure.bodyCp];
          apply add_nan_l; exact Hnan|].
  split; [unfold calculateCenterOfPressure; cbn [Pressure.finCp];
          apply add_nan_l, sub_nan_l, add_nan_l; exact Hnan|].
  split; [exact Hcp|].
  split.
  { unfold calculateAerodynamicCenter.
    change (calculateVolume (to_value design))
      with (Returned
              (let noseShape := get (to_value design) "noseShape" in
               let noseHeight_m := mmToM (noseHeight design) in
               let bodyHeight_m := mmToM (bodyHeight design) in
               let bodyRadius_m := mmToM (bodyWidth design) / 2 in
               let bodyVolume := Math.PI * Math.pow bodyRadius_m 2 * bodyHeight_m in
               let noseVolume :=
                 if strict_eq_string noseShape "cone" then
                   (1 / 3) * Math.PI * Math.pow bodyRadius_m 2 * noseHeight_m
                 else if strict_eq_string noseShape "parabola" then
                   (1 / 2) * Math.PI * Math.pow bodyRadius_m 2 * noseHeight_m
                 else (2 / 3) * Math.PI * Math.pow bodyRadius_m 2 * noseHeight_m in
               let totalVolume := bodyVolume + noseVolume in
               {| Volumes.bodyVolume := bodyVolume;
                  Volumes.noseVolume := noseVolume;
                  Volumes.totalVolume := totalVolume |})).
    cbn [bind]. eexists. split; [reflexivity|].
    apply sub_nan_l, add_nan_l. exact Hnan. }
  split; [exact Hst|].
  unfold calculateStaticMargin.
  cbn [Margins.standardStaticMargin Margins.stabilityStaticMargin].
  split; apply div_nan_l, sub_nan_l; assumption.
Qed.

End Unchecked.

(** A design object without [bodyHeight]: zero areas, NaN volumes; and the
    default design with a nose height of NaN: the side area, the centre of
    pressure and the static margin are NaN. *)
Lemma only_the_projected_area_validates_witness :
  @calculateProjectedArea Reference.math Reference.conversions Examples.noBodyHeight
  = Areas.zero
  /\ (exists v,
        @calculateVolume Reference.math Reference.conversions Examples.noBodyHeight
        = Returned v
        /\ is_nan (Volumes.bodyVolume v) = true
        /\ is_nan (Volumes.totalVolume v) = true)
  /\ is_nan (Areas.sideArea
               (@calculateProjectedArea Reference.math Reference.conversions
                  (to_value Examples.nanNoseRocket))) = true
  /\ is_nan (Pressure.centerOfPressure
               (@calculateCenterOfPressure Reference.math Reference.conversions
                  Examples.nanNoseRocket)) = true
  /\ is_nan (Margins.standardStaticMargin
               (@calculateStaticMargin Reference.math Reference.conversions
                  Examples.nanNoseRocket)) = true.
Proof.
  destruct (@only_the_projected_area_validates Reference.math Reference.conversions
              Examples.noBodyHeight Examples.nanNoseRocket)
    as (Hzero & _ & Hvolume & _ & Hnan).
  destruct Hvolume as [_ Hv]; [vm_compute; reflexivity|].
  destruct Hnan as (Hside & _ & _ & _ & Hcp & _ & _ & Hmargin & _); [reflexivity|].
  split; [apply Hzero; right; vm_compute; reflexivity|].
  split; [apply Hv; vm_compute; reflexivity|].
  split; [exact Hside|]. split; [exact Hcp | exact Hmargin].
Defined.

(** C7 as stated fails: for a design without [bodyHeight], [calculateVolume]
    returns volumes that are not zero (the body volume is NaN, the nose volume
    positive); the divergence speed of an empty design object, like the
    volume of an undefined design, throws; and for a nose height of NaN the
    centre of pressure is NaN, not zero. *)
Lemma volume_of_an_incomplete_design_is_not_zero :
  exists v,
    @calculateVolume Reference.math Reference.conversions Examples.noBodyHeight
    = Returned v
    /\ is_nan (Volumes.bodyVolume v) = true
    /\ (Volumes.bodyVolume v =? 0) = false
    /\ (Volumes.noseVolume v =? 0) = false
    /\ @calculateFinDivergenceSpeed Reference.math Reference.conversions (VObject [])
       = Thrown
    /\ @calculateVolume Reference.math Reference.conversions VUndefined = Thrown
    /\ is_nan (Pressure.centerOfPressure
                 (@calculateCenterOfPressure Reference.math Reference.conversions
                    Examples.nanNoseRocket)) = true.
Proof.
  eexists. split; [vm_compute; reflexivity|].
  repeat split; vm_compute; reflexivity.
Qed.

Section StoredFinCp.

Context {M : Math.Impl} {C : Conversions}.

(** The aerodynamic properties do not read [finCp]. *)
Lemma properties_ignore_finCp (rocketParams : RocketParams) (v : float) :
  calculateProjectedArea (to_value (set_finCp rocketParams v))
  = calculateProjectedArea (to_value rocketParams)
  /\ calculateVolume (to_value (set_finCp rocketParams v))
     = calculateVolume (to_value rocketParams)
  /\ calculateCenterOfPressure (set_finCp rocketParams v)
     = calculateCenterOfPressure rocketParams
  /\ calculateAerodynamicCenter (set_finCp rocketParams v)
     = calculateAerodynamicCenter rocketParams
  /\ calculateStabilityCenterOfPressure (set_finCp rocketParams v)
     = calculateStabilityCenterOfPressure rocketParams
  /\ calculateStaticMargin (set_finCp rocketParams v)
     = calculateStaticMargin rocketParams
  /\ calculateFinDivergenceSpeed (to_value (set_finCp rocketParams v))
     = calculateFinDivergenceSpeed (to_value rocketParams)
  /\ calculateFinFlutterSpeed (to_value (set_finCp rocketParams v))
     = calculateFinFlutterSpeed (to_value rocketParams).
Proof.
  repeat split; reflexivity.
Qed.

End StoredFinCp.

Section FirstFlight.

Context {M : Math.Impl} {C : Conversions}.

Lemma momentOfInertiaOf_nan (rocketParams : RocketParams) (finMaterial : FinMaterial) :
  finCp rocketParams = None ->
  is_nan (Math.pow nan 2) = true ->
  is_nan (momentOfInertiaOf rocketParams finMaterial) = true.
Proof.
  intros Hfin Hpow. unfold momentOfInertiaOf. rewrite Hfin.
  change (mmToM (num None)) with nan.
  match goal with
  | |- context [?m * Math.pow nan 2] =>
      assert (Hterm : forall a, is_nan (a + m * Math.pow nan 2) = true)
        by (intros a; apply add_nan_r, mul_nan_r; exact Hpow)
  end.
  destruct (_ =? 3).
  - apply add_nan_r, add_nan_l, Hterm.
  - apply add_nan_r, add_nan_l, mul_nan_l, Hterm.
Qed.

(** On a parameter object that does not hold [finCp] yet (a design's first
    flight) the moment of inertia is NaN, for every host whose [Math.pow]
    gives pow(NaN, 2) = NaN; every update of the angular velocity then makes
    the angular acceleration, the angular velocity and the angle change per
    window NaN.  The call leaves [finCp] on the object. *)
Theorem first_flight_has_no_moment_of_inertia
    (rocketParams : RocketParams) (angle windSpeed : float)
    (windProfile : WindProfile) (config : option Config) (e : Env.t) :
  finCp rocketParams = None ->
  is_nan (Math.pow nan 2) = true ->
  environment rocketParams angle windSpeed windProfile config = Returned e ->
  is_nan (Env.momentOfInertia e) = true
  /\ finCp (Env.rocketParams e) = Some (Pressure.finCp (calculateCenterOfPressure rocketParams))
  /\ forall (s : St.t) (isParachuteEjected : bool) (torque a c : float),
       (ANGLE_STEPS_PER_UPDATE <=? St.stepCounter s + 1) = true ->
       let au := angleUpdate e s isParachuteEjected torque a c in
       is_nan (au_angularAcceleration au) = true
       /\ is_nan (au_angularVelocity au) = true
       /\ is_nan (au_angleChangePerDt2 au) = true.
Proof.
  intros Hfin Hpow Henv.
  assert (Hmoi : is_nan (Env.momentOfInertia e) = true /\
                 finCp (Env.rocketParams e)
                 = Some (Pressure.finCp (calculateCenterOfPressure rocketParams))).
  { unfold environment in Henv.
    destruct (MOTOR_THRUST_DATA (Motor_name (selectedMotor rocketParams))); [|discriminate].
    destruct (FIN_MATERIALS (js "light_veneer")) as [m|]; [|discriminate].
    destruct (calculateAerodynamicCenter rocketParams); try discriminate.
    cbn [bind] in Henv. injection Henv as <-. cbn [Env.momentOfInertia Env.rocketParams].
    split; [apply momentOfInertiaOf_nan; assumption | reflexivity]. }
  destruct Hmoi as [Hmoi Hstored]. split; [exact Hmoi|]. split; [exact Hstored|].
  intros s b torque a c Hdue. cbv zeta. unfold angleUpdate. rewrite Hdue.
  cbn [au_angularAcceleration au_angularVelocity au_angleChangePerDt2].
  assert (Hsmall : (Math.abs (Env.momentOfInertia e) <? 1e-6) = false)
    by (apply ltb_nan_l; rewrite abs_is_nan; exact Hmoi).
  rewrite Hsmall.
  match goal with
  | |- is_nan ?acc = true /\ _ =>
      assert (Hacc : is_nan acc = true) by (apply div_nan_r; exact Hmoi)
  end.
  split; [exact Hacc|].
  match goal with
  | |- is_nan ?v = true /\ _ =>
      assert (Hv : is_nan v = true)
  end.
  { rewrite Math_max_nan, Math_min_nan. rewrite (add_nan_r _ _ (mul_nan_l _ _ Hacc)).
    rewrite !Bool.orb_true_r. reflexivity. }
  split; [exact Hv | apply mul_nan_l; exact Hv].
Qed.

End FirstFlight.

Lemma first_flight_has_no_moment_of_inertia_witness :
  exists e,
    @environment Reference.math Reference.conversions
      Examples.defaultRocket 0 3 urban None = Returned e
    /\ is_nan (Env.momentOfInertia e) = true.
Proof.
  eassert (He : @environment Reference.math Reference.conversions
                  Examples.defaultRocket 0 3 urban None = Returned _)
    by (vm_compute; reflexivity).
  match type of He with _ = Returned ?v => set (e := v) in He end.
  exists e. split; [exact He|].
  apply (@first_flight_has_no_moment_of_inertia Reference.math Reference.conversions
           Examples.defaultRocket 0 3 urban None e);
    [reflexivity | vm_compute; reflexivity | exact He].
Defined.

Section Summary.

Context {M : Math.Impl} {C : Conversions}.

Lemma environment_fields
    (rocketParams : RocketParams) (angle windSpeed : float)
    (windProfile : WindProfile) (config : option Config) (e : Env.t) :
  environment rocketParams angle windSpeed windProfile config = Returned e ->
  Env.rocketParams e
  = set_finCp rocketParams (Pressure.finCp (calculateCenterOfPressure rocketParams))
  /\ Env.projectedAreas e = calculateProjectedArea (to_value rocketParams)
  /\ Env.centerOfPressure e = calculateCenterOfPressure rocketParams
  /\ calculateAerodynamicCenter rocketParams = Returned (Env.aerodynamicCenter e).
Proof.
  unfold environment. intros Henv.
  destruct (MOTOR_THRUST_DATA (Motor_name (selectedMotor rocketParams))); [|discriminate].
  destruct (FIN_MATERIALS (js "light_veneer")) as [m|]; [|discriminate].
  destruct (calculateAerodynamicCenter rocketParams); try discriminate.
  cbn [bind] in Henv. injection Henv as <-. repeat split.
Qed.

(** The aerodynamic summary of a returned flight is what the stand-alone
    property functions give for the same design, whether or not the parameter
    object already holds the [finCp] of an earlier flight. *)
Theorem flight_summary_matches_the_properties
    (fuel : nat) (rocketParams : RocketParams) (angle windSpeed : float)
    (windProfile : WindProfile) (config : option Config) (r : FlightResult.t) :
  calculateFlightPath fuel rocketParams angle windSpeed windProfile config = Returned r ->
  FlightResult.projectedAreas r = calculateProjectedArea (to_value rocketParams)
  /\ calculateVolume (to_value rocketParams) = Returned (FlightResult.volumes r)
  /\ FlightResult.pressureCenter r = calculateCenterOfPressure rocketParams
  /\ calculateAerodynamicCenter rocketParams = Returned (FlightResult.aerodynamicCenter r)
  /\ FlightResult.stabilityCenterOfPressure r
     = calculateStabilityCenterOfPressure rocketParams
  /\ FlightResult.staticMargins r = calculateStaticMargin rocketParams.
Proof.
  intros Hr.
  destruct (calculateFlightPath_stages _ _ _ _ _ _ _ Hr) as (e & sf & Henv & _ & Hres).
  destruct (environment_fields _ _ _ _ _ _ Henv) as (Hrp & Hareas & Hcp & Hac).
  unfold flightResult in Hres. rewrite Hrp in Hres.
  destruct (properties_ignore_finCp rocketParams
              (Pressure.finCp (calculateCenterOfPressure rocketParams)))
    as (_ & Hvol & _ & _ & Hstab & Hmargin & _).
  rewrite Hvol, Hstab, Hmargin in Hres.
  destruct (calculateVolume (to_value rocketParams)) as [v| |]; try discriminate.
  cbn [bind] in Hres. destruct (St.data sf); [discriminate|].
  injection Hres as <-.
  cbn [FlightResult.projectedAreas FlightResult.volumes FlightResult.pressureCenter
         FlightResult.aerodynamicCenter FlightResult.stabilityCenterOfPressure
         FlightResult.staticMargins].
  repeat split; assumption.
Qed.

(** A flight stores [finCp] on the parameter object once: a flight with the
    object a flight has left stores the same value, so the object no longer
    changes, and all later flights with the same arguments start from the same
    environment. *)
Theorem finCp_is_stored_once
    (rocketParams : RocketParams) (angle windSpeed : float)
    (windProfile : WindProfile) (config : option Config) (e e' : Env.t) :
  environment rocketParams angle windSpeed windProfile config = Returned e ->
  environment (Env.rocketParams e) angle windSpeed windProfile config = Returned e' ->
  Env.rocketParams e' = Env.rocketParams e
  /\ environment (Env.rocketParams e') angle windSpeed windProfile config = Returned e'
  /\ (forall fuel,
        calculateFlightPath fuel (Env.rocketParams e') angle windSpeed windProfile config
        = calculateFlightPath fuel (Env.rocketParams e) angle windSpeed windProfile config)
  /\ Env.projectedAreas e' = Env.projectedAreas e
  /\ Env.centerOfPressure e' = Env.centerOfPressure e
  /\ Env.aerodynamicCenter e' = Env.aerodynamicCenter e
  /\ Env.thrustData e' = Env.thrustData e
  /\ Env.parachuteEjectionTime e' = Env.parachuteEjectionTime e.
Proof.
  intros He He'.
  destruct (environment_fields _ _ _ _ _ _ He) as (Hrp & Hareas & Hcp & Hac).
  destruct (environment_fields _ _ _ _ _ _ He') as (Hrp' & Hareas' & Hcp' & Hac').
  assert (Hsame : Env.rocketParams e' = Env.rocketParams e).
  { rewrite Hrp', Hrp. reflexivity. }
  split; [exact Hsame|]. rewrite Hsame. split; [exact He'|]. split; [reflexivity|].
  rewrite Hareas', Hcp', Hareas, Hcp, Hrp.
  destruct (properties_ignore_finCp rocketParams
              (Pressure.finCp (calculateCenterOfPressure rocketParams)))
    as (Hpa & _ & Hpc & Hpac & _).
  rewrite Hpa, Hpc. split; [reflexivity|]. split; [reflexivity|].
  split.
  { rewrite Hrp, Hpac, Hac in Hac'. injection Hac' as Hac'. symmetry. exact Hac'. }
  unfold environment in He, He'. rewrite Hrp in He'.
  change (selectedMotor (set_finCp rocketParams _)) with (selectedMotor rocketParams) in He'.
  destruct (MOTOR_THRUST_DATA (Motor_name (selectedMotor rocketParams))); [|discriminate].
  destruct (FIN_MATERIALS (js "light_veneer")) as [m|]; [|discriminate].
  rewrite Hpac in He'.
  destruct (calculateAerodynamicCenter rocketParams); try discriminate.
  cbn [bind] in He, He'. injection He as <-. injection He' as <-.
  split; reflexivity.
Qed.

End Summary.

Lemma flight_summary_matches_the_properties_witness :
  exists r,
    @calculateFlightPath Reference.math Reference.conversions
      1002 Examples.heavyRocket 0 0 uniform None = Returned r
    /\ FlightResult.staticMargins r
       = @calculateStaticMargin Reference.math Reference.conversions Examples.heavyRocket.
Proof.
  eassert (He : @calculateFlightPath Reference.math Reference.conversions
      1002 Examples.heavyRocket 0 0 uniform None = Returned _)
    by (vm_compute; reflexivity).
  match type of He with _ = Returned ?v => set (r := v) in He end.
  exists r. split; [exact He|].
  apply (@flight_summary_matches_the_properties Reference.math Reference.conversions _ _ _ _ _ _ _ He).
Defined.

Lemma finCp_is_stored_once_witness :
  exists e e',
    @environment Reference.math Reference.conversions
      Examples.defaultRocket 0 3 urban None = Returned e
    /\ @environment Reference.math Reference.conversions
         (Env.rocketParams e) 0 3 urban None = Returned e'
    /\ Env.rocketParams e' = Env.rocketParams e.
Proof.
  eassert (He : @environment Reference.math Reference.conversions
                  Examples.defaultRocket 0 3 urban None = Returned _)
    by (vm_compute; reflexivity).
  match type of He with _ = Returned ?v => set (e := v) in He end.
  eassert (He' : @environment Reference.math Reference.conversions
                   (Env.rocketParams e) 0 3 urban None = Returned _)
    by (vm_compute; reflexivity).
  match type of He' with _ = Returned ?v => set (e' := v) in He' end.
  exists e, e'. split; [exact He|]. split; [exact He'|].
  apply (@finCp_is_stored_once Reference.math Reference.conversions _ _ _ _ _ _ _ He He').
Defined.

(** ** The landing prediction *)

Section Prediction.

Context {M : Math.Impl} {C : Conversions}.

(** The parachute diameter is read without an exception from a falsy value and
    from a string, and from nothing else. *)
Lemma parachuteDiameterOf_Thrown (selectedParachute : value) :
  parachuteDiameterOf selectedParachute = Thrown
  <-> falsy selectedParachute = false /\ forall s, selectedParachute <> VString s.
Proof.
  unfold parachuteDiameterOf. split.
  - destruct (falsy selectedParachute); [discriminate|].
    destruct selectedParachute; intros H; try discriminate;
      (split; [reflexivity | intros s' Hs; discriminate]).
  - intros [-> Hs]. destruct selectedParachute; try reflexivity.
    exfalso. exact (Hs s eq_refl).
Qed.

(** [predictLanding] throws only where it reads the parachute diameter;
    otherwise it returns a landing whose distance is the magnitude of its
    position, unless the descent loop is cut short here. *)
Lemma predictLanding_outcome
    (fuel : nat) (rocketParams : option LandingParams) (flightData : FlightData)
    (windSpeed : float) (windProfile : WindProfile) :
  predictLanding fuel rocketParams flightData windSpeed windProfile = OutOfFuel
  \/ (predictLanding fuel rocketParams flightData windSpeed windProfile = Thrown
      /\ parachuteDiameterOf
           (lp_selectedParachute (or_else rocketParams defaultLandingParams)) = Thrown)
  \/ exists l,
       predictLanding fuel rocketParams flightData windSpeed windProfile = Returned l
       /\ Landing.landingDistance l = Math.abs (Landing.landingX l).
Proof.
  assert (Hdefault : exists l, Returned defaultLandingPrediction = Returned l
                     /\ Landing.landingDistance l = Math.abs (Landing.landingX l))
    by (eexists; split; reflexivity).
  unfold predictLanding.
  destruct flightData as [rows|rows|x|]; try (right; right; exact Hdefault).
  - destruct rows as [|a l]; [right; right; exact Hdefault|].
    destruct (last (a :: l) None) as [p|]; [|right; right; exact Hdefault].
    destruct (_ <=? 0); [right; right; eexists; split; reflexivity|].
    destruct (parachuteDiameterOf _) as [d| |] eqn:Hd; cbn [bind].
    + destruct (descend _ _ _);
        [right; right; eexists; split; reflexivity | left; reflexivity].
    + right. left. split; reflexivity.
    + left. reflexivity.
  - destruct rows as [|a l]; [right; right; exact Hdefault|].
    destruct (last (a :: l) None) as [p|]; [|right; right; exact Hdefault].
    destruct (_ <=? 0); [right; right; eexists; split; reflexivity|].
    destruct (parachuteDiameterOf _) as [d| |] eqn:Hd; cbn [bind].
    + destruct (descend _ _ _);
        [right; right; eexists; split; reflexivity | left; reflexivity].
    + right. left. split; reflexivity.
    + left. reflexivity.
Qed.

(** Where [predictLanding] throws: at the parachute diameter, which it reads
    when the last row is in the air. *)
Lemma predictLanding_Thrown
    (fuel : nat) (rocketParams : option LandingParams) (flightData : FlightData)
    (windSpeed : float) (windProfile : WindProfile) :
  predictLanding fuel rocketParams flightData windSpeed windProfile = Thrown ->
  exists rows lastDataPoint,
    (flightData = FD_array rows \/ flightData = FD_object_with_data rows)
    /\ last rows None = Some lastDataPoint
    /\ (or_else (Point.height lastDataPoint) 0 <=? 0) = false
    /\ parachuteDiameterOf
         (lp_selectedParachute (or_else rocketParams defaultLandingParams)) = Thrown.
Proof.
  unfold predictLanding.
  destruct flightData as [rows|rows|x|]; try discriminate;
    (destruct rows as [|a l]; [discriminate|]);
    (destruct (last (a :: l) None) as [p|] eqn:Hl; [|discriminate]);
    (destruct (_ <=? 0) eqn:Hh; [discriminate|]);
    (destruct (parachuteDiameterOf _) as [d| |] eqn:Hd; cbn [bind];
     [destruct (descend _ _ _); discriminate | | discriminate]);
    intros _; exists (a :: l), p; auto.
Qed.

(** [predictLanding] on data it cannot use, and at the edges, for rows whose
    properties are numbers and flags, or absent, and a parameter object whose
    weight and body dimensions are numbers: a number, a value
    that is not an array, an empty array and an array whose last row is null
    or undefined all give the default prediction; a missing parameter object
    is replaced by the default one; a last row whose height is NaN is taken to
    be in the air, and gives a prediction at that row's position with a time
    to landing that is NaN; the landing distance returned is always the
    magnitude of the landing position.  The function throws in one case only:
    the last row is in the air and [selectedParachute] is a truthy value that
    is not a string, on which [replace] is called in front of the [try]. *)
Theorem predictLanding_edge_cases
    (fuel : nat) (rocketParams : option LandingParams)
    (windSpeed : float) (windProfile : WindProfile) :
  let selectedParachute :=
    lp_selectedParachute (or_else rocketParams defaultLandingParams) in
  (forall x, predictLanding fuel rocketParams (FD_number x) windSpeed windProfile
             = Returned defaultLandingPrediction)
  /\ predictLanding fuel rocketParams FD_not_an_array windSpeed windProfile
     = Returned defaultLandingPrediction
  /\ predictLanding fuel rocketParams (FD_array []) windSpeed windProfile
     = Returned defaultLandingPrediction
  /\ predictLanding fuel rocketParams (FD_object_with_data []) windSpeed windProfile
     = Returned defaultLandingPrediction
  /\ (forall rows,
        predictLanding fuel rocketParams (FD_array (rows ++ [None])) windSpeed windProfile
        = Returned defaultLandingPrediction)
  /\ (forall flightData,
        predictLanding fuel None flightData windSpeed windProfile
        = predictLanding fuel (Some defaultLandingParams) flightData windSpeed windProfile)
  /\ (forall rows lastDataPoint,
        is_nan (or_else (Point.height lastDataPoint) 0) = true ->
        (falsy selectedParachute = true \/ exists s, selectedParachute = VString s) ->
        exists landing,
          predictLanding (S fuel) rocketParams (FD_array (rows ++ [Some lastDataPoint]))
            windSpeed windProfile = Returned landing
          /\ Landing.landingX landing = or_else (Point.physicsX lastDataPoint) 0
          /\ is_nan (Landing.timeToLanding landing) = true
          /\ Landing.isPrediction landing = true)
  /\ (forall flightData,
        predictLanding fuel rocketParams flightData windSpeed windProfile = Thrown ->
        (falsy selectedParachute = false /\ forall s, selectedParachute <> VString s)
        /\ exists rows lastDataPoint,
             (flightData = FD_array rows \/ flightData = FD_object_with_data rows)
             /\ last rows None = Some lastDataPoint
             /\ (or_else (Point.height lastDataPoint) 0 <=? 0) = false)
  /\ (forall rows lastDataPoint,
        (or_else (Point.height lastDataPoint) 0 <=? 0) = false ->
        falsy selectedParachute = false ->
        (forall s, selectedParachute <> VString s) ->
        predictLanding fuel rocketParams (FD_array (rows ++ [Some lastDataPoint]))
          windSpeed windProfile = Thrown
        /\ predictLanding fuel rocketParams
             (FD_object_with_data (rows ++ [Some lastDataPoint]))
             windSpeed windProfile = Thrown)
  /\ (forall flightData landing,
        predictLanding fuel rocketParams flightData windSpeed windProfile = Returned landing ->
        Landing.landingDistance landing = Math.abs (Landing.landingX landing)).
Proof.
  intros selectedParachute.
  assert (Hlast : forall (rows : list (option Point.t)) r, last (rows ++ [r]) None = r)
    by (intros; apply last_last).
  assert (Hcons : forall (rows : list (option Point.t)) r,
             exists a l, rows ++ [r] = a :: l)
    by (intros [|a l] r; cbn; eauto).
  split; [reflexivity|]. split; [reflexivity|]. split; [reflexivity|].
  split; [reflexivity|].
  split.
  { intros rows. unfold predictLanding.
    pose proof (Hlast rows None) as Hl.
    destruct (rows ++ [None]) as [|a l]; [reflexivity|]. rewrite Hl. reflexivity. }
  split.
  { intros [rows|rows|x|]; reflexivity. }
  split.
  { intros rows p Hnan Hsp. unfold predictLanding.
    destruct (Hcons rows (Some p)) as (a & l & Heq).
    pose proof (Hlast rows (Some p)) as Hl. rewrite Heq in *. rewrite Hl.
    rewrite (leb_nan_l _ 0 Hnan).
    fold selectedParachute.
    assert (Hd : exists d, parachuteDiameterOf selectedParachute = Returned d).
    { unfold parachuteDiameterOf. destruct Hsp as [->|[s ->]]; [eauto|].
      destruct (falsy (VString s)); eauto. }
    destruct Hd as [d ->]. cbn [bind descend Descent.currentHeight].
    rewrite (ltb_nan_r 0 _ Hnan). cbn [andb].
    eexists. split; [reflexivity|].
    cbn [Landing.landingX Landing.timeToLanding Landing.isPrediction Descent.currentX].
    split; [reflexivity|]. split; [apply div_nan_l; exact Hnan | reflexivity]. }
  pose proof (fun fd => predictLanding_outcome fuel rocketParams fd windSpeed windProfile)
    as Hshape.
  split.
  { intros fd Hthrown.
    destruct (predictLanding_Thrown _ _ _ _ _ Hthrown)
      as (rows & p & Hfd & Hl & Hair & Hd).
    split; [apply parachuteDiameterOf_Thrown; exact Hd|].
    exists rows, p. auto. }
  split.
  { intros rows p Hair Htruthy Hnostring.
    assert (Hd : parachuteDiameterOf selectedParachute = Thrown)
      by (apply parachuteDiameterOf_Thrown; auto).
    unfold predictLanding.
    destruct (Hcons rows (Some p)) as (a & l & Heq).
    pose proof (Hlast rows (Some p)) as Hl. rewrite Heq in *. rewrite Hl, Hair.
    fold selectedParachute. rewrite Hd. split; reflexivity. }
  intros fd landing Heq. destruct (Hshape fd) as [H|[[H _]|(l & H & Hd)]];
    rewrite H in Heq; try discriminate. injection Heq as <-. exact Hd.
Qed.

End Prediction.

(** A row in the air and a parachute given by its diameter, the number 300,
    where the form has the name of the size: [predictLanding] throws; with the
    name it returns a prediction. *)
Lemma predictLanding_edge_cases_witness :
  @predictLanding Reference.math Reference.conversions 100
    (Some {| lp_weight := 50; lp_bodyWidth := 31; lp_bodyHeight := 255;
             lp_selectedParachute := VNumber 300 |})
    (FD_array ([] ++ [Some Examples.risingRow])) 3 urban
  = Thrown
  /\ exists landing,
       @predictLanding Reference.math Reference.conversions 100
         (Some {| lp_weight := 50; lp_bodyWidth := 31; lp_bodyHeight := 255;
                  lp_selectedParachute := VString (Parachute_name Phi300) |})
         (FD_array ([] ++ [Some Examples.risingRow])) 3 urban
       = Returned landing
       /\ Landing.landingDistance landing = Math.abs (Landing.landingX landing).
Proof.
  split.
  - apply (@predictLanding_edge_cases Reference.math Reference.conversions 100
             (Some {| lp_weight := 50; lp_bodyWidth := 31; lp_bodyHeight := 255;
                      lp_selectedParachute := VNumber 300 |}) 3 urban);
      [vm_compute; reflexivity | vm_compute; reflexivity | intros s H; discriminate].
  - eassert (Hl : @predictLanding Reference.math Reference.conversions 100
                    (Some {| lp_weight := 50; lp_bodyWidth := 31; lp_bodyHeight := 255;
                             lp_selectedParachute := VString (Parachute_name Phi300) |})
                    (FD_array ([] ++ [Some Examples.risingRow])) 3 urban
                  = Returned _) by (vm_compute; reflexivity).
    eexists. split; [exact Hl|].
    apply (@predictLanding_edge_cases Reference.math Reference.conversions 100
             (Some {| lp_weight := 50; lp_bodyWidth := 31; lp_bodyHeight := 255;
                      lp_selectedParachute := VString (Parachute_name Phi300) |})
             3 urban) with (flightData := FD_array ([] ++ [Some Examples.risingRow])).
    exact Hl.
Defined.

Section Wrapper.

Context {M : Math.Impl} {C : Conversions}.

(** A flight never throws: with the fuel it needs it returns a result. *)
Lemma calculateFlightPath_outcome
    (fuel : nat) (rocketParams : RocketParams) (angle windSpeed : float)
    (windProfile : WindProfile) (config : option Config) :
  calculateFlightPath fuel rocketParams angle windSpeed windProfile config = OutOfFuel
  \/ exists r,
       calculateFlightPath fuel rocketParams angle windSpeed windProfile config = Returned r.
Proof.
  unfold calculateFlightPath.
  destruct (environment_Returned rocketParams angle windSpeed windProfile config)
    as [e ->].
  cbn [bind].
  destruct (simulate fuel e (initialState angle)) as [sf|] eqn:Hrun; [|auto].
  destruct (simulate_from_start fuel e angle sf Hrun) as (s1 & Hrec & _ & Hrest).
  destruct (simulate_Recorded _ e s1 sf Hrec Hrest) as ((init & sample & Hdata & _) & _).
  destruct (flightResult_Returned e sf init sample Hdata) as (r & -> & _).
  eauto.
Qed.

Lemma predictLanding_landed
    (fuel : nat) (rocketParams : option LandingParams) (windSpeed : float)
    (windProfile : WindProfile) (init : list Sample.t) (terminal : Sample.t) :
  (Sample.height terminal <=? 0) = true ->
  predictLanding fuel rocketParams
    (FD_array (map (fun p => Some (Point.of_sample p)) (init ++ [terminal])))
    windSpeed windProfile
  = Returned
      {| Landing.landingX := Sample.physicsX terminal;
         Landing.landingDistance := Math.abs (Sample.physicsX terminal);
         Landing.timeToLanding := 0;
         Landing.isPrediction := false |}.
Proof.
  intros Hh. unfold predictLanding. rewrite map_app. cbn [map].
  pose proof (last_last (map (fun p => Some (Point.of_sample p)) init)
                (Some (Point.of_sample terminal)) None) as Hl.
  destruct (map _ init ++ [Some (Point.of_sample terminal)]) as [|a l] eqn:Heq.
  - destruct (map (fun p => Some (Point.of_sample p)) init); discriminate.
  - rewrite Hl. cbn [Point.of_sample Point.height Point.physicsX or_else].
    rewrite Hh. reflexivity.
Qed.

(** The parachute of a design is named by a string, which [replace] accepts. *)
Lemma parachuteDiameterOf_design (rocketParams : RocketParams) :
  parachuteDiameterOf
    (lp_selectedParachute
       (or_else (Some (LandingParams_of rocketParams)) defaultLandingParams))
  <> Thrown.
Proof.
  cbn [or_else LandingParams_of lp_selectedParachute].
  destruct (selectedParachute rocketParams); discriminate.
Qed.

(** The wrapper [calculateFlightPathWithLanding] never takes its [catch]
    branch: it does not throw, and returns neither the bare empty object nor
    the flight without a landing.  For
    a flight whose last sample is on or below the ground it returns the flight
    itself with a landing that is no prediction: at the last sample's
    horizontal position, 0 s away, the total flight time being the last
    sample's time. *)
Theorem landed_flight_needs_no_prediction
    (fuel landingFuel : nat) (rocketParams : RocketParams) (angle windSpeed : float)
    (windProfile : WindProfile) (config : option Config) :
  calculateFlightPathWithLanding fuel landingFuel rocketParams angle windSpeed
    windProfile config <> Thrown
  /\ calculateFlightPathWithLanding fuel landingFuel rocketParams angle windSpeed
       windProfile config <> Returned Launch.Empty
  /\ (forall again,
        calculateFlightPathWithLanding fuel landingFuel rocketParams angle windSpeed
          windProfile config <> Returned (Launch.FlightOnly again))
  /\ forall r init terminal,
       calculateFlightPath fuel rocketParams angle windSpeed windProfile config
       = Returned r ->
       FlightResult.data r = init ++ [terminal] ->
       (Sample.height terminal <=? 0) = true ->
       calculateFlightPathWithLanding fuel landingFuel rocketParams angle windSpeed
         windProfile config
       = Returned
           (Launch.WithLanding r
              {| Landing.landingX := Sample.physicsX terminal;
                 Landing.landingDistance := Math.abs (Sample.physicsX terminal);
                 Landing.timeToLanding := 0;
                 Landing.isPrediction := false |}
              (Sample.time terminal)
              {| Launch.time := Sample.time terminal + 0;
                 Launch.distance := Math.abs (Sample.physicsX terminal);
                 Launch.x := Sample.physicsX terminal;
                 Launch.totalFlightTime := Sample.time terminal |}).
Proof.
  assert (Hbody : forall r,
            calculateFlightPath fuel rocketParams angle windSpeed windProfile config
            = Returned r ->
            calculateFlightPathWithLanding fuel landingFuel rocketParams angle windSpeed
              windProfile config <> Thrown
            /\ calculateFlightPathWithLanding fuel landingFuel rocketParams angle
                 windSpeed windProfile config <> Returned Launch.Empty
            /\ forall again,
                 calculateFlightPathWithLanding fuel landingFuel rocketParams angle
                   windSpeed windProfile config <> Returned (Launch.FlightOnly again)).
  { intros r Hr. unfold calculateFlightPathWithLanding. rewrite Hr.
    destruct (predictLanding_outcome landingFuel (Some (LandingParams_of rocketParams))
                (FD_array (map (fun p => Some (Point.of_sample p)) (FlightResult.data r)))
                windSpeed windProfile) as [H|[[_ H]|(l & H & _)]].
    - rewrite H. repeat split; try intros again; discriminate.
    - exfalso. exact (parachuteDiameterOf_design rocketParams H).
    - rewrite H. repeat split; try intros again; discriminate. }
  destruct (calculateFlightPath_outcome fuel rocketParams angle windSpeed windProfile config)
    as [Hout|[r Hr]].
  - unfold calculateFlightPathWithLanding. rewrite Hout.
    split; [discriminate|]. split; [discriminate|].
    split; [intros again; discriminate|]. intros; discriminate.
  - destruct (Hbody r Hr) as (H1 & H2 & H3).
    split; [exact H1|]. split; [exact H2|]. split; [exact H3|].
    intros r' init terminal Hr' Hdata Hh. rewrite Hr in Hr'. injection Hr' as <-.
    unfold calculateFlightPathWithLanding. rewrite Hr, Hdata.
    rewrite (predictLanding_landed landingFuel _ windSpeed windProfile init terminal Hh).
    rewrite map_app. cbn [map]. rewrite last_last. rewrite Hh. reflexivity.
Qed.

End Wrapper.

Section Torque.

Context {M : Math.Impl} {C : Conversions}.

(** The torque block of a free-flight iteration assigns the raw sum of the
    moments limited to [[-1, 1]], unless it aborts the run. *)
Lemma freeFlightTorque_shape (m : Moments) :
  invalidMoment m = false ->
  freeFlightTorque m
  = (if TORQUE_THRESHOLD <? Math.abs (rawTorque m) then TorqueAbort
     else TorqueValue (Math.max (-1) (Math.min 1 (rawTorque m)))).
Proof. intros H. unfold freeFlightTorque. rewrite H. reflexivity. Qed.

Lemma clamped_torque_range (x : float) :
  (1 <? Math.max (-1) (Math.min 1 x)) = false
  /\ (Math.max (-1) (Math.min 1 x) <? -1) = false.
Proof.
  destruct (is_nan x) eqn:Hn.
  - assert (Hc : is_nan (Math.max (-1) (Math.min 1 x)) = true)
      by (rewrite Math_max_nan, Math_min_nan, Hn, Bool.orb_true_r; reflexivity).
    split; [apply ltb_nan_r | apply ltb_nan_l]; exact Hc.
  - destruct (clamp_in_range (-1) 1 x eq_refl Hn) as [Hl Hh].
    split; apply leb_not_ltb; assumption.
Qed.

(** The torque with which a free-flight iteration, or one on the rail, leaves
    the force computation. *)
Lemma forces_torque (e : Env.t) (s : St.t) (fo : ForceOut) :
  ph_isParachuteActive (updateParachute e s) = false ->
  ph_isParachuteEjected (updateParachute e s) = false ->
  forces e s (updateParachute e s) (locals e s) = ForceOk fo ->
  let blockTorque :=
    if reachesTorqueBlock e s
    then Math.max (-1) (Math.min 1 (rawTorque (stepMoments e s))) else 0 in
  fo_torque fo
  = (if negb (St.time s <? Env.thrustEndTime e)
        && ((Math.abs (Env.angle e) =? 4) || (Math.abs (Env.angle e) =? 18))
     then blockTorque * 1.2 else blockTorque)
  /\ (reachesTorqueBlock e s = true ->
      (TORQUE_THRESHOLD <? Math.abs (rawTorque (stepMoments e s))) = false).
Proof.
  intros Ha Hj. unfold forces, reachesTorqueBlock, stepMoments.
  rewrite Ha, Hj. cbn [andb negb].
  pose proof (moments_valid e (velocity (locals e s)) (adjustedOmega (locals e s))
                (Math.atan2 (St.vx s) (St.vy s)) (effectiveWindSpeed (locals e s))
                (isCurrentlyZeroWind (locals e s))) as Hvalid.
  rewrite (freeFlightTorque_shape _ Hvalid).
  assert (Hzero : 0 * 1.2 = 0) by (vm_compute; reflexivity).
  destruct (St.time s <? Env.thrustEndTime e); cbn [negb andb].
  - destruct (onLaunchRail (locals e s)); cbn [negb andb].
    + destruct (Env.angle e =? 0); destruct (accelerations _ _ _);
        intros H; injection H as <-; (split; [reflexivity | discriminate]).
    + destruct (1.0 <? velocity (locals e s)).
      * destruct (TORQUE_THRESHOLD <? _); [discriminate|].
        destruct (accelerations _ _ _); intros H; injection H as <-.
        split; reflexivity.
      * destruct (accelerations _ _ _); intros H; injection H as <-.
        split; [reflexivity | discriminate].
  - destruct (0.5 <? velocity (locals e s)).
    + destruct (TORQUE_THRESHOLD <? _); [discriminate|].
      destruct (accelerations _ _ _); intros H; injection H as <-.
      split; reflexivity.
    + destruct (accelerations _ _ _); intros H; injection H as <-.
      split; [|discriminate]. cbn [fo_torque].
      destruct (_ || _); [rewrite Hzero|]; reflexivity.
Qed.

(** The torque of a free-flight iteration.  The four moments the loop computes
    are always finite, so the branch that logs an invalid moment and sets the
    torque to 0 is never taken: the torque block assigns the raw sum
    ML + MD + MW + MF limited to [[-1, 1]], unless the magnitude of the raw sum
    is above 10 and the run is aborted; what it assigns is never above 1 or
    below -1, and it is 0 when the wind at the rocket's height is below
    0.1 m/s.  The torque of the iteration, which the sample records, is that
    value, 0 when the block does not run, and in coasting flight at a launch
    angle of 4 or 18 degrees (of either sign) 1.2 times it: there a sample's
    torque reaches 1.2 in magnitude. *)
Theorem free_flight_torque_is_clamped
    (e : Env.t) (velocity adjustedOmega flightAngle effectiveWindSpeed : float)
    (isCurrentlyZeroWind : bool) :
  let m := moments e velocity adjustedOmega flightAngle effectiveWindSpeed
             isCurrentlyZeroWind in
  invalidMoment m = false
  /\ freeFlightTorque m
     = (if TORQUE_THRESHOLD <? Math.abs (rawTorque m) then TorqueAbort
        else TorqueValue (Math.max (-1) (Math.min 1 (rawTorque m))))
  /\ (forall torque, freeFlightTorque m = TorqueValue torque ->
                     (1 <? torque) = false /\ (torque <? -1) = false)
  /\ (isCurrentlyZeroWind = true -> freeFlightTorque m = TorqueValue 0)
  /\ (forall s s',
        step e s = Next s' ->
        ph_isParachuteActive (updateParachute e s) = false ->
        ph_isParachuteEjected (updateParachute e s) = false ->
        let blockTorque :=
          if reachesTorqueBlock e s
          then Math.max (-1) (Math.min 1 (rawTorque (stepMoments e s))) else 0 in
        (1 <? blockTorque) = false
        /\ (blockTorque <? -1) = false
        /\ exists sample,
             St.data s' = St.data s ++ [sample]
             /\ Sample.torque sample
                = (if negb (St.time s <? Env.thrustEndTime e)
                      && ((Math.abs (Env.angle e) =? 4) || (Math.abs (Env.angle e) =? 18))
                   then blockTorque * 1.2 else blockTorque)).
Proof.
  cbv zeta.
  set (m := moments e velocity adjustedOmega flightAngle effectiveWindSpeed
              isCurrentlyZeroWind).
  assert (Hvalid : invalidMoment m = false) by apply moments_valid.
  pose proof (freeFlightTorque_shape m Hvalid) as Hshape.
  split; [exact Hvalid|]. split; [exact Hshape|]. split; [|split].
  - intros torque Ht. rewrite Hshape in Ht.
    destruct (TORQUE_THRESHOLD <? Math.abs (rawTorque m)); [discriminate|].
    injection Ht as <-. apply clamped_torque_range.
  - intros ->. subst m. reflexivity.
  - intros s s' Hstep Ha Hj.
    split; [|split].
    + destruct (reachesTorqueBlock e s); [apply clamped_torque_range | reflexivity].
    + destruct (reachesTorqueBlock e s); [apply clamped_torque_range | reflexivity].
    + unfold step in Hstep.
      destruct (forces e s (updateParachute e s) (locals e s)) as [a c f k|fo] eqn:Hf;
        [discriminate|].
      destruct (forces_torque e s fo Ha Hj Hf) as [Ht _].
      apply Next_inj in Hstep. subst s'.
      eexists. split; [reflexivity|]. cbn [Sample.torque]. exact Ht.
Qed.

Lemma step_Next_window (e : Env.t) (s s' : St.t) :
  step e s = Next s' ->
  exists p,
    St.data s' = St.data s ++ [p]
    /\ Sample.angleChangePerDt2 p
       = (if 0 <? array_length (St.angleChangeBuffer s')
          then sum_from_zero (St.angleChangeBuffer s') else 0).
Proof.
  unfold step.
  destruct (forces e s (updateParachute e s) (locals e s)); intros H;
    [discriminate | apply Next_inj in H; subst s'].
  eexists. split; reflexivity.
Qed.

(** The rolling window of angle changes along a run: after any number of
    iterations the buffer holds at most ten entries, and the sample recorded
    last carries, as [angleChangePerDt2], the sum of the buffer as it is then
    (0 while the buffer is empty). *)
Theorem angle_window_holds_ten (n : nat) (e : Env.t) (angle : float) (s : St.t) :
  iterations n e (initialState angle) = Some s ->
  (List.length (St.angleChangeBuffer s) <= 10)%nat
  /\ (St.data s = []
      \/ exists earlier p,
           St.data s = earlier ++ [p]
           /\ Sample.angleChangePerDt2 p
              = (if 0 <? array_length (St.angleChangeBuffer s)
                 then sum_from_zero (St.angleChangeBuffer s) else 0)).
Proof.
  assert (Hstart : (List.length (St.angleChangeBuffer (initialState angle)) <= 10)%nat
                   /\ (St.data (initialState angle) = []
                       \/ exists earlier p,
                            St.data (initialState angle) = earlier ++ [p]
                            /\ Sample.angleChangePerDt2 p
                               = (if 0 <? array_length
                                            (St.angleChangeBuffer (initialState angle))
                                  then sum_from_zero
                                         (St.angleChangeBuffer (initialState angle))
                                  else 0)))
    by (split; [cbn; lia | left; reflexivity]).
  revert Hstart. generalize (initialState angle) as s0. revert s.
  induction n as [|n IH]; intros s s0 Hs0 Hrun.
  - injection Hrun as <-. exact Hs0.
  - rewrite iterations_S in Hrun.
    destruct (loopCondition s0); [|discriminate].
    destruct (step e s0) as [sb|s1] eqn:Hstep; [discriminate|].
    apply (IH s s1); [|exact Hrun].
    destruct Hs0 as [H _].
    destruct (step_Next_bounds e s0 s1 Hstep) as (_ & _ & _ & _ & Hw).
    destruct (step_Next_window e s0 s1 Hstep) as (p0 & Hd & Hsum).
    split; [auto|]. right. exists (St.data s0), p0. auto.
Qed.

End Torque.

(** The large-fin design launched at 4 degrees into a 2 m/s urban wind: in
    the 41st iteration, a coasting one, the torque block assigns -1 and the
    sample records -1.2. *)
Lemma free_flight_torque_is_clamped_witness :
  exists e s s' sample,
    @environment Reference.math Reference.conversions
      Examples.largeFinRocketFlown 4 2 urban None = Returned e
    /\ @iterations Reference.math Reference.conversions 40 e (initialState 4) = Some s
    /\ @step Reference.math Reference.conversions e s = Next s'
    /\ St.data s' = St.data s ++ [sample]
    /\ Math.max (-1) (Math.min 1
         (rawTorque (@stepMoments Reference.math Reference.conversions e s))) = -1
    /\ Sample.torque sample = -1.2.
Proof.
  eassert (He : @environment Reference.math Reference.conversions
                  Examples.largeFinRocketFlown 4 2 urban None = Returned _)
    by (vm_compute; reflexivity).
  match type of He with _ = Returned ?v => set (e := v) in He end.
  eassert (Hs : @iterations Reference.math Reference.conversions 40 e (initialState 4)
                = Some _) by (vm_compute; reflexivity).
  match type of Hs with _ = Some ?v => set (s := v) in Hs end.
  eassert (Hstep : @step Reference.math Reference.conversions e s = Next _)
    by (vm_compute; reflexivity).
  match type of Hstep with _ = Next ?v => set (s' := v) in Hstep end.
  destruct (@free_flight_torque_is_clamped Reference.math Reference.conversions
              e 0 0 0 0 false) as (_ & _ & _ & _ & Hsample).
  destruct (Hsample s s' Hstep) as (_ & _ & sample & Hdata & Htorque);
    [vm_compute; reflexivity | vm_compute; reflexivity |].
  exists e, s, s', sample.
  split; [exact He|]. split; [exact Hs|]. split; [exact Hstep|].
  split; [exact Hdata|]. split; [vm_compute; reflexivity|].
  rewrite Htorque. vm_compute. reflexivity.
Defined.

Lemma angle_window_holds_ten_witness :
  exists e s,
    @environment Reference.math Reference.conversions
      Examples.defaultRocket 0 0 uniform None = Returned e
    /\ @iterations Reference.math Reference.conversions 60 e (initialState 0) = Some s
    /\ (List.length (St.angleChangeBuffer s) <= 10)%nat.
Proof.
  eassert (He : @environment Reference.math Reference.conversions
                  Examples.defaultRocket 0 0 uniform None = Returned _)
    by (vm_compute; reflexivity).
  match type of He with _ = Returned ?v => set (e := v) in He end.
  eassert (Hs : @iterations Reference.math Reference.conversions 60 e (initialState 0)
                = Some _) by (vm_compute; reflexivity).
  match type of Hs with _ = Some ?v => set (s := v) in Hs end.
  exists e, s. split; [exact He|]. split; [exact Hs|].
  apply (@angle_window_holds_ten Reference.math Reference.conversions 60 e 0 s Hs).
Defined.

Section Apogee.

Context {M : Math.Impl} {C : Conversions}.

Lemma updateParachute_keeps_the_apogee (e : Env.t) (s : St.t) :
  KeyPoints.maxHeight (ph_keyPoints (updateParachute e s))
  = KeyPoints.maxHeight (St.keyPoints s).
Proof.
  unfold updateParachute.
  destruct (negb (St.isParachuteActive s) && (Env.parachuteActiveTime e <=? St.time s));
    destruct (negb (St.isParachuteEjected s) && (Env.parachuteEjectionTime e <=? St.time s));
    reflexivity.
Qed.

Lemma forces_keep_the_apogee (e : Env.t) (s : St.t) (ph : Phase) (l : Locals) :
  match forces e s ph l with
  | ForceAbort _ _ _ keyPoints =>
      KeyPoints.maxHeight keyPoints = KeyPoints.maxHeight (ph_keyPoints ph)
  | ForceOk fo =>
      KeyPoints.maxHeight (fo_keyPoints fo) = KeyPoints.maxHeight (ph_keyPoints ph)
  end.
Proof.
  unfold forces.
  destruct (ph_isParachuteActive ph).
  { destruct (accelerations _ _ _). reflexivity. }
  destruct (ph_isParachuteEjected ph && negb false).
  { destruct (accelerations _ _ _). reflexivity. }
  destruct (St.time s <? Env.thrustEndTime e).
  - destruct (onLaunchRail l).
    + destruct (Env.angle e =? 0); destruct (accelerations _ _ _); reflexivity.
    + destruct (1.0 <? velocity l).
      * destruct (freeFlightTorque _); [reflexivity|].
        destruct (accelerations _ _ _); reflexivity.
      * destruct (accelerations _ _ _); reflexivity.
  - destruct (0.5 <? velocity l).
    + destruct (freeFlightTorque _);
        [|destruct (accelerations _ _ _)];
        destruct (negb (St.thrustEndFlag s)); reflexivity.
    + destruct (accelerations _ _ _); destruct (negb (St.thrustEndFlag s)); reflexivity.
Qed.

(** How an iteration moves the key point of the maximum height. *)
Lemma step_apogee (e : Env.t) (s s' : St.t) :
  (step e s = Break s' ->
   KeyPoints.maxHeight (St.keyPoints s') = KeyPoints.maxHeight (St.keyPoints s))
  /\ (step e s = Next s' ->
      exists p,
        St.data s' = St.data s ++ [p]
        /\ Sample.height p = St.y s'
        /\ ((St.maxHeight s <? St.y s') = false ->
            KeyPoints.maxHeight (St.keyPoints s') = KeyPoints.maxHeight (St.keyPoints s))
        /\ ((St.maxHeight s <? St.y s') = true ->
            KeyPoints.maxHeight (St.keyPoints s')
            = {| KeyPoint.time := Sample.time p;
                 KeyPoint.height := Sample.height p;
                 KeyPoint.speed := Sample.vy p |})).
Proof.
  pose proof (forces_keep_the_apogee e s (updateParachute e s) (locals e s)) as Hf.
  rewrite updateParachute_keeps_the_apogee in Hf.
  unfold step.
  destruct (forces e s (updateParachute e s) (locals e s)) as [a c f k|fo]; split;
    intros H; try discriminate.
  - injection H as <-. exact Hf.
  - apply Next_inj in H. subst s'. eexists. split; [reflexivity|].
    split; [reflexivity|].
    cbn [St.keyPoints St.y St.maxHeight Sample.time Sample.height Sample.vy].
    split; intros Hrise; rewrite Hrise.
    + destruct (St.prec_MaxHeight s <? _); exact Hf.
    + reflexivity.
Qed.

(** The key point of the maximum height is a recorded sample: its height is
    the flight's [maxHeight], and unless it still is the point (0, 0, 0) of
    before the launch, some sample of the trajectory has its time, its height
    and its vertical speed. *)
Theorem apogee_key_point_is_a_sample
    (fuel : nat) (rocketParams : RocketParams) (angle windSpeed : float)
    (windProfile : WindProfile) (config : option Config) (r : FlightResult.t) :
  calculateFlightPath fuel rocketParams angle windSpeed windProfile config = Returned r ->
  KeyPoint.height (KeyPoints.maxHeight (FlightResult.keyPoints r)) = FlightResult.maxHeight r
  /\ (KeyPoints.maxHeight (FlightResult.keyPoints r) = KeyPoint.zero
      \/ exists p,
           In p (FlightResult.data r)
           /\ Sample.time p = KeyPoint.time (KeyPoints.maxHeight (FlightResult.keyPoints r))
           /\ Sample.height p = FlightResult.maxHeight r
           /\ Sample.vy p = KeyPoint.speed (KeyPoints.maxHeight (FlightResult.keyPoints r))).
Proof.
  intros Hr.
  destruct (calculateFlightPath_stages _ _ _ _ _ _ _ Hr) as (e & sf & _ & Hrun & Hres).
  destruct (flightResult_fields e sf r Hres) as (-> & _ & -> & _ & _ & -> & _).
  set (apogee := fun s : St.t => KeyPoints.maxHeight (St.keyPoints s)).
  set (P := fun s : St.t =>
              KeyPoint.height (apogee s) = St.maxHeight s
              /\ (apogee s = KeyPoint.zero
                  \/ exists p, In p (St.data s)
                               /\ Sample.time p = KeyPoint.time (apogee s)
                               /\ Sample.height p = St.maxHeight s
                               /\ Sample.vy p = KeyPoint.speed (apogee s))).
  apply (simulate_invariant P e) with (fuel := fuel) (s := initialState angle);
    [| | |exact Hrun].
  - intros s s' _ (Hh & Hp) Hstep.
    destruct (step_apogee e s s') as [_ Hnext].
    destruct (Hnext Hstep) as (p & Hd & Hy & Hsame & Hnew).
    destruct (step_Next_record e s s' Hstep)
      as (p' & Hd' & _ & _ & _ & _ & _ & _ & _ & _ & Hmh & _).
    unfold P, apogee in *. rewrite Hd, Hmh.
    destruct (St.maxHeight s <? St.y s') eqn:Hrise.
    + rewrite (Hnew eq_refl). cbn [KeyPoint.height KeyPoint.time KeyPoint.speed].
      split; [exact Hy|]. right. exists p.
      split; [apply in_or_app; right; left; reflexivity|]. auto.
    + rewrite (Hsame eq_refl). split; [exact Hh|].
      destruct Hp as [Hz|(q & Hq & Hq')]; [auto|].
      right. exists q. split; [apply in_or_app; auto | exact Hq'].
  - intros s s' _ HP Hstep.
    destruct (step_apogee e s s') as [Hbreak _].
    destruct (step_Break_record e s s' Hstep) as (Hd & Hmh & _).
    unfold P, apogee in *. rewrite (Hbreak Hstep), Hd, Hmh. exact HP.
  - unfold P, apogee. cbn. auto.
Qed.

End Apogee.

(** The default design, launched at 30 degrees into a 5 m/s urban wind, on a
    parameter object that holds [finCp]: the key point of the apogee, at
    2.86 s, is one of the flight's samples. *)
Lemma apogee_key_point_is_a_sample_witness :
  exists r p,
    @calculateFlightPath Reference.math Reference.conversions
      1002 Examples.defaultRocketFlown 30 5 urban None = Returned r
    /\ (2.85 <? KeyPoint.time (KeyPoints.maxHeight (FlightResult.keyPoints r))) = true
    /\ KeyPoint.height (KeyPoints.maxHeight (FlightResult.keyPoints r))
       = FlightResult.maxHeight r
    /\ In p (FlightResult.data r)
    /\ Sample.time p = KeyPoint.time (KeyPoints.maxHeight (FlightResult.keyPoints r))
    /\ Sample.height p = FlightResult.maxHeight r
    /\ Sample.vy p = KeyPoint.speed (KeyPoints.maxHeight (FlightResult.keyPoints r)).
Proof.
  eassert (He : @calculateFlightPath Reference.math Reference.conversions
                  1002 Examples.defaultRocketFlown 30 5 urban None = Returned _)
    by (vm_compute; reflexivity).
  match type of He with _ = Returned ?v => set (r := v) in He end.
  assert (Ht : (2.85 <? KeyPoint.time (KeyPoints.maxHeight (FlightResult.keyPoints r)))
               = true) by (vm_compute; reflexivity).
  destruct (@apogee_key_point_is_a_sample Reference.math Reference.conversions
              _ _ _ _ _ _ _ He) as (Hheight & [Hzero|(p & Hin & Htime & Hh & Hv)]);
    [rewrite Hzero in Ht; vm_compute in Ht; discriminate|].
  exists r, p.
  split; [exact He|]. split; [exact Ht|]. split; [exact Hheight|]. split; [exact Hin|].
  split; [exact Htime|]. split; [exact Hh | exact Hv].
Defined.

Section Thrust.

Context {M : Math.Impl} {C : Conversions}.

(** A powered iteration adds [thrustAt] to the thrust it accumulates. *)
Lemma forces_reads_thrustAt (e : Env.t) (s : St.t) (fo : ForceOut) :
  ph_isParachuteActive (updateParachute e s) = false ->
  ph_isParachuteEjected (updateParachute e s) = false ->
  (St.time s <? Env.thrustEndTime e) = true ->
  forces e s (updateParachute e s) (locals e s) = ForceOk fo ->
  fo_avgThrustForTorque fo
  = St.avgThrustForTorque s + thrustAt (Env.thrustData e) (St.time s).
Proof.
  intros Ha Hj Hburn. unfold forces. rewrite Ha, Hj, Hburn. cbn [andb].
  fold (thrustAt (Env.thrustData e) (St.time s)).
  destruct (onLaunchRail (locals e s)).
  - destruct (Env.angle e =? 0); destruct (accelerations _ _ _);
      intros H; injection H as <-; reflexivity.
  - destruct (1.0 <? velocity (locals e s)).
    + destruct (freeFlightTorque _); [discriminate|].
      destruct (accelerations _ _ _); intros H; injection H as <-; reflexivity.
    + destruct (accelerations _ _ _); intros H; injection H as <-; reflexivity.
Qed.

End Thrust.

(** A property of the first numbers, checked on each of them. *)
Lemma checked_below (P : nat -> bool) (bound : nat) :
  forallb P (seq 0 (S bound)) = true -> forall n, (n <= bound)%nat -> P n = true.
Proof.
  intros H n Hn. rewrite forallb_forall in H. apply H. apply in_seq. lia.
Qed.

(** The thrust curve is not read one sample per iteration.  For each of the
    three motors the iterations with a clock below the end of thrust are,
    among the 1001 iterations a run can have, the first ones, as many as the
    curve has samples; iteration [n] of them reads sample [n], except
    iterations 10 to 14, whose clock (0.19999999999999998 s, ...) divided by
    dt lies just below 10, ..., 14, and which read samples 9 to 13: sample 9
    is read twice and sample 14 never. *)
Theorem thrust_curve_sampling (motor : Motor) :
  exists thrustData,
    MOTOR_THRUST_DATA (Motor_name motor) = Some thrustData
    /\ (forall n, (n <= 1000)%nat ->
          (clockAfter n <? array_length thrustData * dt)
          = Nat.ltb n (List.length thrustData))
    /\ (forall n, (n < List.length thrustData)%nat ->
          thrustAt thrustData (clockAfter n)
          = nth (if Nat.leb 10 n && Nat.leb n 14 then n - 1 else n)%nat thrustData nan)
    /\ thrustAt thrustData (clockAfter 9) = thrustAt thrustData (clockAfter 10)
    /\ forall n, (n < List.length thrustData)%nat ->
         (if Nat.leb 10 n && Nat.leb n 14 then n - 1 else n)%nat <> 14%nat.
Proof.
  destruct motor; eexists; (split; [vm_compute; reflexivity|]).
  all: split;
    [intros n Hn;
     match goal with
     | |- (clockAfter n <? ?c) = Nat.ltb n ?l =>
         apply (checked_below
                  (fun n => Bool.eqb (clockAfter n <? c) (Nat.ltb n l)) 1000
                  ltac:(vm_compute; reflexivity)) in Hn
     end;
     apply Bool.eqb_prop in Hn; exact Hn|].
  all: split;
    [intros n Hn; cbn [List.length] in Hn;
     do 35 (destruct n as [|n]; [try lia; vm_compute; reflexivity|]); lia|].
  all: split; [vm_compute; reflexivity|].
  all: intros n Hn; cbn [List.length] in Hn;
    do 35 (destruct n as [|n]; [try lia; vm_compute; discriminate|]); lia.
Qed.

(** ** The helpers outside the loop *)

(** [applyWindDirectionAngleLimit] clamps the attitude at a quarter turn into
    the wind: in a wind of +0.5 m/s or more the result is never above pi/2 and
    an attitude of at most pi/2 is returned unchanged; in a wind of -0.5 m/s or
    less the same holds at -pi/2; below 0.5 m/s, and for a wind that is NaN,
    the attitude is returned unchanged; and limiting twice is limiting once. *)
Theorem wind_angle_limit_clamps (omega windSpeed : float) :
  ((0.5 <=? windSpeed) = true ->
   (Math.PI / 2 <? applyWindDirectionAngleLimit omega windSpeed) = false
   /\ ((Math.PI / 2 <? omega) = false ->
       applyWindDirectionAngleLimit omega windSpeed = omega)
   /\ ((Math.PI / 2 <? omega) = true ->
       applyWindDirectionAngleLimit omega windSpeed = Math.PI / 2))
  /\ ((windSpeed <=? -0.5) = true ->
      (applyWindDirectionAngleLimit omega windSpeed <? - (Math.PI / 2)) = false
      /\ ((omega <? - (Math.PI / 2)) = false ->
          applyWindDirectionAngleLimit omega windSpeed = omega)
      /\ ((omega <? - (Math.PI / 2)) = true ->
          applyWindDirectionAngleLimit omega windSpeed = - (Math.PI / 2)))
  /\ ((Math.abs windSpeed <? 0.5) = true \/ is_nan windSpeed = true ->
      applyWindDirectionAngleLimit omega windSpeed = omega)
  /\ applyWindDirectionAngleLimit (applyWindDirectionAngleLimit omega windSpeed) windSpeed
     = applyWindDirectionAngleLimit omega windSpeed.
Proof.
  assert (Hpos : (0.5 <=? windSpeed) = true ->
                 (Math.abs windSpeed <? 0.5) = false
                 /\ (0 <? windSpeed) = true /\ (windSpeed <? 0) = false
                 /\ Math.sign windSpeed * Math.PI / 2 = Math.PI / 2).
  { intros H.
    assert (H0 : (0 <? windSpeed) = true)
      by (apply (ltb_leb_trans 0 0.5 windSpeed); [reflexivity | exact H]).
    split.
    { destruct (Math.abs windSpeed <? 0.5) eqn:Ha; [|reflexivity].
      destruct (abs_below _ _ Ha) as [Hb _].
      rewrite (leb_not_ltb _ _ H) in Hb. discriminate. }
    split; [exact H0|]. split; [apply ltb_asym; exact H0|].
    unfold Math.sign. destruct (ltb_not_nan _ _ H0) as [_ ->]. rewrite H0. reflexivity. }
  assert (Hneg : (windSpeed <=? -0.5) = true ->
                 (Math.abs windSpeed <? 0.5) = false
                 /\ (0 <? windSpeed) = false /\ (windSpeed <? 0) = true
                 /\ Math.sign windSpeed * Math.PI / 2 = - (Math.PI / 2)).
  { intros H.
    assert (H0 : (windSpeed <? 0) = true)
      by (apply (leb_ltb_trans windSpeed (-0.5) 0); [exact H | reflexivity]).
    split.
    { destruct (Math.abs windSpeed <? 0.5) eqn:Ha; [|reflexivity].
      destruct (abs_below _ _ Ha) as [_ Hb].
      change (PrimFloat.opp 0.5) with (-0.5) in Hb.
      rewrite (leb_not_ltb _ _ H) in Hb. discriminate. }
    split; [apply ltb_asym; exact H0|]. split; [exact H0|].
    unfold Math.sign. destruct (ltb_not_nan _ _ H0) as [-> _].
    rewrite (ltb_asym _ _ H0), H0. reflexivity. }
  assert (Hup : forall o, (Math.PI / 2 <? o) = true -> (0 <? o) = true)
    by (intros o H; apply (ltb_trans 0 (Math.PI / 2) o); [reflexivity | exact H]).
  assert (Hdown : forall o, (o <? - (Math.PI / 2)) = true -> (o <? 0) = true)
    by (intros o H; apply (ltb_trans o (- (Math.PI / 2)) 0); [exact H | reflexivity]).
  assert (Hcalm : (Math.abs windSpeed <? 0.5) = true \/ is_nan windSpeed = true ->
                  forall o, applyWindDirectionAngleLimit o windSpeed = o).
  { intros [H|H] o; unfold applyWindDirectionAngleLimit.
    - rewrite H. reflexivity.
    - destruct (Math.abs windSpeed <? 0.5); [reflexivity|].
      rewrite (ltb_nan_r 0 windSpeed H).
      assert (Hl : (windSpeed <? 0) = false).
      { rewrite ltb_compare. rewrite is_nan_Prim2SF in H.
        destruct (Prim2SF windSpeed); try discriminate. reflexivity. }
      rewrite Hl. reflexivity. }
  assert (Hplus : (0.5 <=? windSpeed) = true -> forall o,
             applyWindDirectionAngleLimit o windSpeed
             = if Math.PI / 2 <? o then Math.PI / 2 else o).
  { intros H o. destruct (Hpos H) as (Ha & Hp & Hn & Hl).
    unfold applyWindDirectionAngleLimit. rewrite Ha, Hl, Hp, Hn. cbn [andb orb].
    destruct (Math.PI / 2 <? o) eqn:Ho.
    - rewrite (Hup o Ho). reflexivity.
    - destruct (0 <? o); reflexivity. }
  assert (Hminus : (windSpeed <=? -0.5) = true -> forall o,
             applyWindDirectionAngleLimit o windSpeed
             = if o <? - (Math.PI / 2) then - (Math.PI / 2) else o).
  { intros H o. destruct (Hneg H) as (Ha & Hp & Hn & Hl).
    unfold applyWindDirectionAngleLimit. rewrite Ha, Hl, Hp, Hn.
    cbn [andb orb]. rewrite Bool.orb_false_r.
    destruct (o <? - (Math.PI / 2)) eqn:Ho.
    - rewrite (Hdown o Ho). reflexivity.
    - destruct (o <? 0); reflexivity. }
  split; [|split; [|split]].
  - intros H. rewrite (Hplus H). split; [|split].
    + destruct (Math.PI / 2 <? omega) eqn:Ho; [apply ltb_irrefl | exact Ho].
    + intros ->. reflexivity.
    + intros ->. reflexivity.
  - intros H. rewrite (Hminus H). split; [|split].
    + destruct (omega <? - (Math.PI / 2)) eqn:Ho; [apply ltb_irrefl | exact Ho].
    + intros ->. reflexivity.
    + intros ->. reflexivity.
  - intros H. apply Hcalm. exact H.
  - assert (Hcases :
      applyWindDirectionAngleLimit omega windSpeed = omega
      \/ (applyWindDirectionAngleLimit omega windSpeed
          = Math.sign windSpeed * Math.PI / 2
          /\ (Math.abs windSpeed <? 0.5) = false)).
    { unfold applyWindDirectionAngleLimit.
      destruct (Math.abs windSpeed <? 0.5); [auto|].
      destruct (_ || _); [|auto]. destruct (_ || _); auto. }
    destruct Hcases as [H|[H Ha]]; [rewrite !H; reflexivity|]. rewrite H.
    unfold applyWindDirectionAngleLimit. rewrite Ha, !ltb_irrefl, !Bool.andb_false_r.
    cbn [orb]. destruct (_ || _); reflexivity.
Qed.

Section ThrustMoment.

Lemma abs_abs (x : float) : abs (abs x) = abs x.
Proof.
  apply Prim2SF_inj. rewrite !FloatAxioms.abs_spec. destruct (Prim2SF x); reflexivity.
Qed.

Lemma abs_opp (x : float) : abs (- x) = abs x.
Proof.
  apply Prim2SF_inj. rewrite !FloatAxioms.abs_spec, FloatAxioms.opp_spec.
  destruct (Prim2SF x); reflexivity.
Qed.

Lemma sign_of_positive (x : float) : (0 <? x) = true -> Math.sign x = 1.
Proof.
  intros H. unfold Math.sign. destruct (ltb_not_nan _ _ H) as [_ ->]. rewrite H.
  reflexivity.
Qed.

Lemma opp_of_positive (x : float) : (0 <? x) = true -> (- x <? 0) = true.
Proof.
  rewrite !ltb_compare, FloatAxioms.opp_spec.
  change (Prim2SF 0) with (S754_zero false).
  destruct (Prim2SF x) as [sx|sx| |sx mx ex]; simpl; intros H; try discriminate;
    destruct sx; try discriminate; reflexivity.
Qed.

Lemma sign_of_negative (x : float) : (x <? 0) = true -> Math.sign x = -1.
Proof.
  intros H. unfold Math.sign. destruct (ltb_not_nan _ _ H) as [-> _].
  rewrite (ltb_asym _ _ H), H. reflexivity.
Qed.

Context {M : Math.Impl}.

(** [calculateThrustMoment] has a floor of 0.00001 on the magnitude of a
    moment that is not zero.  With the magnitude
    |thrust sin(a) cos(a) (thrustPosition - centerOfGravity) 0.001| of the
    moment and its sign, positive when the thrust position is at or behind the
    centre of gravity and the angle of attack negative, or in front of it and
    the angle not negative: a magnitude strictly between 0 and 0.00001 is
    replaced by 0.00001, with the sign kept; every other magnitude, 0 and NaN
    included, is returned with its sign; so the result is never a number
    strictly between 0 and 0.00001 in magnitude. *)
Theorem thrust_moment_has_a_floor
    (thrust centerOfGravity omega flightAngle : float) (rocketParams : RocketParams) :
  let angleOfAttack := omega - flightAngle in
  let thrustPosition := noseHeight rocketParams + bodyHeight rocketParams in
  let momentMagnitude :=
    Math.abs (thrust * Math.sin angleOfAttack * Math.cos angleOfAttack
              * (thrustPosition - centerOfGravity) * 0.001) in
  let positive :=
    ((centerOfGravity <=? thrustPosition) && (angleOfAttack <? 0))
    || ((thrustPosition <? centerOfGravity) && (0 <=? angleOfAttack)) in
  let moment := calculateThrustMoment thrust centerOfGravity omega flightAngle rocketParams in
  ((0 <? momentMagnitude) && (momentMagnitude <? 0.00001) = true ->
   moment = if positive then 0.00001 else -0.00001)
  /\ ((0 <? momentMagnitude) && (momentMagnitude <? 0.00001) = false ->
      moment = if positive then momentMagnitude else - momentMagnitude)
  /\ (0 <? Math.abs moment) && (Math.abs moment <? 0.00001) = false.
Proof.
  intros angleOfAttack thrustPosition momentMagnitude positive moment.
  assert (Hmoment :
            moment
            = let finalMoment := if positive then momentMagnitude else - momentMagnitude in
              if (0 <? Math.abs finalMoment) && (Math.abs finalMoment <? 0.00001)
              then Math.sign finalMoment * 0.00001 else finalMoment)
    by reflexivity.
  cbv zeta in Hmoment.
  assert (Habs : Math.abs (if positive then momentMagnitude else - momentMagnitude)
                 = momentMagnitude).
  { unfold Math.abs. destruct positive; [|rewrite abs_opp];
      subst momentMagnitude; unfold Math.abs; apply abs_abs. }
  rewrite Habs in Hmoment.
  assert (Hsmall : (0 <? momentMagnitude) && (momentMagnitude <? 0.00001) = true ->
                   moment = if positive then 0.00001 else -0.00001).
  { intros Hband. rewrite Hband in Hmoment. rewrite Hmoment.
    apply Bool.andb_true_iff in Hband. destruct Hband as [Hpos _].
    destruct positive.
    - rewrite (sign_of_positive _ Hpos). reflexivity.
    - rewrite (sign_of_negative _ (opp_of_positive _ Hpos)). reflexivity. }
  assert (Hother : (0 <? momentMagnitude) && (momentMagnitude <? 0.00001) = false ->
                   moment = if positive then momentMagnitude else - momentMagnitude).
  { intros Hband. rewrite Hband in Hmoment. exact Hmoment. }
  split; [exact Hsmall|]. split; [exact Hother|].
  destruct ((0 <? momentMagnitude) && (momentMagnitude <? 0.00001)) eqn:Hband.
  - rewrite (Hsmall eq_refl). destruct positive; reflexivity.
  - rewrite (Hother eq_refl), Habs. exact Hband.
Qed.

End ThrustMoment.

(** A thrust of 1e-6 N at an angle of attack of 0.1 rad: the moment of
    magnitude about 3e-11 is raised to the floor, with its sign. *)
Lemma thrust_moment_has_a_floor_witness :
  @calculateThrustMoment Reference.math 1e-6 150 0.1 0 Examples.defaultRocket = -0.00001
  /\ @calculateThrustMoment Reference.math 1e-6 150 (-0.1) 0 Examples.defaultRocket = 0.00001.
Proof.
  split.
  - apply (@thrust_moment_has_a_floor Reference.math 1e-6 150 0.1 0 Examples.defaultRocket).
    vm_compute. reflexivity.
  - apply (@thrust_moment_has_a_floor Reference.math 1e-6 150 (-0.1) 0
             Examples.defaultRocket).
    vm_compute. reflexivity.
Defined.
